(** * learn_center_loss.py: softmax + center-loss training script

    A shallow embedding of [learn_center_loss.py] and the properties its
    specification states about it.

    - Python [int] is [Z]; Python [str] is [string] (code points below
      256); Python 3.6 or later is assumed for [int(str)] and [str.strip].
    - numpy / Keras float arithmetic is modelled by exact rationals [Q];
      rounding is not modelled.
    - Keras and numpy are external libraries: the functions the script
      calls are modelled from their documented behaviour (Keras 2.2) in
      the modules [Py], [Np], [Keras] and [Layers].
    - The collaborator modules [utils] and [datasets], the file system and
      the numerical work of training are parameters of a run, gathered in
      [Main.Env]; nothing is assumed about them.
    - A run is a computation in a state-and-exception monad [Main.M]
      whose state holds the layer objects of the model (shared between
      [model] and [embed_model]) and the trace of observable actions.
    - Not modelled: the Keras session configuration (line 100), the
      replication over several GPUs (lines 123-131: the replicated model
      trains the layer objects of [model]) and the TensorBoard log
      directory (lines 161-164). *)

From Stdlib Require Import List String Ascii Bool Arith ZArith QArith Lia.
From Stdlib Require Import DecimalString Lqa FinFun.
Import ListNotations.

Local Close Scope Q_scope.
Local Open Scope string_scope.
Local Open Scope list_scope.
Local Open Scope nat_scope.

(* ================================================================== *)
(** * Part I: definitions *)
(* ================================================================== *)

(** ** Python built-ins used by the script *)

Module Py.

(** [str.isspace] on one code point below 256: TAB..CR, FS..US, SPACE,
    NEL and NBSP. *)
Definition isspace (c : ascii) : bool :=
  let n := nat_of_ascii c in
  ((9 <=? n) && (n <=? 13)) || ((28 <=? n) && (n <=? 32))
  || (n =? 133) || (n =? 160).

Definition snoc (s : string) (c : ascii) : string :=
  String.append s (String c EmptyString).

Fixpoint lstrip (s : string) : string :=
  match s with
  | EmptyString => EmptyString
  | String c s' => if isspace c then lstrip s' else s
  end.

Fixpoint rstrip (s : string) : string :=
  match s with
  | EmptyString => EmptyString
  | String c s' =>
      match rstrip s' with
      | EmptyString => if isspace c then EmptyString else String c EmptyString
      | r => String c r
      end
  end.

(** [s.strip()] *)
Definition strip (s : string) : string := rstrip (lstrip s).

(** [s.split()] with no separator: maximal runs of non-whitespace.
    [cur] is the word being read, if any. *)
Fixpoint split_from (cur : option string) (s : string) : list string :=
  match s with
  | EmptyString => match cur with Some w => [w] | None => [] end
  | String c s' =>
      if isspace c then
        match cur with
        | Some w => w :: split_from None s'
        | None => split_from None s'
        end
      else
        split_from
          (Some (snoc (match cur with Some w => w | None => EmptyString end) c)) s'
  end.

Definition split (s : string) : list string := split_from None s.

Definition LF : ascii := ascii_of_nat 10.
Definition CR : ascii := ascii_of_nat 13.

(** Text-mode reading translates CR LF and a lone CR to LF. *)
Fixpoint universal_newlines (s : string) : string :=
  match s with
  | EmptyString => EmptyString
  | String c s' =>
      if Ascii.eqb c CR then
        match s' with
        | String c' s'' =>
            if Ascii.eqb c' LF then String LF (universal_newlines s'')
            else String LF (universal_newlines s')
        | EmptyString => String LF EmptyString
        end
      else String c (universal_newlines s')
  end.

(** Iterating a text file: each line keeps its terminating LF; a last
    line without terminator is yielded when it is not empty. *)
Fixpoint lines_from (cur : string) (s : string) : list string :=
  match s with
  | EmptyString => match cur with EmptyString => [] | _ => [cur] end
  | String c s' =>
      if Ascii.eqb c LF then snoc cur LF :: lines_from EmptyString s'
      else lines_from (snoc cur c) s'
  end.

Definition file_lines (content : string) : list string :=
  lines_from EmptyString (universal_newlines content).

Definition digit_val (c : ascii) : option Z :=
  let n := nat_of_ascii c in
  if (48 <=? n) && (n <=? 57) then Some (Z.of_nat (n - 48)) else None.

(** Digits with single underscores allowed between two digits. *)
Fixpoint parse_digits (acc : Z) (after_digit : bool) (s : string) : option Z :=
  match s with
  | EmptyString => if after_digit then Some acc else None
  | String c s' =>
      match digit_val c with
      | Some d => parse_digits (10 * acc + d) true s'
      | None =>
          if Ascii.eqb c "_"%char && after_digit
          then parse_digits acc false s'
          else None
      end
  end.

(** [int(s)] for a string; [None] is [ValueError]. *)
Definition int (s : string) : option Z :=
  match strip s with
  | String "+" r => parse_digits 0 false r
  | String "-" r => option_map Z.opp (parse_digits 0 false r)
  | r => parse_digits 0 false r
  end.

(** [OrderedDict]: an association list in insertion order.  Setting a key
    that is present keeps its position and replaces its value. *)
Definition OrderedDict (V : Type) : Type := list (string * V).

Fixpoint setitem {V} (d : OrderedDict V) (k : string) (v : V) : OrderedDict V :=
  match d with
  | [] => [(k, v)]
  | (k', v') :: d' =>
      if String.eqb k' k then (k', v) :: d' else (k', v') :: setitem d' k v
  end.

(** [OrderedDict(pairs)] *)
Definition OrderedDict_of {V} (pairs : list (string * V)) : OrderedDict V :=
  fold_left (fun d kv => setitem d (fst kv) (snd kv)) pairs [].

Definition keys {V} (d : OrderedDict V) : list string := map fst d.

(** Truthiness of an optional string argument ([if args.x:]). *)
Definition truthy (o : option string) : bool :=
  match o with
  | Some (String _ _) => true
  | _ => false
  end.

End Py.

(** ** Class-list file (lines 111-117) *)

Module ClassListFile.

Inductive class_list : Type :=
| IntLabels (ids : list Z)
| StrLabels (ids : list string).

(** [l.strip().split()[0]]; [None] is [IndexError]. *)
Definition first_word (l : string) : option string :=
  hd_error (Py.split (Py.strip l)).

(** [l.strip() != ''] *)
Definition nonblank (l : string) : bool :=
  negb (String.eqb (Py.strip l) EmptyString).

(** The generator [(l.strip().split()[0], None) for l in class_file if
    l.strip() != '']; it is consumed to the end by [OrderedDict]. *)
Fixpoint gen_pairs (ls : list string) : option (list (string * unit)) :=
  match ls with
  | [] => Some []
  | l :: ls' =>
      if nonblank l then
        match first_word l with
        | None => None
        | Some w => option_map (cons (w, tt)) (gen_pairs ls')
        end
      else gen_pairs ls'
  end.

(** [[int(lbl) for lbl in class_list]]; [None] is [ValueError]. *)
Fixpoint all_int (ws : list string) : option (list Z) :=
  match ws with
  | [] => Some []
  | w :: ws' =>
      match Py.int w with
      | None => None
      | Some z => option_map (cons z) (all_int ws')
      end
  end.

(** The [try ... except ValueError: pass] around the conversion. *)
Definition coerce (ws : list string) : class_list :=
  match all_int ws with
  | Some zs => IntLabels zs
  | None => StrLabels ws
  end.

(** Body of the [elif args.class_list is not None] branch, on the
    content of the file; [None] is an uncaught exception. *)
Definition parse_class_list (content : string) : option class_list :=
  match gen_pairs (Py.file_lines content) with
  | None => None
  | Some pairs => Some (coerce (Py.keys (Py.OrderedDict_of pairs)))
  end.

(** *** The result in closed form

    The parser's result written with the parser's own primitives
    ([Py.isspace], [Py.lstrip], [Py.file_lines], [Py.int]).  The reading
    that shares nothing with the parser is [ClassListSpec] below. *)

(** A line is blank when it holds only whitespace. *)
Fixpoint all_space (s : string) : bool :=
  match s with
  | EmptyString => true
  | String c s' => Py.isspace c && all_space s'
  end.

Fixpoint take_word (s : string) : string :=
  match s with
  | EmptyString => EmptyString
  | String c s' => if Py.isspace c then EmptyString else String c (take_word s')
  end.

(** First whitespace-separated token of a line. *)
Definition spec_first_token (l : string) : string := take_word (Py.lstrip l).

(** Duplicates removed, first-seen order kept. *)
Fixpoint spec_dedup (ws : list string) : list string :=
  match ws with
  | [] => []
  | w :: ws' => w :: filter (fun x => negb (String.eqb x w)) (spec_dedup ws')
  end.

Definition mem (k : string) (ks : list string) : bool := existsb (String.eqb k) ks.

Definition int_parseable (w : string) : bool :=
  match Py.int w with Some _ => true | None => false end.

Definition int_or_zero (w : string) : Z :=
  match Py.int w with Some z => z | None => 0%Z end.

(** Integers if every identifier parses, otherwise all strings. *)
Definition spec_coerce (ws : list string) : class_list :=
  if forallb int_parseable ws then IntLabels (map int_or_zero ws)
  else StrLabels ws.

Definition spec_class_list (content : string) : class_list :=
  spec_coerce
    (spec_dedup
       (map spec_first_token
          (filter (fun l => negb (all_space l)) (Py.file_lines content)))).

End ClassListFile.

(** ** The class list as the specification words it

    A second reading of the class-list file, written from the
    specification's sentence and sharing no definition with the parser
    above: whitespace, lines, tokens, the removal of duplicates and the
    integer reading are all defined afresh. *)

Module ClassListSpec.

(** The whitespace characters below code point 256. *)
Definition whitespace : list nat :=
  [9; 10; 11; 12; 13; 28; 29; 30; 31; 32; 133; 160].

Definition is_space (c : ascii) : bool :=
  existsb (Nat.eqb (nat_of_ascii c)) whitespace.

(** The lines of a text, without their terminators; a terminator is LF,
    CR LF or a lone CR. *)
Fixpoint lines (s : string) : list string :=
  match s with
  | EmptyString => []
  | String c s' =>
      if Ascii.eqb c "010"%char then EmptyString :: lines s'
      else if Ascii.eqb c "013"%char then
        match s' with
        | String c' s'' =>
            if Ascii.eqb c' "010"%char then EmptyString :: lines s''
            else EmptyString :: lines s'
        | EmptyString => [EmptyString]
        end
      else
        match lines s' with
        | [] => [String c EmptyString]
        | l :: ls => String c l :: ls
        end
  end.

(** A blank line holds nothing but whitespace. *)
Definition blank (l : string) : bool :=
  forallb is_space (list_ascii_of_string l).

Fixpoint drop_spaces (cs : list ascii) : list ascii :=
  match cs with
  | [] => []
  | c :: cs' => if is_space c then drop_spaces cs' else cs
  end.

Fixpoint word (cs : list ascii) : list ascii :=
  match cs with
  | [] => []
  | c :: cs' => if is_space c then [] else c :: word cs'
  end.

(** The first whitespace-separated token of a line. *)
Definition first_token (l : string) : string :=
  string_of_list_ascii (word (drop_spaces (list_ascii_of_string l))).

(** Identifiers in the order in which they are first seen. *)
Fixpoint dedup_from (seen : list string) (ws : list string) : list string :=
  match ws with
  | [] => []
  | w :: ws' =>
      if existsb (String.eqb w) seen then dedup_from seen ws'
      else w :: dedup_from (w :: seen) ws'
  end.

Definition dedup (ws : list string) : list string := dedup_from [] ws.

(** The identifiers of a class-list file. *)
Definition identifiers (content : string) : list string :=
  dedup (map first_token (filter (fun l => negb (blank l)) (lines content))).

(** *** Integer literals *)

Definition digit (c : ascii) : option Z :=
  match c with
  | "0"%char => Some 0%Z
  | "1"%char => Some 1%Z
  | "2"%char => Some 2%Z
  | "3"%char => Some 3%Z
  | "4"%char => Some 4%Z
  | "5"%char => Some 5%Z
  | "6"%char => Some 6%Z
  | "7"%char => Some 7%Z
  | "8"%char => Some 8%Z
  | "9"%char => Some 9%Z
  | _ => None
  end.

Definition is_digit (c : ascii) : bool :=
  match digit c with Some _ => true | None => false end.

Definition is_underscore (c : ascii) : bool := Ascii.eqb c "_"%char.

(** Value of decimal digits, the most significant first. *)
Fixpoint decimal_value (ds : list Z) : Z :=
  match ds with
  | [] => 0%Z
  | d :: ds' => (d * 10 ^ Z.of_nat (List.length ds') + decimal_value ds')%Z
  end.

(** The digits of a literal; its underscores carry no value. *)
Fixpoint digits_of (cs : list ascii) : list Z :=
  match cs with
  | [] => []
  | c :: cs' =>
      match digit c with
      | Some d => d :: digits_of cs'
      | None => digits_of cs'
      end
  end.

Fixpoint no_double_underscore (cs : list ascii) : bool :=
  match cs with
  | [] => true
  | a :: cs' =>
      match cs' with
      | [] => true
      | b :: _ => negb (is_underscore a && is_underscore b)
      end && no_double_underscore cs'
  end.

Definition starts_with_digit (cs : list ascii) : bool :=
  match cs with
  | [] => false
  | c :: _ => is_digit c
  end.

Fixpoint ends_with_digit (cs : list ascii) : bool :=
  match cs with
  | [] => false
  | c :: cs' =>
      match cs' with
      | [] => is_digit c
      | _ :: _ => ends_with_digit cs'
      end
  end.

(** What may follow in a literal: digits and underscores only, never two
    underscores in a row, a digit at the end and, unless a digit came just
    before, a digit at the start. *)
Definition literal_after (after_digit : bool) (cs : list ascii) : bool :=
  forallb (fun c => is_digit c || is_underscore c) cs
  && no_double_underscore cs
  && (after_digit || starts_with_digit cs)
  && match cs with
     | [] => after_digit
     | _ :: _ => ends_with_digit cs
     end.

(** An unsigned integer literal: decimal digits, single underscores
    allowed between two digits. *)
Definition literal (cs : list ascii) : bool := literal_after false cs.

(** The integer a token denotes, if it is an integer literal with an
    optional sign. *)
Definition int_value (w : string) : option Z :=
  let cs := list_ascii_of_string w in
  let (sign, body) :=
    match cs with
    | "+"%char :: r => (1%Z, r)
    | "-"%char :: r => ((-1)%Z, r)
    | _ => (1%Z, cs)
    end in
  if literal body then Some (sign * decimal_value (digits_of body))%Z
  else None.

Definition is_int (w : string) : bool :=
  match int_value w with Some _ => true | None => false end.

(** Integers when every identifier is an integer literal, otherwise the
    identifiers themselves. *)
Definition labels (ws : list string) : ClassListFile.class_list :=
  if forallb is_int ws
  then ClassListFile.IntLabels
         (map (fun w => match int_value w with Some z => z | None => 0%Z end) ws)
  else ClassListFile.StrLabels ws.

(** The class list of a class-list file. *)
Definition class_list_of (content : string) : ClassListFile.class_list :=
  labels (identifiers content).

End ClassListSpec.

(** ** numpy *)

Module Np.

(** A 2-d float array, row major. *)
Definition matrix : Type := list (list Q).

Definition qsum (v : list Q) : Q := fold_right Qplus 0%Q v.

(** [np.zeros(n)] *)
Definition zeros (n : nat) : list Q := repeat 0%Q n.

(** One row of [np.zeros((_, n))] after [row[k] = 1]. *)
Definition unit_row (n k : nat) : list Q :=
  map (fun j => if j =? k then 1%Q else 0%Q) (seq 0 n).

(** An integer index into an axis of List.length [n]: negative indices count
    from the end; [None] is [IndexError]. *)
Definition index (n i : Z) : option nat :=
  if ((0 <=? i) && (i <? n))%Z then Some (Z.to_nat i)
  else if ((- n <=? i) && (i <? 0))%Z then Some (Z.to_nat (i + n))
  else None.

Definition zmax (l : list Z) : Z := fold_right Z.max (-1)%Z l.

(** [np.bincount(l)]: [None] is [ValueError] on a negative entry. *)
Definition bincount (l : list Z) : option (list Z) :=
  if forallb (fun x => (0 <=? x)%Z) l then
    Some (map (fun c => Z.of_nat (count_occ Z.eq_dec l (Z.of_nat c)))
              (seq 0 (Z.to_nat (zmax l + 1))))
  else None.

(** [a[i]] for an integer array [a]. *)
Definition getitem (a : list Z) (i : Z) : option Z :=
  match index (Z.of_nat (List.length a)) i with
  | Some k => nth_error a k
  | None => None
  end.

(** [a[idx]] for an index array [idx]. *)
Fixpoint take (a : list Z) (idx : list Z) : option (list Z) :=
  match idx with
  | [] => Some []
  | i :: idx' =>
      match getitem a i, take a idx' with
      | Some x, Some xs => Some (x :: xs)
      | _, _ => None
      end
  end.

End Np.

(** ** Keras library functions called by the script *)

Module Keras.

(** [categorical[np.arange(n), y] = 1] on [np.zeros((n, ncls))], row by
    row; [None] is [IndexError]. *)
Fixpoint scatter_ones (ncls : Z) (y : list Z) : option Np.matrix :=
  match y with
  | [] => Some []
  | l :: y' =>
      match Np.index ncls l, scatter_ones ncls y' with
      | Some k, Some rs => Some (Np.unit_row (Z.to_nat ncls) k :: rs)
      | _, _ => None
      end
  end.

(** [keras.utils.to_categorical(y, num_classes)] for a 1-d [y]:
    [if not num_classes: num_classes = np.max(y) + 1], then the
    assignment above.  [None] is an exception: [np.max] of an empty
    array, [np.zeros] of a negative size, or an index out of bounds. *)
Definition to_categorical (y : list Z) (num_classes : Z) : option Np.matrix :=
  let ncls :=
    if (num_classes =? 0)%Z then
      match y with [] => None | _ => Some (Np.zmax y + 1)%Z end
    else Some num_classes in
  match ncls with
  | None => None
  | Some n => if (n <? 0)%Z then None else scatter_ones n y
  end.

(** Learning rate of [keras.optimizers.SGD] at update number [t]:
    [if self.initial_decay > 0: lr = lr * (1. / (1. + decay * t))]. *)
Definition sgd_lr (lr decay : Q) (t : Z) : Q :=
  if Qlt_le_dec 0 decay then (lr * (1 / (1 + decay * inject_Z t)))%Q else lr.

End Keras.

(** ** [transform_inputs] (lines 44-46) *)

(** [X] is a batch of images; the image type is left open. *)
Definition transform_inputs {Image : Type} (X : list Image) (y : list Z) (num_classes : Z)
  : option ((list Image * list Z) * (Np.matrix * list Q)) :=
  match Keras.to_categorical y num_classes with
  | None => None
  | Some onehot => Some ((X, y), (onehot, Np.zeros (List.length X)))
  end.

(** ** Average accuracy (lines 184-188) *)

Module Evaluate.

(** [(test_pred == labels).astype(float) / class_freq[labels]] *)
Fixpoint weighted_hits (pred lab freq : list Z) : list Q :=
  match pred, lab, freq with
  | p :: pred', l :: lab', f :: freq' =>
      ((if (p =? l)%Z then 1 else 0) / inject_Z f)%Q :: weighted_hits pred' lab' freq'
  | _, _, _ => []
  end.

Inductive outcome : Type :=
| Value (acc : Q)
| NotANumber
| Exception.

(** The value printed as [Average Accuracy].  [Exception] is a
    [bincount] of a negative label or arrays of different lengths;
    [NotANumber] is the float division by [len(class_freq) = 0].

    Scope: the value is the exact rational of the formula, where line 187
    computes in float64, so it can differ from the printed number by
    rounding: a bound such as [acc <= 1] on the exact value need not
    hold of the float.  The model is meant for predictions and labels
    of one length, not zero, which is what [predict_generator] returns
    for a test set that is not empty; outside of that, numpy broadcasts
    an array of length 1 and indexing by an empty list may raise, which
    the model does not follow. *)
Definition average_accuracy (test_pred labels_test : list Z) : outcome :=
  match Np.bincount labels_test with
  | None => Exception
  | Some class_freq =>
      if negb (List.length test_pred =? List.length labels_test) then Exception
      else
        match Np.take class_freq labels_test with
        | None => Exception
        | Some freq =>
            if List.length class_freq =? 0 then NotANumber
            else Value (Np.qsum (weighted_hits test_pred labels_test freq)
                        / inject_Z (Z.of_nat (List.length class_freq)))%Q
        end
  end.

(** *** The specification's wording, for comparison *)

Definition count_class (c : Z) (lab : list Z) : nat :=
  List.length (filter (fun l => (l =? c)%Z) lab).

Definition count_correct (c : Z) (pred lab : list Z) : nat :=
  List.length (filter (fun pl => (snd pl =? c)%Z && (fst pl =? snd pl)%Z) (combine pred lab)).

(** Correct-prediction rate of class [c]: correct / total among the test
    examples of class [c]. *)
Definition class_rate (pred lab : list Z) (c : Z) : Q :=
  (inject_Z (Z.of_nat (count_correct c pred lab))
   / inject_Z (Z.of_nat (count_class c lab)))%Q.

(** The classes of a test set: the distinct labels occurring in it. *)
Definition classes (lab : list Z) : list Z := nodup Z.eq_dec lab.

(** Mean over a list of classes of the per-class rate. *)
Definition mean_rate (cls : list Z) (pred lab : list Z) : Q :=
  (Np.qsum (map (class_rate pred lab) cls) / inject_Z (Z.of_nat (List.length cls)))%Q.

Definition spec_average_accuracy (pred lab : list Z) : Q :=
  mean_rate (classes lab) pred lab.

(** Simple overall accuracy. *)
Definition overall_accuracy (pred lab : list Z) : Q :=
  (inject_Z (Z.of_nat (List.length (filter (fun pl => (fst pl =? snd pl)%Z) (combine pred lab))))
   / inject_Z (Z.of_nat (List.length lab)))%Q.

(** Class indices [0 .. max label]. *)
Definition class_range (lab : list Z) : list Z :=
  map Z.of_nat (seq 0 (Z.to_nat (Np.zmax lab + 1))).

End Evaluate.

(** ** Learning-rate decay (lines 166-169) *)

Module Decay.

(** [args.epochs if args.epochs else num_epochs] *)
Definition total_epochs (epochs : option Z) (num_epochs : Z) : Z :=
  match epochs with
  | Some e => if (e =? 0)%Z then num_epochs else e
  | None => num_epochs
  end.

(** [(num_train // batch_size) * epochs] *)
Definition total_batches (num_train batch_size : Z) (epochs : option Z) (num_epochs : Z) : Z :=
  ((num_train / batch_size) * total_epochs epochs num_epochs)%Z.

(** The value bound to [decay]; [None] is [ZeroDivisionError]. *)
Definition decay (max_decay : Q) (num_train batch_size : Z)
           (epochs : option Z) (num_epochs : Z) : option Q :=
  if Qlt_le_dec 0 max_decay then
    if (batch_size =? 0)%Z then None
    else
      let n := total_batches num_train batch_size epochs num_epochs in
      if (n =? 0)%Z then None
      else Some ((1 / max_decay - 1) / inject_Z n)%Q
  else Some 0%Q.

End Decay.

(** ** Keras layers and the model builder (lines 17-41) *)

Module Layers.

Inductive layer_kind : Type :=
| InputLayer | Trunk | Activation | BatchNormalization | Dense
| Embedding | Lambda | Subtract.

(** A layer object: its name, its [trainable] attribute and its weight
    arrays. *)
Record layer : Type := mkLayer {
  name : string;
  kind : layer_kind;
  trainable : bool;
  weights : list Np.matrix
}.

Definition set_trainable (b : bool) (l : layer) : layer :=
  mkLayer (name l) (kind l) b (weights l).

Definition set_weights (ws : list Np.matrix) (l : layer) : layer :=
  mkLayer (name l) (kind l) (trainable l) ws.

(** Static shape of a tensor; [None] is the batch axis. *)
Definition shape : Type := list (option nat).

(** [array.shape] of a 2-d array.  A matrix without rows has no row to
    measure and is given width 0: arrays of shape [(0, d)] with [d > 0]
    are outside the model. *)
Definition shape2 (m : Np.matrix) : nat * nat :=
  (List.length m, match m with r :: _ => List.length r | [] => 0 end).

Definition same_shape (a b : Np.matrix) : bool :=
  let '(r1, c1) := shape2 a in
  let '(r2, c2) := shape2 b in
  (r1 =? r2) && (c1 =? c2).

(** The embedding network returned by [utils.build_network]: its layer
    objects and the last axis of its output. *)
Record network : Type := mkNetwork {
  net_layers : list layer;
  out_dim : nat
}.

(** What the Keras session contributes to building a model: weight
    initialisers and the counters behind automatic layer names. *)
Record backend : Type := mkBackend {
  init : nat -> nat -> Np.matrix;
  activation_uid : nat;
  lambda_uid : nat
}.

Definition decimal (n : nat) : string :=
  DecimalString.NilEmpty.string_of_uint (Nat.to_uint n).

(** [centroids]: a class count or a matrix. *)
Inductive centroids_arg : Type :=
| NumClasses (n : Z)
| Centroids (m : Np.matrix).

(** A [keras.models.Model].  [layers] are the layer objects of the
    model; the first [n_embed] of them are the layer objects of the
    embedding network, which the two models share. *)
Record model : Type := mkModel {
  layers : list layer;
  n_embed : nat;
  output_shapes : list shape
}.

(** [keras.layers.Dense(units)] on a [(None, d)] input. *)
Definition dense_shape (units : nat) (input : shape) : shape :=
  removelast input ++ [Some units].

(** [keras.layers.Embedding(_, output_dim)]: input shape + [(output_dim,)]. *)
Definition embedding_shape (output_dim : nat) (input : shape) : shape :=
  input ++ [Some output_dim].

(** [x[:, None, :]] on a rank-2 tensor. *)
Definition expand_shape (input : shape) : shape :=
  match input with
  | b :: rest => b :: Some 1 :: rest
  | [] => []
  end.

(** [K.sum(_, axis = -1)] *)
Definition sum_last_shape (input : shape) : shape := removelast input.

(** No string occurs twice. *)
Fixpoint unique (names : list string) : bool :=
  match names with
  | [] => true
  | n :: names' => negb (existsb (String.eqb n) names') && unique names'
  end.

(** Names of the layers that the builder adds to the embedding network. *)
Definition head_layer_names (be : backend) : list string :=
  [("activation_" ++ decimal (activation_uid be))%string; "embedding_bn"%string;
   "prob"%string; "labels"%string; "cls_centroids"%string;
   ("lambda_" ++ decimal (lambda_uid be))%string; "center_dist"%string;
   "center_loss"%string].

Definition center_loss_model (be : backend) (base_model : network) (centroids : centroids_arg)
  : option model :=
  let num_classes :=
    match centroids with
    | Centroids m => Z.of_nat (fst (shape2 m))
    | NumClasses n => n
    end in
  (* a layer cannot be given a negative size; a matrix that does not fit
     the lookup table makes [set_weights] raise: both are [None] *)
  if (num_classes <? 0)%Z then None
  else
    let ncls := Z.to_nat num_classes in
    let d := out_dim base_model in
    let embedding : shape := [None; Some d] in
    let relu := mkLayer ("activation_" ++ decimal (activation_uid be)) Activation true [] in
    let bn := mkLayer "embedding_bn" BatchNormalization true
                      [init be 1 d; init be 1 d; init be 1 d; init be 1 d] in
    let prob_layer := mkLayer "prob" Dense true [init be d ncls; init be 1 ncls] in
    let prob : shape := dense_shape ncls embedding in
    let cls_input_ : shape := [None; Some 1] in
    let labels := mkLayer "labels" InputLayer true [] in
    let cls_embedding : shape := embedding_shape d cls_input_ in
    let cls_embedding_layer :=
      match centroids with
      | Centroids m =>
          if snd (shape2 m) =? d
          then Some (mkLayer "cls_centroids" Embedding false [m])
          else None
      | NumClasses _ => Some (mkLayer "cls_centroids" Embedding true [init be ncls d])
      end in
    match cls_embedding_layer with
    | None => None
    | Some centroid_layer =>
        let expand := mkLayer ("lambda_" ++ decimal (lambda_uid be)) Lambda true [] in
        let center_dist := mkLayer "center_dist" Subtract true [] in
        let center_loss_layer := mkLayer "center_loss" Lambda true [] in
        let center_loss : shape := sum_last_shape cls_embedding in
        let all_layers :=
          net_layers base_model
          ++ [relu; bn; prob_layer; labels; centroid_layer;
              expand; center_dist; center_loss_layer] in
        (* [Model(...)] raises when two layers have one name *)
        if unique (map name all_layers) then
          Some (mkModel all_layers (List.length (net_layers base_model))
                        [prob; center_loss])
        else None
    end.

(** *** Forward pass of the center-loss head *)

(** The [Embedding] layer: one table row per id.  [None] is an id
    outside the table. *)
Definition lookup_row (table : Np.matrix) (i : Z) : option (list Q) :=
  if (i <? 0)%Z then None else nth_error table (Z.to_nat i).

Fixpoint lookup_ids (table : Np.matrix) (ids : list Z) : option (list (list Q)) :=
  match ids with
  | [] => Some []
  | i :: ids' =>
      match lookup_row table i, lookup_ids table ids' with
      | Some r, Some rs => Some (r :: rs)
      | _, _ => None
      end
  end.

Fixpoint embedding_call (table : Np.matrix) (x : list (list Z)) : option (list Np.matrix) :=
  match x with
  | [] => Some []
  | ids :: x' =>
      match lookup_ids table ids, embedding_call table x' with
      | Some r, Some rs => Some (r :: rs)
      | _, _ => None
      end
  end.

(** [lambda x: x[:, None, :]] *)
Definition expand_call (x : Np.matrix) : list Np.matrix := map (fun r => [r]) x.

Fixpoint zip_with {A B C} (f : A -> B -> C) (a : list A) (b : list B) : list C :=
  match a, b with
  | x :: a', y :: b' => f x y :: zip_with f a' b'
  | _, _ => []
  end.

(** [keras.layers.subtract([a, b])] on rank-3 tensors of one shape. *)
Definition subtract_call (a b : list Np.matrix) : list Np.matrix :=
  zip_with (zip_with (zip_with Qminus)) a b.

(** [lambda x: K.sum(K.square(x), axis = -1) / 2] *)
Definition center_loss_call (x : list Np.matrix) : Np.matrix :=
  map (map (fun v => Np.qsum (map (fun t => t * t) v) / 2)%Q) x.

(** Lines 28-39 on values: the second output for the lookup table
    [table], the trunk's output [embedding] (batch x embed_dim) and the
    [labels] input (batch x 1).  [None] is a label outside the table. *)
Definition center_loss_head (table : Np.matrix) (embedding : Np.matrix)
           (labels : list (list Z)) : option Np.matrix :=
  match embedding_call table labels with
  | Some cls_embedding =>
      Some (center_loss_call (subtract_call (expand_call embedding) cls_embedding))
  | None => None
  end.

(** The lookup table of a model: the weights of [cls_embedding_layer],
    the fifth layer object that the builder creates. *)
Definition centroid_table (m : model) : option Np.matrix :=
  match nth_error (layers m) (n_embed m + 4) with
  | Some (mkLayer _ _ _ [table]) => Some table
  | _ => None
  end.

(** Second output of the model. *)
Definition center_loss_output (m : model) (embedding : Np.matrix) (labels : list (list Z))
  : option Np.matrix :=
  match centroid_table m with
  | Some table => center_loss_head table embedding labels
  | None => None
  end.

(** What the builder accepts for an embedding network of output size
    [d]: a class count that is not negative, or a matrix whose rows
    have [d] entries. *)
Definition valid_centroids (d : nat) (centroids : centroids_arg) : Prop :=
  match centroids with
  | NumClasses n => (0 <= n)%Z
  | Centroids m => snd (shape2 m) = d
  end.

Definition num_classes_of (centroids : centroids_arg) : nat :=
  match centroids with
  | NumClasses n => Z.to_nat n
  | Centroids m => List.length m
  end.

(** The lookup table right after the model is built. *)
Definition initial_table (be : backend) (d : nat) (centroids : centroids_arg) : Np.matrix :=
  match centroids with
  | NumClasses n => init be (Z.to_nat n) d
  | Centroids m => m
  end.

(** *** The specification's wording, for comparison *)

(** Half the sum over the embedding dimension of the squared
    differences between an embedding and a centroid. *)
Definition spec_center_loss (e c : list Q) : Q :=
  ((1 # 2) * Np.qsum (zip_with (fun a b => (a - b) * (a - b)) e c))%Q.

End Layers.

(** ** The script (lines 50-206) *)

Module Main.

Import Layers.

(** The parsed command line, as far as the script reads it. *)
Record Args : Type := mkArgs {
  class_list : option string;
  embed_dim : Z;
  centroids : option string;
  center_loss_weight : Q;
  clipgrad : Q;
  max_decay : Q;
  epochs : option Z;
  batch_size : Z;
  val_batch_size : option Z;
  finetune : option string;
  finetune_init : Z;
  no_progress : bool;
  model_dump : option string;
  weight_dump : option string;
  feature_dump : option string;
  sgd_lr : Q
}.

(** What the script reads of the object returned by
    [get_data_generator]. *)
Record data_generator : Type := mkData {
  num_classes : Z;
  num_train : Z;
  num_test : Z;
  labels_test : list Z
}.

(** Everything outside the script: the file system, the collaborators
    [datasets] and [utils], and the numerical work of Keras.  [None] in
    a result is an exception raised by the call. *)
Record Env : Type := mkEnv {
  (** [pickle.load] of a centroid file: [ind2label] and [embedding] *)
  pickle_file : string -> option (ClassListFile.class_list * Np.matrix);
  (** content of a text file *)
  text_file : string -> option string;
  (** [get_data_generator(dataset, data_root, classes)] *)
  get_data_generator : option ClassListFile.class_list -> option data_generator;
  (** [utils.build_network(embed_dim, architecture)] *)
  build_network : Z -> network;
  keras_backend : backend;
  (** weight arrays by layer name in a weight file *)
  weight_file : string -> option (string -> option (list Np.matrix));
  (** [num_epochs] of [utils.get_lr_schedule(lr_schedule, num_train,
      batch_size, schedule_args)], where [schedule_args] holds every
      argument of the command line that is not [None]; [None]:
      configuration error *)
  get_lr_schedule : Args -> Z -> option Z;
  (** batches per epoch of the training sequence *)
  steps_per_epoch : nat;
  (** new weights of a layer that is updated by optimizer step number [k] *)
  sgd_update : nat -> layer -> list Np.matrix;
  (** [predict_generator(...)[0].argmax(axis = -1)] on the test images *)
  predict_classes : list layer -> list Z;
  (** the [Exception] raised by [model.save_weights], if any *)
  save_weights_error : option string;
  (** the [Exception] raised by [model.save], if any *)
  save_error : option string;
  (** the exception raised while dumping the test features, if any *)
  feature_dump_error : option string
}.

(** Observable actions of a run, in order. *)
Inductive event : Type :=
| OpenPickle (path : string)
| OpenText (path : string)
| GetDataGenerator (classes : option ClassListFile.class_list)
| Summary
| Print (msg : string)
| LoadWeights (path : string)
| Compile (decay : Q) (trainable : list bool)
| Fit (n_epochs : Z)
| PrintMetrics
| PrintAverageAccuracy (acc : option Q)
| SaveWeights (path : string)
| Save (path : string)
| DumpFeatures (path : string).

(** The mutable objects of a run: the layer objects of [model] (shared
    with [embed_model], see [Layers.model]), what the last [compile]
    collected as trainable, and the actions so far. *)
Record state : Type := mkState {
  st_layers : list layer;
  st_n_embed : nat;
  st_collected : list bool;
  st_trace : list event
}.

Inductive result (A : Type) : Type :=
| Ok (a : A)
| Raise (e : string).
Arguments Ok {A} a.
Arguments Raise {A} e.

Definition M (A : Type) : Type := state -> result A * state.

Definition ret {A} (a : A) : M A := fun s => (Ok a, s).

Definition bind {A B} (m : M A) (k : A -> M B) : M B :=
  fun s =>
    match m s with
    | (Ok a, s') => k a s'
    | (Raise e, s') => (Raise e, s')
    end.

Definition raise {A} (e : string) : M A := fun s => (Raise e, s).

Definition emit (e : event) : M unit :=
  fun s => (Ok tt, mkState (st_layers s) (st_n_embed s) (st_collected s) (st_trace s ++ [e])).

Definition get_layers : M (list layer) := fun s => (Ok (st_layers s), s).

Definition put_layers (ls : list layer) : M unit :=
  fun s => (Ok tt, mkState ls (st_n_embed s) (st_collected s) (st_trace s)).

Definition put_model (m : model) : M unit :=
  fun s => (Ok tt, mkState (layers m) (n_embed m) (st_collected s) (st_trace s)).

Definition lift {A} (o : option A) (e : string) : M A :=
  match o with
  | Some a => ret a
  | None => raise e
  end.

Definition when (b : bool) (m : M unit) : M unit := if b then m else ret tt.

Declare Scope run_scope.
Delimit Scope run_scope with run.
Notation "x <- m ;; k" := (bind m (fun x => k))
  (at level 61, m at next level, right associativity) : run_scope.
Notation "m ;;; k" := (bind m (fun _ => k))
  (at level 61, right associativity) : run_scope.
Local Open Scope run_scope.

(** *** Lines 102-117: class centroids and class list *)

Definition load_classes (env : Env) (args : Args)
  : M (option Np.matrix * option ClassListFile.class_list * Z) :=
  if Py.truthy (centroids args) then
    let path := match centroids args with Some p => p | None => EmptyString end in
    emit (OpenPickle path) ;;;
    pf <- lift (pickle_file env path) "pickle" ;;
    let '(ind2label, embedding) := pf in
    ret (Some embedding, Some ind2label, Z.of_nat (snd (shape2 embedding)))
  else
    match class_list args with
    | Some path =>
        emit (OpenText path) ;;;
        content <- lift (text_file env path) "open" ;;
        cl <- lift (ClassListFile.parse_class_list content) "IndexError" ;;
        ret (None, Some cl, embed_dim args)
    | None => ret (None, None, embed_dim args)
    end.

(** *** Lines 119-135: data set and model *)

Definition build (env : Env) (args : Args)
           (loaded : option Np.matrix * option ClassListFile.class_list * Z)
  : M data_generator :=
  let '(cents, classes, dim) := loaded in
  emit (GetDataGenerator classes) ;;;
  dg <- lift (get_data_generator env classes) "get_data_generator" ;;
  let embed_model := build_network env dim in
  m <- lift (center_loss_model (keras_backend env) embed_model
               (match cents with
                | Some c => Centroids c
                | None => NumClasses (num_classes dg)
                end)) "center_loss_model" ;;
  put_model m ;;;
  when (negb (no_progress args)) (emit Summary) ;;;
  ret dg.

(** *** Keras calls on the model *)

(** [load_weights(path, by_name = True, skip_mismatch = True)] on one
    layer: a layer whose name is in the file takes the stored arrays;
    a different number of arrays skips the layer, an array of another
    shape is skipped. *)
Definition load_layer (file : string -> option (list Np.matrix)) (l : layer) : layer :=
  match file (name l) with
  | None => l
  | Some ws =>
      if List.length ws =? List.length (weights l) then
        set_weights
          (zip_with (fun old new => if same_shape old new then new else old) (weights l) ws) l
      else l
  end.

Definition load_weights (env : Env) (path : string) : M unit :=
  emit (LoadWeights path) ;;;
  file <- lift (weight_file env path) "load_weights" ;;
  ls <- get_layers ;;
  put_layers (map (load_layer file) ls).

(** [compile]: the weights to be trained are those of the layers that
    are trainable now. *)
Definition compile (decay : Q) : M unit :=
  fun s =>
    let tr := map trainable (st_layers s) in
    (Ok tt, mkState (st_layers s) (st_n_embed s) tr
                    (st_trace s ++ [Compile decay tr])).

(** One optimizer step: the layers collected by [compile] get new
    weights from [update] (the [sgd_update] of the environment); a layer
    that was not collected keeps its weights. *)
Fixpoint train_step (update : nat -> layer -> list Np.matrix) (k : nat)
         (collected : list bool) (ls : list layer) : list layer :=
  match ls with
  | [] => []
  | l :: ls' =>
      (if hd false collected then set_weights (update k l) l else l)
      :: train_step update k (tl collected) ls'
  end.

Fixpoint train_steps (update : nat -> layer -> list Np.matrix) (n : nat)
         (collected : list bool) (ls : list layer) : list layer :=
  match n with
  | O => ls
  | S n' => train_step update n' collected (train_steps update n' collected ls)
  end.

(** [fit_generator(..., epochs = n)] *)
Definition fit_generator (env : Env) (n_epochs : Z) : M unit :=
  fun s =>
    (Ok tt,
     mkState (train_steps (sgd_update env) (Z.to_nat n_epochs * steps_per_epoch env)
                          (st_collected s) (st_layers s))
             (st_n_embed s) (st_collected s) (st_trace s ++ [Fit n_epochs])).

(** *** Lines 137-156: fine-tuning *)

Definition head_names : list string :=
  ["embedding"; "embedding_bn"; "prob"; "cls_centroids"]%string.

Definition in_names (nm : string) (names : list string) : bool :=
  existsb (String.eqb nm) names.

(** [for layer in model.layers: layer.trainable = (layer.name in (...))] *)
Definition freeze_all_but_head (ls : list layer) : list layer :=
  map (fun l => set_trainable (in_names (name l) head_names) l) ls.

(** [ls[i] = f(ls[i])] *)
Fixpoint update_nth {A} (i : nat) (f : A -> A) (ls : list A) {struct ls} : list A :=
  match ls, i with
  | [], _ => []
  | x :: ls', O => f x :: ls'
  | x :: ls', S i' => x :: update_nth i' f ls'
  end.

(** [embed_model.layers[-1].trainable = True]: the last layer object of
    the embedding network, which is the object number [n_embed - 1] of
    [model]. *)
Definition unfreeze_last_embed : M unit :=
  fun s =>
    match st_n_embed s with
    | O => (Raise "IndexError", s)
    | S i =>
        (Ok tt, mkState (update_nth i (set_trainable true) (st_layers s))
                        (st_n_embed s) (st_collected s) (st_trace s))
    end.

Definition finetune_phase (env : Env) (args : Args) : M unit :=
  if Py.truthy (finetune args) then
    let path := match finetune args with Some p => p | None => EmptyString end in
    emit (Print ("Loading pre-trained weights from " ++ path)) ;;;
    load_weights env path ;;;
    emit (Print "Pre-training new layers") ;;;
    ls <- get_layers ;;
    put_layers (freeze_all_but_head ls) ;;;
    unfreeze_last_embed ;;;
    compile 0 ;;;
    fit_generator env (finetune_init args) ;;;
    ls <- get_layers ;;
    put_layers (map (set_trainable true) ls) ;;;
    emit (Print "Full model training")
  else ret tt.

(** *** Lines 158-180: full training

    Lines 161-164 are left out: with [--log_dir] the script removes that
    directory if it exists and adds a TensorBoard callback, which writes
    there during training.  The trace therefore records no file-system
    effect of training. *)

Definition train_phase (env : Env) (args : Args) (dg : data_generator) : M unit :=
  num_epochs <- lift (get_lr_schedule env args (num_train dg)) "get_lr_schedule" ;;
  decay <- lift (Decay.decay (max_decay args) (num_train dg) (batch_size args)
                             (epochs args) num_epochs) "ZeroDivisionError" ;;
  compile decay ;;;
  fit_generator env (Decay.total_epochs (epochs args) num_epochs).

(** *** Lines 182-188: evaluation *)

Definition evaluate_phase (env : Env) (dg : data_generator) : M unit :=
  emit PrintMetrics ;;;
  ls <- get_layers ;;
  let test_pred := predict_classes env ls in
  match Evaluate.average_accuracy test_pred (labels_test dg) with
  | Evaluate.Exception => raise "average accuracy"
  | Evaluate.NotANumber => emit (PrintAverageAccuracy None)
  | Evaluate.Value acc => emit (PrintAverageAccuracy (Some acc))
  end.

(** *** Lines 190-200: saving the model *)

Definition path_of (o : option string) : string :=
  match o with Some p => p | None => EmptyString end.

Definition save_model (env : Env) (args : Args) : M unit :=
  when (Py.truthy (weight_dump args))
       (emit (SaveWeights (path_of (weight_dump args))) ;;;
        match save_weights_error env with
        | Some e => emit (Print ("An error occurred while saving the model weights: " ++ e))
        | None => ret tt
        end) ;;;
  when (Py.truthy (model_dump args))
       (emit (Save (path_of (model_dump args))) ;;;
        match save_error env with
        | Some e => emit (Print ("An error occurred while saving the model: " ++ e))
        | None => ret tt
        end).

(** *** Lines 202-206: test image embeddings *)

Definition dump_features (env : Env) (args : Args) : M unit :=
  when (Py.truthy (feature_dump args))
       (emit (DumpFeatures (path_of (feature_dump args))) ;;;
        match feature_dump_error env with
        | Some e => raise e
        | None => ret tt
        end).

(** *** The run *)

Definition until_trained (env : Env) (args : Args) : M data_generator :=
  loaded <- load_classes env args ;;
  dg <- build env args loaded ;;
  finetune_phase env args ;;;
  train_phase env args dg ;;;
  ret dg.

Definition main (env : Env) (args : Args) : M unit :=
  dg <- until_trained env args ;;
  evaluate_phase env dg ;;;
  save_model env args ;;;
  dump_features env args.

Definition initial : state := mkState [] 0 [] [].

Definition run (env : Env) (args : Args) : result unit * state :=
  main env args initial.

(** *** Vocabulary for the properties *)

(** The lookup table held by the [cls_centroids] layer object. *)
Definition st_centroid_table (s : state) : option Np.matrix :=
  centroid_table (mkModel (st_layers s) (st_n_embed s) []).

Definition add_events (s : state) (evs : list event) : state :=
  mkState (st_layers s) (st_n_embed s) (st_collected s) (st_trace s ++ evs).

(** An attempt to save the weights or the model. *)
Definition is_save (e : event) : bool :=
  match e with
  | SaveWeights _ | Save _ => true
  | _ => false
  end.

Definition is_open_text (e : event) : bool :=
  match e with
  | OpenText _ => true
  | _ => false
  end.

(** Actions of one export target: the attempt, then the report of its
    failure if it fails. *)
Definition export_events (target : option string) (attempt : string -> event)
           (error : option string) (message : string) : list event :=
  if Py.truthy target then
    attempt (path_of target)
    :: match error with
       | Some e => [Print (message ++ e)]
       | None => []
       end
  else [].

Definition save_events (env : Env) (args : Args) : list event :=
  export_events (weight_dump args) SaveWeights (save_weights_error env)
                "An error occurred while saving the model weights: "
  ++ export_events (model_dump args) Save (save_error env)
                   "An error occurred while saving the model: ".

(** Actions of the phases before the evaluation, the reading of a
    class-list file apart. *)
Definition is_training (e : event) : bool :=
  match e with
  | OpenPickle _ | GetDataGenerator _ | Summary | Print _ | LoadWeights _
  | Compile _ _ | Fit _ => true
  | _ => false
  end.

(** A computation that only adds actions satisfying [P] to the trace. *)
Definition appends (P : event -> Prop) {A} (m : M A) : Prop :=
  forall s, exists evs, st_trace (snd (m s)) = st_trace s ++ evs /\ Forall P evs.

Definition any_event : event -> Prop := fun _ => True.

(** A computation that leaves the layer objects alone. *)
Definition keeps_layers {A} (m : M A) : Prop :=
  forall s, st_layers (snd (m s)) = st_layers s
            /\ st_n_embed (snd (m s)) = st_n_embed s.

(** The same command line with another [--class_list]. *)
Definition with_class_list (args : Args) (cl : option string) : Args :=
  mkArgs cl (embed_dim args) (centroids args) (center_loss_weight args)
         (clipgrad args) (max_decay args) (epochs args) (batch_size args)
         (val_batch_size args) (finetune args) (finetune_init args)
         (no_progress args) (model_dump args) (weight_dump args)
         (feature_dump args) (sgd_lr args).

(** The same environment with other text files. *)
Definition with_text_files (env : Env) (tf : string -> option string) : Env :=
  mkEnv (pickle_file env) tf (get_data_generator env) (build_network env)
        (keras_backend env) (weight_file env) (get_lr_schedule env)
        (steps_per_epoch env) (sgd_update env) (predict_classes env)
        (save_weights_error env) (save_error env) (feature_dump_error env).

(** The [trainable] flags that the fine-tuning phase sets before it
    compiles: by name, and the last layer of the embedding network. *)
Definition finetune_flag (n_embed : nat) (i : nat) (l : layer) : bool :=
  in_names (name l) head_names || (S i =? n_embed).

End Main.

(** ** A small run, used in the examples *)

Module Sample.

Import Layers.

(** A two-layer embedding network with a 2-dimensional output. *)
Definition network : Layers.network :=
  mkNetwork [mkLayer "conv" Trunk true [[[1; 1]]%Q];
             mkLayer "embedding" Trunk true [[[1; 0]; [0; 1]]%Q]] 2.

Definition backend : Layers.backend :=
  mkBackend (fun r c => repeat (repeat 0%Q c) r) 1 1.

Definition centroids : Np.matrix := [[1; 0]; [0; 1]; [1; 1]]%Q.

(** A run with fixed centroids and pre-trained weights; every optimizer
    step adds 1 to each weight it updates. *)
Definition args : Main.Args :=
  Main.mkArgs None 100 (Some "centroids.pickle") (1 # 10) 10 0 (Some 1%Z) 10 None
              (Some "pretrained.h5") 1 true None (Some "/unwritable/w.h5") None (1 # 10).

Definition env : Main.Env :=
  Main.mkEnv
    (fun _ => Some (ClassListFile.IntLabels [0; 1; 2]%Z, centroids))
    (fun _ => None)
    (fun _ => Some (Main.mkData 3 30 3 [0; 1; 2]%Z))
    (fun _ => network)
    backend
    (fun _ => Some (fun _ => None))
    (fun _ _ => Some 1%Z)
    1
    (fun _ l => map (map (map (Qplus 1))) (weights l))
    (fun _ => [0; 1; 1]%Z)
    (Some "Permission denied")
    None
    None.

(** The state of that run once the model is built. *)
Definition built : Main.state :=
  snd (Main.bind (Main.load_classes env args) (Main.build env args) Main.initial).

(** The same run without [--finetune]. *)
Definition args_no_finetune : Main.Args :=
  Main.mkArgs None 100 (Some "centroids.pickle") (1 # 10) 10 0 (Some 1%Z) 10 None
              None 1 true None (Some "/unwritable/w.h5") None (1 # 10).

End Sample.

(** ** Vocabulary for the further properties *)

Module More.

Import Layers.

(** A layer after the first [n] optimizer steps, each of which updates
    it. *)
Fixpoint apply_updates (update : nat -> layer -> list Np.matrix) (n : nat) (l : layer)
  : layer :=
  match n with
  | O => l
  | S n' =>
      let l' := apply_updates update n' l in
      set_weights (update n' l') l'
  end.

(** One of the three exports of lines 191-206: saving the weights, saving
    the model, dumping the features. *)
Definition is_export (e : Main.event) : bool :=
  match e with
  | Main.SaveWeights _ | Main.Save _ | Main.DumpFeatures _ => true
  | _ => false
  end.

(** The same command line with another [--embed_dim]. *)
Definition with_embed_dim (args : Main.Args) (d : Z) : Main.Args :=
  Main.mkArgs (Main.class_list args) d (Main.centroids args)
              (Main.center_loss_weight args) (Main.clipgrad args) (Main.max_decay args)
              (Main.epochs args) (Main.batch_size args) (Main.val_batch_size args)
              (Main.finetune args) (Main.finetune_init args) (Main.no_progress args)
              (Main.model_dump args) (Main.weight_dump args) (Main.feature_dump args)
              (Main.sgd_lr args).

(** The text file with one line per identifier. *)
Fixpoint join_lines (ws : list string) : string :=
  match ws with
  | [] => EmptyString
  | w :: ws' => String.append w (String Py.LF (join_lines ws'))
  end.

Fixpoint no_space (w : string) : bool :=
  match w with
  | EmptyString => true
  | String c w' => negb (Py.isspace c) && no_space w'
  end.

(** An identifier: not empty and free of whitespace. *)
Definition is_word (w : string) : bool :=
  negb (String.eqb w EmptyString) && no_space w.

(** The lookup-table layer that the builder creates for a class count. *)
Definition centroid_layer (be : backend) (d : nat) (num_classes : Z) : layer :=
  mkLayer "cls_centroids" Embedding true [init be (Z.to_nat num_classes) d].

(** A run that learns its centroids: no centroid file, no fine-tuning,
    two epochs of one batch. *)
Definition args_learned : Main.Args :=
  Main.mkArgs None 2 None (1 # 10) 10 0 (Some 2%Z) 10 None
              None 3 true None None (Some "/unwritable/feat.pickle") (1 # 10).

(** The environment of the sample run in which the feature dump fails. *)
Definition env_feature_dump_fails : Main.Env :=
  Main.mkEnv (Main.pickle_file Sample.env) (Main.text_file Sample.env)
             (Main.get_data_generator Sample.env) (Main.build_network Sample.env)
             (Main.keras_backend Sample.env) (Main.weight_file Sample.env)
             (Main.get_lr_schedule Sample.env) (Main.steps_per_epoch Sample.env)
             (Main.sgd_update Sample.env) (Main.predict_classes Sample.env)
             (Main.save_weights_error Sample.env) (Main.save_error Sample.env)
             (Some "Permission denied"%string).

(** The environment of the sample run without any readable file. *)
Definition env_no_files : Main.Env :=
  Main.mkEnv (fun _ => None) (fun _ => None)
             (Main.get_data_generator Sample.env) (Main.build_network Sample.env)
             (Main.keras_backend Sample.env) (fun _ => None)
             (Main.get_lr_schedule Sample.env) (Main.steps_per_epoch Sample.env)
             (Main.sgd_update Sample.env) (Main.predict_classes Sample.env)
             (Main.save_weights_error Sample.env) (Main.save_error Sample.env)
             (Main.feature_dump_error Sample.env).

End More.

Definition sample_class_file : string :=
  ("3 apple" ++ String Py.LF (" 7" ++ String Py.LF (String Py.LF
     ("3 again" ++ String Py.CR (String Py.LF "010")))))%string.

Example parse_sample :
  ClassListFile.parse_class_list sample_class_file
  = Some (ClassListFile.IntLabels [3; 7; 10]%Z).
Proof. vm_compute. reflexivity. Qed.

Example onehot_sample :
  transform_inputs [tt; tt] [2; -1]%Z 3
  = Some (([tt; tt], [2; -1]%Z), ([[0;0;1]; [0;0;1]]%Q, [0; 0]%Q)).
Proof. vm_compute. reflexivity. Qed.


(* ================================================================== *)
(** * Part II: properties *)
(* ================================================================== *)

(** ** Class-list file *)

Section ClassListFacts.

Import ClassListFile.

Lemma rstrip_empty_iff (s : string) :
  Py.rstrip s = EmptyString <-> all_space s = true.
Proof.
  induction s as [|c s IH]; simpl.
  - tauto.
  - destruct (Py.rstrip s) eqn:Hr.
    + destruct (Py.isspace c); simpl.
      * rewrite <- IH. tauto.
      * split; discriminate.
    + split; [discriminate|].
      intros H. apply andb_true_iff in H. destruct H as [_ H].
      apply IH in H. discriminate.
Qed.

Lemma all_space_lstrip (s : string) :
  all_space (Py.lstrip s) = all_space s.
Proof.
  induction s as [|c s IH]; simpl; [reflexivity|].
  destruct (Py.isspace c) eqn:Hc; simpl; [exact IH|].
  rewrite Hc. reflexivity.
Qed.

Lemma nonblank_spec (l : string) : nonblank l = negb (all_space l).
Proof.
  unfold nonblank, Py.strip. f_equal.
  rewrite <- all_space_lstrip.
  destruct (all_space (Py.lstrip l)) eqn:H.
  - apply rstrip_empty_iff in H. rewrite H. reflexivity.
  - destruct (String.eqb_spec (Py.rstrip (Py.lstrip l)) EmptyString) as [E|E];
      [|reflexivity].
    apply rstrip_empty_iff in E. congruence.
Qed.

Lemma take_word_rstrip (s : string) :
  take_word (Py.rstrip s) = take_word s.
Proof.
  induction s as [|c s IH]; simpl; [reflexivity|].
  destruct (Py.rstrip s) eqn:Hr; destruct (Py.isspace c) eqn:Hc; simpl;
    rewrite ?Hc; try reflexivity.
  - rewrite <- IH. reflexivity.
  - rewrite <- IH. reflexivity.
Qed.

Lemma rstrip_cons_nonspace (c : ascii) (s : string) :
  Py.isspace c = false -> Py.rstrip (String c s) = String c (Py.rstrip s).
Proof.
  intros Hc. simpl. destruct (Py.rstrip s); [rewrite Hc|]; reflexivity.
Qed.

Lemma split_from_some_head (s w : string) :
  hd_error (Py.split_from (Some w) s) = Some (String.append w (take_word s)).
Proof.
  revert w. induction s as [|c s IH]; intros w; simpl.
  - f_equal. induction w as [|a w IHw]; simpl; congruence.
  - destruct (Py.isspace c); simpl.
    + f_equal. induction w as [|a w IHw]; simpl; congruence.
    + rewrite IH. f_equal. unfold Py.snoc.
      induction w as [|a w IHw]; simpl; congruence.
Qed.

Lemma lstrip_head (s : string) :
  Py.lstrip s = EmptyString
  \/ exists c t, Py.lstrip s = String c t /\ Py.isspace c = false.
Proof.
  induction s as [|c s IH]; simpl; [now left|].
  destruct (Py.isspace c) eqn:Hc; [exact IH|].
  right. eauto.
Qed.

(** On a non-blank line [l.strip().split()[0]] exists and is the first
    whitespace-separated token. *)
Lemma first_word_spec (l : string) :
  all_space l = false -> first_word l = Some (spec_first_token l).
Proof.
  intros Hl. unfold first_word, spec_first_token, Py.strip, Py.split.
  destruct (lstrip_head l) as [E|(c & t & E & Hc)].
  - rewrite <- all_space_lstrip, E in Hl. discriminate.
  - rewrite E, (rstrip_cons_nonspace _ _ Hc). simpl. rewrite Hc.
    rewrite split_from_some_head. simpl. now rewrite take_word_rstrip.
Qed.

Lemma gen_pairs_spec (ls : list string) :
  gen_pairs ls
  = Some (map (fun l => (spec_first_token l, tt))
              (filter (fun l => negb (all_space l)) ls)).
Proof.
  induction ls as [|l ls IH]; simpl; [reflexivity|].
  rewrite nonblank_spec.
  destruct (all_space l) eqn:Hl; simpl; [exact IH|].
  rewrite (first_word_spec _ Hl), IH. reflexivity.
Qed.

Lemma keys_setitem {V} (d : Py.OrderedDict V) (k : string) (v : V) :
  Py.keys (Py.setitem d k v)
  = if mem k (Py.keys d) then Py.keys d else Py.keys d ++ [k].
Proof.
  induction d as [|[k' v'] d IH]; simpl; [reflexivity|].
  rewrite (String.eqb_sym k k').
  destruct (String.eqb k' k) eqn:E; simpl; [reflexivity|].
  unfold Py.keys in *. rewrite IH.
  destruct (mem k (map fst d)); reflexivity.
Qed.

Lemma filter_filter {A} (p q : A -> bool) (l : list A) :
  filter p (filter q l) = filter (fun x => q x && p x) l.
Proof.
  induction l as [|x l IH]; simpl; [reflexivity|].
  destruct (q x); simpl; [destruct (p x)|]; congruence.
Qed.

Lemma mem_app (k : string) (a b : list string) :
  mem k (a ++ b) = mem k a || mem k b.
Proof. apply existsb_app. Qed.

Lemma keys_fold {V} (pairs : list (string * V)) (d : Py.OrderedDict V) :
  Py.keys (fold_left (fun d kv => Py.setitem d (fst kv) (snd kv)) pairs d)
  = Py.keys d
    ++ filter (fun x => negb (mem x (Py.keys d))) (spec_dedup (map fst pairs)).
Proof.
  revert d. induction pairs as [|[k v] ps IH]; intros d; simpl.
  - now rewrite app_nil_r.
  - rewrite IH, keys_setitem.
    destruct (mem k (Py.keys d)) eqn:Hk; simpl.
    + f_equal. rewrite filter_filter. apply filter_ext. intros x.
      destruct (String.eqb_spec x k) as [->|]; simpl; [now rewrite Hk|reflexivity].
    + rewrite <- app_assoc. simpl. do 2 f_equal.
      rewrite filter_filter. apply filter_ext. intros x.
      rewrite mem_app. simpl. rewrite orb_false_r, negb_orb.
      apply andb_comm.
Qed.

(** [OrderedDict(pairs).keys()] removes duplicates and keeps the order of
    first occurrence. *)
Lemma keys_OrderedDict_of {V} (pairs : list (string * V)) :
  Py.keys (Py.OrderedDict_of pairs) = spec_dedup (map fst pairs).
Proof.
  unfold Py.OrderedDict_of. rewrite keys_fold. simpl.
  induction (spec_dedup (map fst pairs)); simpl; congruence.
Qed.

Lemma coerce_spec (ws : list string) : coerce ws = spec_coerce ws.
Proof.
  unfold coerce, spec_coerce.
  assert (H : all_int ws
              = if forallb int_parseable ws then Some (map int_or_zero ws) else None).
  { induction ws as [|w ws IH]; simpl; [reflexivity|].
    unfold int_parseable at 1, int_or_zero at 1.
    destruct (Py.int w); simpl; [|reflexivity].
    rewrite IH. destruct (forallb int_parseable ws); reflexivity. }
  rewrite H. destruct (forallb int_parseable ws); reflexivity.
Qed.

Lemma spec_dedup_In (ws : list string) (x : string) :
  In x (spec_dedup ws) <-> In x ws.
Proof.
  induction ws as [|w ws IH]; simpl; [tauto|].
  rewrite filter_In, IH.
  destruct (String.eqb_spec x w) as [->|Hne]; simpl.
  - tauto.
  - split; [tauto|]. intros [->|H]; [tauto|]. right. split; [exact H|reflexivity].
Qed.

Lemma spec_dedup_NoDup (ws : list string) : NoDup (spec_dedup ws).
Proof.
  induction ws as [|w ws IH]; simpl; constructor.
  - rewrite filter_In. intros [_ H]. now rewrite String.eqb_refl in H.
  - now apply NoDup_filter.
Qed.

End ClassListFacts.

(** ** The parser against the specification's own reading *)

Section ClassListBridge.

Import ClassListFile.

Lemma isspace_spec (c : ascii) : Py.isspace c = ClassListSpec.is_space c.
Proof. destruct c as [[] [] [] [] [] [] [] []]; reflexivity. Qed.

Lemma digit_val_spec (c : ascii) : Py.digit_val c = ClassListSpec.digit c.
Proof. destruct c as [[] [] [] [] [] [] [] []]; reflexivity. Qed.

Lemma digit_not_underscore (c : ascii) (d : Z) :
  ClassListSpec.digit c = Some d -> ClassListSpec.is_underscore c = false.
Proof. destruct c as [[] [] [] [] [] [] [] []]; simpl; intros H; try discriminate H; reflexivity. Qed.

Lemma all_space_blank (l : string) : all_space l = ClassListSpec.blank l.
Proof.
  unfold ClassListSpec.blank.
  induction l as [|c l IH]; simpl; [reflexivity|].
  now rewrite IH, isspace_spec.
Qed.

Lemma lstrip_drop_spaces (l : string) :
  list_ascii_of_string (Py.lstrip l)
  = ClassListSpec.drop_spaces (list_ascii_of_string l).
Proof.
  induction l as [|c l IH]; simpl; [reflexivity|].
  rewrite <- isspace_spec. destruct (Py.isspace c); [exact IH|reflexivity].
Qed.

Lemma take_word_word (s : string) :
  take_word s = string_of_list_ascii (ClassListSpec.word (list_ascii_of_string s)).
Proof.
  induction s as [|c s IH]; simpl; [reflexivity|].
  rewrite <- isspace_spec. destruct (Py.isspace c); simpl; [reflexivity|].
  now rewrite IH.
Qed.

Lemma first_token_spec (l : string) :
  spec_first_token l = ClassListSpec.first_token l.
Proof.
  unfold spec_first_token, ClassListSpec.first_token.
  now rewrite take_word_word, lstrip_drop_spaces.
Qed.

(** *** Lines *)

Lemma all_space_snoc_LF (l : string) :
  all_space (Py.snoc l Py.LF) = all_space l.
Proof.
  induction l as [|c l IH]; simpl; [reflexivity|].
  unfold Py.snoc in IH. now rewrite IH.
Qed.

Lemma take_word_snoc_LF (s : string) :
  take_word (Py.snoc s Py.LF) = take_word s.
Proof.
  induction s as [|c s IH]; simpl; [reflexivity|].
  unfold Py.snoc in IH. now rewrite IH.
Qed.

Lemma first_token_snoc_LF (l : string) :
  spec_first_token (Py.snoc l Py.LF) = spec_first_token l.
Proof.
  unfold spec_first_token.
  induction l as [|c l IH]; simpl; [reflexivity|].
  destruct (Py.isspace c) eqn:Hc; [exact IH|].
  simpl. rewrite Hc. f_equal. apply take_word_snoc_LF.
Qed.

Lemma append_snoc_cons (a b : string) (c : ascii) :
  String.append (Py.snoc a c) b = String.append a (String c b).
Proof. induction a as [|x a IH]; simpl; [reflexivity|]. unfold Py.snoc in IH. now rewrite IH. Qed.

Lemma append_empty (a : string) : String.append a EmptyString = a.
Proof. induction a as [|x a IH]; simpl; congruence. Qed.

Lemma snoc_not_empty (a : string) (c : ascii) : Py.snoc a c <> EmptyString.
Proof. destruct a; discriminate. Qed.

(** Reading a text file yields the lines of the text, each with its
    terminator turned into LF. *)
Lemma lines_from_spec (n : nat) :
  forall (s : string) (cur : string),
    String.length s <= n ->
    Forall2 (fun a b => a = b \/ a = Py.snoc b Py.LF)
      (Py.lines_from cur (Py.universal_newlines s))
      (match ClassListSpec.lines s with
       | [] => match cur with EmptyString => [] | _ => [cur] end
       | l :: ls => String.append cur l :: ls
       end).
Proof.
  induction n as [|n IH]; intros s cur Hn.
  - destruct s; [|simpl in Hn; lia]. simpl.
    destruct cur; [constructor|]. constructor; [now left|constructor].
  - destruct s as [|c s]; simpl.
    + destruct cur; [constructor|]. constructor; [now left|constructor].
    + simpl in Hn.
      assert (Hnil : forall t, String.length t <= n ->
                Forall2 (fun a b => a = b \/ a = Py.snoc b Py.LF)
                  (Py.lines_from EmptyString (Py.universal_newlines t))
                  (ClassListSpec.lines t)).
      { intros t Ht. generalize (IH t EmptyString Ht).
        destruct (ClassListSpec.lines t); trivial. }
      destruct (Ascii.eqb_spec c "010"%char) as [->|Hlf].
      * simpl. constructor;
          [right; now rewrite append_empty | apply Hnil; lia].
      * destruct (Ascii.eqb_spec c "013"%char) as [->|Hcr].
        -- simpl. destruct s as [|c' s'].
           ++ simpl. constructor; [right; now rewrite append_empty|constructor].
           ++ destruct (Ascii.eqb_spec c' "010"%char) as [->|Hlf'].
              ** simpl. constructor;
                   [right; now rewrite append_empty | apply Hnil; simpl in Hn; lia].
              ** replace (Ascii.eqb c' Py.LF) with false
                   by (symmetry; apply Ascii.eqb_neq; exact Hlf').
                 simpl Py.lines_from. constructor;
                   [right; now rewrite append_empty|].
                 exact (Hnil (String c' s') ltac:(lia)).
        -- replace (Ascii.eqb c Py.CR) with false
             by (symmetry; apply Ascii.eqb_neq; exact Hcr).
           simpl. replace (Ascii.eqb c Py.LF) with false
             by (symmetry; apply Ascii.eqb_neq; exact Hlf).
           generalize (IH s (Py.snoc cur c) ltac:(lia)).
           destruct (ClassListSpec.lines s) as [|l ls].
           ++ destruct (Py.snoc cur c) eqn:E; [now apply snoc_not_empty in E|].
              rewrite <- E. unfold Py.snoc. trivial.
           ++ now rewrite append_snoc_cons.
Qed.

Lemma file_lines_spec (content : string) :
  Forall2 (fun a b => a = b \/ a = Py.snoc b Py.LF)
    (Py.file_lines content) (ClassListSpec.lines content).
Proof.
  unfold Py.file_lines.
  generalize (lines_from_spec (String.length content) content EmptyString (le_n _)).
  destruct (ClassListSpec.lines content); trivial.
Qed.

Lemma tokens_spec (content : string) :
  map spec_first_token
    (filter (fun l => negb (all_space l)) (Py.file_lines content))
  = map ClassListSpec.first_token
      (filter (fun l => negb (ClassListSpec.blank l)) (ClassListSpec.lines content)).
Proof.
  induction (file_lines_spec content) as [|a b la lb Hab _ IH]; simpl;
    [reflexivity|].
  assert (Hs : all_space a = ClassListSpec.blank b).
  { destruct Hab as [->| ->]; [|rewrite all_space_snoc_LF]; apply all_space_blank. }
  assert (Ht : spec_first_token a = ClassListSpec.first_token b).
  { destruct Hab as [->| ->]; [|rewrite first_token_snoc_LF]; apply first_token_spec. }
  rewrite Hs. destruct (ClassListSpec.blank b); simpl; [exact IH|].
  now rewrite Ht, IH.
Qed.

(** *** Duplicates *)

Lemma dedup_from_spec (ws seen : list string) :
  ClassListSpec.dedup_from seen ws
  = filter (fun x => negb (mem x seen)) (spec_dedup ws).
Proof.
  revert seen. induction ws as [|w ws IH]; intros seen; simpl; [reflexivity|].
  fold (mem w seen). rewrite filter_filter.
  destruct (mem w seen) eqn:Hw; simpl.
  - rewrite IH. apply filter_ext_in. intros x _.
    destruct (String.eqb_spec x w) as [->|]; simpl; [now rewrite Hw|reflexivity].
  - f_equal. rewrite IH. apply filter_ext. intros x. unfold mem. simpl.
    rewrite negb_orb. reflexivity.
Qed.

Lemma dedup_spec (ws : list string) : ClassListSpec.dedup ws = spec_dedup ws.
Proof.
  unfold ClassListSpec.dedup. rewrite dedup_from_spec. simpl.
  induction (spec_dedup ws); simpl; congruence.
Qed.

(** *** Integers *)

Lemma literal_after_digit (c : ascii) (d : Z) (cs : list ascii) (b : bool) :
  ClassListSpec.digit c = Some d ->
  ClassListSpec.literal_after b (c :: cs) = ClassListSpec.literal_after true cs.
Proof.
  intros Hd. pose proof (digit_not_underscore c d Hd) as Hu.
  unfold ClassListSpec.literal_after. simpl.
  unfold ClassListSpec.is_digit. rewrite Hd, Hu. simpl.
  rewrite orb_true_r.
  destruct cs as [|a cs]; simpl; [reflexivity|].
  reflexivity.
Qed.

Lemma literal_after_underscore (cs : list ascii) (b : bool) :
  ClassListSpec.literal_after b ("_"%char :: cs)
  = b && ClassListSpec.literal_after false cs.
Proof.
  unfold ClassListSpec.literal_after.
  destruct cs as [|a cs].
  - simpl. destruct b; reflexivity.
  - cbn [forallb ClassListSpec.no_double_underscore
         ClassListSpec.starts_with_digit ClassListSpec.ends_with_digit orb].
    change (ClassListSpec.is_digit "_"%char) with false.
    change (ClassListSpec.is_underscore "_"%char) with true.
    cbn [orb andb]. rewrite orb_false_r.
    destruct b; cbn [andb]; [|now rewrite andb_false_r].
    rewrite andb_true_r.
    destruct (ClassListSpec.is_digit a) eqn:Ha.
    + assert (Hu : ClassListSpec.is_underscore a = false).
      { unfold ClassListSpec.is_digit in Ha.
        destruct (ClassListSpec.digit a) eqn:Hd; [|discriminate].
        exact (digit_not_underscore a z Hd). }
      rewrite Hu. cbn [orb andb negb]. rewrite andb_true_r. reflexivity.
    + cbn [orb]. rewrite andb_false_r.
      destruct (ClassListSpec.is_underscore a); cbn [andb negb];
        [now rewrite andb_false_r|reflexivity].
Qed.

Lemma literal_after_other (c : ascii) (cs : list ascii) (b : bool) :
  ClassListSpec.digit c = None ->
  ClassListSpec.is_underscore c = false ->
  ClassListSpec.literal_after b (c :: cs) = false.
Proof.
  intros Hd Hu. unfold ClassListSpec.literal_after. simpl.
  unfold ClassListSpec.is_digit. rewrite Hd, Hu. reflexivity.
Qed.

(** Reading digits left to right accepts exactly the literals and
    returns their decimal value. *)
Lemma parse_digits_spec (s : string) :
  forall (acc : Z) (b : bool),
    Py.parse_digits acc b s
    = if ClassListSpec.literal_after b (list_ascii_of_string s)
      then Some (acc * 10 ^ Z.of_nat
                         (List.length (ClassListSpec.digits_of (list_ascii_of_string s)))
                 + ClassListSpec.decimal_value
                     (ClassListSpec.digits_of (list_ascii_of_string s)))%Z
      else None.
Proof.
  induction s as [|c s IH]; intros acc b.
  - simpl. destruct b; simpl; [f_equal; lia|reflexivity].
  - cbn [Py.parse_digits list_ascii_of_string ClassListSpec.digits_of].
    rewrite digit_val_spec.
    destruct (ClassListSpec.digit c) as [d|] eqn:Hd.
    + rewrite IH, (literal_after_digit c d _ b Hd).
      destruct (ClassListSpec.literal_after true (list_ascii_of_string s));
        [|reflexivity].
      f_equal. cbn [List.length ClassListSpec.decimal_value].
      rewrite Nat2Z.inj_succ, Z.pow_succ_r by lia. ring.
    + fold (ClassListSpec.is_underscore c).
      destruct (ClassListSpec.is_underscore c) eqn:Hu.
      * apply Ascii.eqb_eq in Hu. subst c.
        rewrite literal_after_underscore.
        destruct b; simpl; [apply IH|reflexivity].
      * simpl. now rewrite (literal_after_other c _ b Hd Hu).
Qed.

Lemma int_by_sign (w : string) :
  Py.int w
  = match Py.strip w with
    | EmptyString => None
    | String c r =>
        if Ascii.eqb c "+"%char then Py.parse_digits 0 false r
        else if Ascii.eqb c "-"%char
             then option_map Z.opp (Py.parse_digits 0 false r)
             else Py.parse_digits 0 false (String c r)
    end.
Proof.
  unfold Py.int. destruct (Py.strip w) as [|c r]; [reflexivity|].
  destruct c as [[] [] [] [] [] [] [] []]; reflexivity.
Qed.

Lemma int_value_by_sign (w : string) :
  ClassListSpec.int_value w
  = match w with
    | EmptyString => None
    | String c r =>
        if Ascii.eqb c "+"%char
        then (if ClassListSpec.literal (list_ascii_of_string r)
              then Some (1 * ClassListSpec.decimal_value
                               (ClassListSpec.digits_of (list_ascii_of_string r)))%Z
              else None)
        else if Ascii.eqb c "-"%char
        then (if ClassListSpec.literal (list_ascii_of_string r)
              then Some (-1 * ClassListSpec.decimal_value
                                (ClassListSpec.digits_of (list_ascii_of_string r)))%Z
              else None)
        else (if ClassListSpec.literal (list_ascii_of_string (String c r))
              then Some (1 * ClassListSpec.decimal_value
                               (ClassListSpec.digits_of
                                  (list_ascii_of_string (String c r))))%Z
              else None)
    end.
Proof.
  unfold ClassListSpec.int_value. destruct w as [|c r]; [reflexivity|].
  destruct c as [[] [] [] [] [] [] [] []]; reflexivity.
Qed.

Lemma lstrip_no_space (w : string) : More.no_space w = true -> Py.lstrip w = w.
Proof.
  destruct w as [|c w]; simpl; [reflexivity|].
  intros H. apply andb_true_iff in H. destruct H as [Hc _].
  apply negb_true_iff in Hc. now rewrite Hc.
Qed.

Lemma rstrip_no_space (w : string) : More.no_space w = true -> Py.rstrip w = w.
Proof.
  induction w as [|c w IH]; simpl; [reflexivity|].
  intros H. apply andb_true_iff in H. destruct H as [Hc Hw].
  apply negb_true_iff in Hc. rewrite (IH Hw).
  destruct w; [now rewrite Hc|reflexivity].
Qed.

Lemma strip_no_space (w : string) : More.no_space w = true -> Py.strip w = w.
Proof.
  intros H. unfold Py.strip. now rewrite (lstrip_no_space w H), rstrip_no_space.
Qed.

(** On a token, [int] accepts exactly the signed literals and returns
    their value. *)
Lemma int_spec (w : string) :
  More.no_space w = true -> Py.int w = ClassListSpec.int_value w.
Proof.
  intros Hw. rewrite int_by_sign, int_value_by_sign, (strip_no_space w Hw).
  destruct w as [|c r]; [reflexivity|].
  unfold ClassListSpec.literal.
  rewrite !parse_digits_spec.
  destruct (Ascii.eqb c "+"%char).
  - destruct (ClassListSpec.literal_after false (list_ascii_of_string r));
      [|reflexivity].
    f_equal. lia.
  - destruct (Ascii.eqb c "-"%char).
    + destruct (ClassListSpec.literal_after false (list_ascii_of_string r));
        [|reflexivity].
      cbn [option_map]. f_equal; lia.
    + destruct (ClassListSpec.literal_after false (list_ascii_of_string (String c r)));
        [|reflexivity].
      f_equal. lia.
Qed.

Lemma no_space_take_word (s : string) : More.no_space (take_word s) = true.
Proof.
  induction s as [|c s IH]; simpl; [reflexivity|].
  destruct (Py.isspace c) eqn:Hc; simpl; [reflexivity|].
  now rewrite Hc, IH.
Qed.

Lemma coerce_labels (ws : list string) :
  Forall (fun w => More.no_space w = true) ws ->
  coerce ws = ClassListSpec.labels ws.
Proof.
  intros H. rewrite coerce_spec. unfold spec_coerce, ClassListSpec.labels.
  assert (Hp : forallb int_parseable ws = forallb ClassListSpec.is_int ws).
  { induction H as [|w ws Hw _ IH]; simpl; [reflexivity|].
    f_equal; [|exact IH].
    unfold int_parseable, ClassListSpec.is_int. now rewrite (int_spec w Hw). }
  assert (Hv : map int_or_zero ws
               = map (fun w => match ClassListSpec.int_value w with
                               | Some z => z
                               | None => 0%Z
                               end) ws).
  { clear Hp. induction H as [|w ws Hw _ IH]; simpl; [reflexivity|].
    f_equal; [|exact IH].
    unfold int_or_zero. now rewrite (int_spec w Hw). }
  now rewrite Hp, Hv.
Qed.

Lemma parse_class_list_tokens (content : string) :
  parse_class_list content = Some (spec_class_list content).
Proof.
  unfold parse_class_list, spec_class_list.
  rewrite gen_pairs_spec, keys_OrderedDict_of, coerce_spec.
  rewrite map_map. simpl. reflexivity.
Qed.

End ClassListBridge.

(** C8. For every class-list file content, parsing raises no exception and
    yields the class list the specification describes: of every line that
    is not blank the first whitespace-separated token, duplicates removed
    in first-seen order, all converted to integers when every one is an
    integer literal and all kept as strings otherwise.  The right-hand
    side is [ClassListSpec.class_list_of], which reads lines, whitespace,
    tokens and integers by its own definitions. *)
Theorem C8_class_list_parsing (content : string) :
  ClassListFile.parse_class_list content
  = Some (ClassListSpec.class_list_of content).
Proof.
  rewrite parse_class_list_tokens. f_equal.
  unfold ClassListFile.spec_class_list, ClassListSpec.class_list_of,
    ClassListSpec.identifiers.
  rewrite <- coerce_spec, coerce_labels.
  - now rewrite tokens_spec, dedup_spec.
  - apply Forall_forall. intros w Hw.
    apply spec_dedup_In, in_map_iff in Hw. destruct Hw as (l & <- & _).
    apply no_space_take_word.
Qed.

(** The specification's reading on small texts: the three line
    terminators, and what counts as an integer. *)
Example spec_lines_sample :
  ClassListSpec.lines
    ("a" ++ String "013"%char (String "010"%char
       ("b" ++ String "013"%char ("c" ++ String "010"%char ""))))
  = ["a"; "b"; "c"]%string.
Proof. vm_compute. reflexivity. Qed.

Example spec_int_value_sample :
  map ClassListSpec.int_value
    ["12"; "-7"; "+1_000"; "007"; "1__0"; "_1"; "1_"; "+"; ""; "1e3"; "n01"]%string
  = [Some 12; Some (-7); Some 1000; Some 7; None; None; None; None; None;
     None; None]%Z.
Proof. vm_compute. reflexivity. Qed.

(** Duplicates are removed among the tokens, before the conversion: two
    spellings of one integer both stay. *)
Example class_list_two_spellings :
  ClassListFile.parse_class_list ("1" ++ String Py.LF ("01" ++ String Py.LF "1"))
  = Some (ClassListFile.IntLabels [1; 1]%Z).
Proof. vm_compute. reflexivity. Qed.

(** One identifier that is not an integer keeps every identifier a
    string. *)
Example class_list_mixed :
  ClassListFile.parse_class_list ("12 x" ++ String Py.LF "n01440764")
  = Some (ClassListFile.StrLabels ["12"; "n01440764"]%string).
Proof. vm_compute. reflexivity. Qed.

(** ** Batch transform *)

Section TransformFacts.

Lemma qsum_unit_from (k a n : nat) :
  (Np.qsum (map (fun j => if j =? k then 1 else 0) (seq a n))
   == if (a <=? k) && (k <? a + n) then 1 else 0)%Q.
Proof.
  revert a. induction n as [|n IH]; intros a; simpl.
  - replace (a + 0) with a by lia.
    destruct (Nat.leb_spec a k), (Nat.ltb_spec k a); simpl; try reflexivity; lia.
  - rewrite IH.
    destruct (Nat.eqb_spec a k) as [->|Hne].
    + rewrite Nat.leb_refl.
      destruct (Nat.leb_spec (S k) k); [lia|].
      destruct (Nat.ltb_spec k (k + S n)); [|lia]. simpl. reflexivity.
    + destruct (Nat.leb_spec a k), (Nat.leb_spec (S a) k),
        (Nat.ltb_spec k (S a + n)), (Nat.ltb_spec k (a + S n));
        simpl; try reflexivity; lia.
Qed.

(** A one-hot row sums to 1. *)
Lemma qsum_unit_row (n k : nat) : k < n -> (Np.qsum (Np.unit_row n k) == 1)%Q.
Proof.
  intros H. unfold Np.unit_row. rewrite qsum_unit_from. simpl.
  destruct (Nat.ltb_spec k n); [reflexivity|lia].
Qed.

Lemma index_in_range (n l : Z) :
  (0 <= l < n)%Z -> Np.index n l = Some (Z.to_nat l).
Proof.
  intros H. unfold Np.index.
  destruct (Z.leb_spec 0 l), (Z.ltb_spec l n); simpl; try lia. reflexivity.
Qed.

Lemma index_none_iff (n l : Z) :
  Np.index n l = None <-> (n <= l \/ l < - n)%Z.
Proof.
  unfold Np.index.
  destruct (Z.leb_spec 0 l), (Z.ltb_spec l n), (Z.leb_spec (- n) l), (Z.ltb_spec l 0);
    simpl; split; intros; try discriminate; try reflexivity; try lia;
    exfalso; lia.
Qed.

Lemma scatter_ones_in_range (n : Z) (y : list Z) :
  Forall (fun l => (0 <= l < n)%Z) y ->
  Keras.scatter_ones n y
  = Some (map (fun l => Np.unit_row (Z.to_nat n) (Z.to_nat l)) y).
Proof.
  induction 1 as [|l y Hl _ IH]; simpl; [reflexivity|].
  now rewrite (index_in_range _ _ Hl), IH.
Qed.

Lemma scatter_ones_none_iff (n : Z) (y : list Z) :
  Keras.scatter_ones n y = None <-> Exists (fun l => (n <= l \/ l < - n)%Z) y.
Proof.
  induction y as [|l y IH]; simpl.
  - split; [discriminate|]. intros H. inversion H.
  - rewrite Exists_cons, <- IH, <- index_none_iff.
    destruct (Np.index n l), (Keras.scatter_ones n y); split;
      intros; try discriminate; try tauto.
    destruct H; discriminate.
Qed.

Lemma to_categorical_pos (y : list Z) (n : Z) :
  (0 < n)%Z -> Keras.to_categorical y n = Keras.scatter_ones n y.
Proof.
  intros H. unfold Keras.to_categorical.
  destruct (Z.eqb_spec n 0); [lia|].
  destruct (Z.ltb_spec n 0); [lia|reflexivity].
Qed.

End TransformFacts.

(** C5 (as amended).  For every batch [X] and labels [y], each label in
    [0, num_classes), with [num_classes >= 1]: [transform_inputs] returns
    the inputs [[X, y]] unchanged and the targets
    [[one_hot(y, num_classes), zeros(len(X))]]; every one-hot row has length
    [num_classes] and sums to 1, and the second target has length [len(X)]
    and is zero everywhere. *)
Theorem C5_transform_inputs_targets
        {Image : Type} (X : list Image) (y : list Z) (num_classes : Z) :
  (1 <= num_classes)%Z ->
  Forall (fun l => (0 <= l < num_classes)%Z) y ->
  exists one_hot zeros,
    transform_inputs X y num_classes = Some ((X, y), (one_hot, zeros))
    /\ one_hot = map (fun l => Np.unit_row (Z.to_nat num_classes) (Z.to_nat l)) y
    /\ Forall (fun row => List.length row = Z.to_nat num_classes
                          /\ (Np.qsum row == 1)%Q) one_hot
    /\ List.length zeros = List.length X
    /\ Forall (fun t => t = 0%Q) zeros.
Proof.
  intros Hn Hy. unfold transform_inputs.
  rewrite to_categorical_pos by lia.
  rewrite (scatter_ones_in_range _ _ Hy).
  eexists; eexists; split; [reflexivity|].
  split; [reflexivity|]. split; [|split].
  - apply Forall_map. eapply Forall_impl; [|exact Hy].
    intros l Hl. simpl in Hl |- *. split.
    + unfold Np.unit_row. now rewrite length_map, length_seq.
    + apply qsum_unit_row. lia.
  - apply repeat_length.
  - apply Forall_forall. intros t Ht. now apply repeat_spec in Ht.
Qed.

Lemma C5_transform_inputs_targets_witness :
  exists one_hot zeros,
    transform_inputs [tt; tt] [2; 0]%Z 3 = Some (([tt; tt], [2; 0]%Z), (one_hot, zeros))
    /\ one_hot = map (fun l => Np.unit_row (Z.to_nat 3) (Z.to_nat l)) [2; 0]%Z
    /\ Forall (fun row => List.length row = Z.to_nat 3 /\ (Np.qsum row == 1)%Q) one_hot
    /\ List.length zeros = List.length [tt; tt]
    /\ Forall (fun t => t = 0%Q) zeros.
Proof.
  apply (C5_transform_inputs_targets [tt; tt] [2; 0]%Z 3).
  - lia.
  - repeat constructor; lia.
Defined.

(** C5 as stated fails for the empty batch with [num_classes = 0]: every
    label (there is none) lies in [0, 0), and [to_categorical] raises on
    [np.max] of the empty label array. *)
Lemma C5_counterexample_empty_batch_zero_classes :
  Forall (fun l => (0 <= l < 0)%Z) []
  /\ @transform_inputs unit [] [] 0 = None.
Proof. split; [constructor|reflexivity]. Qed.

(** C6 (as amended).  With [num_classes >= 1], [transform_inputs] raises
    exactly when some label is at least [num_classes] or below
    [- num_classes]. *)
Theorem C6_transform_inputs_raises_iff
        {Image : Type} (X : list Image) (y : list Z) (num_classes : Z) :
  (1 <= num_classes)%Z ->
  transform_inputs X y num_classes = None
  <-> Exists (fun l => (num_classes <= l \/ l < - num_classes)%Z) y.
Proof.
  intros Hn. unfold transform_inputs.
  rewrite to_categorical_pos by lia.
  rewrite <- scatter_ones_none_iff.
  destruct (Keras.scatter_ones num_classes y); split; intros; congruence.
Qed.

Lemma C6_transform_inputs_raises_iff_witness :
  transform_inputs [tt; tt] [1; 3]%Z 3 = None
  <-> Exists (fun l => (3 <= l \/ l < - 3)%Z) [1; 3]%Z.
Proof.
  apply (C6_transform_inputs_raises_iff [tt; tt] [1; 3]%Z 3). lia.
Defined.

(** C6 as stated fails: the label [-1] is outside [0, 3) and
    [transform_inputs] returns normally, with the one-hot row of class 2. *)
Lemma C6_counterexample_negative_label :
  ~ (0 <= -1 < 3)%Z
  /\ transform_inputs [tt] [-1]%Z 3
     = Some (([tt], [-1]%Z), ([[0; 0; 1]%Q], [0%Q])).
Proof. split; [lia|reflexivity]. Qed.

(** ** Learning-rate decay *)

Section DecayFacts.

Lemma inject_Z_pos (n : Z) : (0 < n)%Z -> (0 < inject_Z n)%Q.
Proof. intros H. change 0%Q with (inject_Z 0). now rewrite <- Zlt_Qlt. Qed.

(** With [decay = (1/m - 1)/n] and [0 < m <= 1], the rate of Keras' SGD
    after [n] updates is [m] times the initial rate. *)
Lemma sgd_lr_after_all_batches (m lr : Q) (n : Z) :
  (0 < m)%Q -> (m <= 1)%Q -> (0 < n)%Z ->
  (Keras.sgd_lr lr ((1 / m - 1) / inject_Z n) n == m * lr)%Q.
Proof.
  intros Hm Hm1 Hn. pose proof (inject_Z_pos n Hn) as Hn'.
  unfold Keras.sgd_lr.
  destruct (Qlt_le_dec 0 ((1 / m - 1) / inject_Z n)) as [Hd|Hd].
  - field. repeat split; lra.
  - assert (E : ((1 / m - 1) / inject_Z n * inject_Z n == 1 / m - 1)%Q)
      by (field; split; lra).
    assert (E2 : (m * (1 / m) == 1)%Q) by (field; lra).
    assert (H1 : ((1 / m - 1) / inject_Z n * inject_Z n <= 0)%Q) by nra.
    assert (H2 : (1 / m <= 1)%Q) by lra.
    assert (H3 : (1 <= m)%Q) by nra.
    assert (H4 : (m == 1)%Q) by lra.
    rewrite H4. ring.
Qed.

(** The epoch count is the override when one is given (and is not 0),
    and the count derived from the schedule otherwise. *)
Lemma total_epochs_override (e num_epochs : Z) :
  e <> 0%Z -> Decay.total_epochs (Some e) num_epochs = e.
Proof. intros H. simpl. now destruct (Z.eqb_spec e 0). Qed.

Lemma total_epochs_default (num_epochs : Z) :
  Decay.total_epochs None num_epochs = num_epochs.
Proof. reflexivity. Qed.

End DecayFacts.

(** C4 (as amended).  Let [n = (num_train // batch_size) * epochs], with
    [epochs] the override when given and the schedule's count otherwise.
    When [max_decay <= 0] the decay factor is 0.  When [0 < max_decay <= 1]
    and [n > 0], the decay factor is [(1/max_decay - 1) / n], and the
    learning rate of the optimizer after [n] updates is [max_decay] times
    its initial value (not [1/max_decay] of it). *)
Theorem C4_decay_factor
        (num_train batch_size : Z) (epochs : option Z) (num_epochs : Z) :
  let n := Decay.total_batches num_train batch_size epochs num_epochs in
  (forall max_decay : Q,
      (max_decay <= 0)%Q ->
      Decay.decay max_decay num_train batch_size epochs num_epochs = Some 0%Q)
  /\ (forall max_decay lr : Q,
         (0 < max_decay)%Q -> (max_decay <= 1)%Q -> (0 < n)%Z ->
         exists d,
           Decay.decay max_decay num_train batch_size epochs num_epochs = Some d
           /\ (d == (1 / max_decay - 1) / inject_Z n)%Q
           /\ (Keras.sgd_lr lr d n == max_decay * lr)%Q).
Proof.
  intros n. split.
  - intros m Hm. unfold Decay.decay.
    destruct (Qlt_le_dec 0 m) as [H|H]; [lra|reflexivity].
  - intros m lr Hm Hm1 Hn. unfold Decay.decay.
    destruct (Qlt_le_dec 0 m) as [H|H]; [|lra].
    fold n.
    destruct (Z.eqb_spec batch_size 0) as [E|E].
    + exfalso. subst n. unfold Decay.total_batches in Hn.
      rewrite E, Z.div_0_r in Hn. simpl in Hn. lia.
    + destruct (Z.eqb_spec n 0) as [E0|E0]; [lia|].
      eexists. split; [reflexivity|]. split; [reflexivity|].
      now apply sgd_lr_after_all_batches.
Qed.

Lemma C4_decay_factor_witness :
  exists d,
    Decay.decay (1 # 2) 100 10 (Some 3%Z) 5 = Some d
    /\ (d == (1 / (1 # 2) - 1) / inject_Z (Decay.total_batches 100 10 (Some 3%Z) 5))%Q
    /\ (Keras.sgd_lr 1 d (Decay.total_batches 100 10 (Some 3%Z) 5) == (1 # 2) * 1)%Q.
Proof.
  apply (proj2 (C4_decay_factor 100 10 (Some 3%Z) 5) (1 # 2)%Q 1%Q).
  - reflexivity.
  - unfold Qle; simpl; lia.
  - reflexivity.
Defined.

(** C4 as stated fails.  With [max_decay = 2] the decay factor is negative
    and the rate after all batches is not half the initial rate; with
    [max_decay = 1/2] the rate ends at half the initial rate, which is
    [max_decay], and not at [1/max_decay = 2] times it. *)
Lemma C4_counterexample_decays_to_max_decay :
  (exists d,
      Decay.decay 2 100 10 (Some 1%Z) 5 = Some d
      /\ (d < 0)%Q
      /\ ~ (Keras.sgd_lr 1 d (Decay.total_batches 100 10 (Some 1%Z) 5)
            == (1 / 2) * 1)%Q)
  /\ (exists d,
         Decay.decay (1 # 2) 100 10 (Some 1%Z) 5 = Some d
         /\ ~ (Keras.sgd_lr 1 d (Decay.total_batches 100 10 (Some 1%Z) 5)
               == (1 / (1 # 2)) * 1)%Q).
Proof.
  split; eexists; (split; [vm_compute; reflexivity|]).
  - split; [reflexivity|]. vm_compute. discriminate.
  - vm_compute. discriminate.
Qed.

(** ** Average accuracy *)

Section AccuracyFacts.

Import Evaluate.

Lemma qsum_map_ext {A} (f g : A -> Q) (l : list A) :
  (forall x, In x l -> (f x == g x)%Q) ->
  (Np.qsum (map f l) == Np.qsum (map g l))%Q.
Proof.
  induction l as [|x l IH]; intros H; simpl; [reflexivity|].
  rewrite (H x) by now left. rewrite IH; [reflexivity|].
  intros y Hy. apply H. now right.
Qed.

Lemma qsum_map_plus {A} (f g : A -> Q) (l : list A) :
  (Np.qsum (map (fun x => f x + g x) l) == Np.qsum (map f l) + Np.qsum (map g l))%Q.
Proof.
  induction l as [|x l IH]; simpl; [reflexivity|]. rewrite IH. ring.
Qed.

Lemma qsum_map_zero {A} (l : list A) : (Np.qsum (map (fun _ => 0) l) == 0)%Q.
Proof. induction l as [|x l IH]; simpl; [reflexivity|]. rewrite IH. ring. Qed.

(** A sum over distinct classes of a term that vanishes off one class. *)
Lemma qsum_single (h : Z -> Q) (l : Z) (cs : list Z) :
  NoDup cs -> In l cs ->
  (Np.qsum (map (fun c => if (l =? c)%Z then h c else 0) cs) == h l)%Q.
Proof.
  induction 1 as [|c cs Hc Hnd IH]; intros Hin; [contradiction|]. simpl.
  destruct (Z.eqb_spec l c) as [->|Hne].
  - rewrite (qsum_map_ext _ (fun _ => 0%Q)), qsum_map_zero; [ring|].
    intros x Hx. destruct (Z.eqb_spec c x); [congruence|reflexivity].
  - destruct Hin as [->|Hin]; [congruence|]. rewrite IH by assumption. ring.
Qed.

Lemma count_correct_nil_r (c : Z) (pred : list Z) : count_correct c pred [] = 0.
Proof. unfold count_correct. now destruct pred. Qed.

Lemma count_correct_cons (c p l : Z) (pred lab : list Z) :
  count_correct c (p :: pred) (l :: lab)
  = (if (l =? c)%Z && (p =? l)%Z then 1 else 0) + count_correct c pred lab.
Proof.
  unfold count_correct. simpl.
  destruct ((l =? c)%Z && (p =? l)%Z); reflexivity.
Qed.

(** Grouping the per-example terms by class. *)
Lemma weighted_hits_by_class (g : Z -> Z) (cs : list Z) :
  NoDup cs ->
  forall lab pred,
    Forall (fun l => In l cs) lab ->
    (Np.qsum (weighted_hits pred lab (map g lab))
     == Np.qsum (map (fun c => inject_Z (Z.of_nat (count_correct c pred lab))
                               / inject_Z (g c)) cs))%Q.
Proof.
  intros Hnd. induction lab as [|l lab IH]; intros pred Hin.
  - rewrite (qsum_map_ext _ (fun _ => 0%Q)).
    + rewrite qsum_map_zero. now destruct pred.
    + intros c _. rewrite count_correct_nil_r. reflexivity.
  - destruct pred as [|p pred].
    + simpl. rewrite (qsum_map_ext _ (fun _ => 0%Q)).
      * now rewrite qsum_map_zero.
      * intros c _. reflexivity.
    + inversion Hin as [|? ? Hl Hlab]; subst. simpl.
      rewrite (IH pred Hlab).
      rewrite (qsum_map_ext
                 (fun c => inject_Z (Z.of_nat (count_correct c (p :: pred) (l :: lab)))
                           / inject_Z (g c))%Q
                 (fun c => (if (l =? c)%Z
                            then (if (p =? l)%Z then 1 else 0) / inject_Z (g c)
                            else 0)
                           + inject_Z (Z.of_nat (count_correct c pred lab))
                             / inject_Z (g c))%Q).
      * rewrite qsum_map_plus.
        rewrite (qsum_single
                   (fun c => (if (p =? l)%Z then 1 else 0) / inject_Z (g c))%Q
                   l cs Hnd Hl).
        reflexivity.
      * intros c _. rewrite count_correct_cons, Nat2Z.inj_add, inject_Z_plus.
        destruct (l =? c)%Z, (p =? l)%Z; simpl; unfold Qdiv; ring.
Qed.

Lemma zmax_ge (l : Z) (lab : list Z) : In l lab -> (l <= Np.zmax lab)%Z.
Proof.
  induction lab as [|x lab IH]; simpl; [contradiction|].
  intros [->|H]; [lia|]. specialize (IH H). lia.
Qed.

Lemma zmax_lower (lab : list Z) : (-1 <= Np.zmax lab)%Z.
Proof. induction lab as [|x lab IH]; simpl; lia. Qed.

Lemma bincount_nonneg (lab : list Z) :
  Forall (fun l => (0 <= l)%Z) lab ->
  Np.bincount lab
  = Some (map (fun c => Z.of_nat (count_occ Z.eq_dec lab (Z.of_nat c)))
              (seq 0 (Z.to_nat (Np.zmax lab + 1)))).
Proof.
  intros H. unfold Np.bincount.
  replace (forallb (fun x => (0 <=? x)%Z) lab) with true; [reflexivity|].
  symmetry. apply forallb_forall. intros x Hx.
  rewrite Forall_forall in H. apply Z.leb_le. now apply H.
Qed.

Lemma getitem_table (f : nat -> Z) (n : nat) (l : Z) :
  (0 <= l < Z.of_nat n)%Z ->
  Np.getitem (map f (seq 0 n)) l = Some (f (Z.to_nat l)).
Proof.
  intros H. unfold Np.getitem.
  rewrite length_map, length_seq, index_in_range by exact H.
  rewrite nth_error_map, nth_error_seq.
  destruct (Nat.ltb_spec (Z.to_nat l) n); [reflexivity|lia].
Qed.

Lemma take_table (f : nat -> Z) (n : nat) (idx : list Z) :
  Forall (fun l => (0 <= l < Z.of_nat n)%Z) idx ->
  Np.take (map f (seq 0 n)) idx = Some (map (fun l => f (Z.to_nat l)) idx).
Proof.
  induction 1 as [|l idx Hl _ IH]; simpl; [reflexivity|].
  now rewrite (getitem_table _ _ _ Hl), IH.
Qed.

Lemma count_class_occ (c : Z) (lab : list Z) :
  count_class c lab = count_occ Z.eq_dec lab c.
Proof.
  unfold count_class. induction lab as [|l lab IH]; simpl; [reflexivity|].
  destruct (Z.eqb_spec l c), (Z.eq_dec l c); simpl; congruence.
Qed.

Lemma class_range_length (lab : list Z) :
  List.length (class_range lab) = Z.to_nat (Np.zmax lab + 1).
Proof. unfold class_range. now rewrite length_map, length_seq. Qed.

Lemma class_range_In (lab : list Z) (c : Z) :
  In c (class_range lab) <-> (0 <= c <= Np.zmax lab)%Z.
Proof.
  unfold class_range. rewrite in_map_iff. split.
  - intros (k & <- & Hk). apply in_seq in Hk. lia.
  - intros H. exists (Z.to_nat c). split; [lia|]. apply in_seq. lia.
Qed.

Lemma class_range_NoDup (lab : list Z) : NoDup (class_range lab).
Proof.
  unfold class_range. apply Injective_map_NoDup; [|apply seq_NoDup].
  intros a b. apply Nat2Z.inj.
Qed.

(** When every class index up to the largest label occurs, the classes
    of the test set are as many as the entries of [class_freq]. *)
Lemma classes_full (lab : list Z) :
  Forall (fun l => (0 <= l)%Z) lab ->
  (forall c, (0 <= c <= Np.zmax lab)%Z -> In c lab) ->
  List.length (classes lab) = Z.to_nat (Np.zmax lab + 1).
Proof.
  intros Hpos Hall. rewrite <- class_range_length. apply Nat.le_antisymm.
  - apply NoDup_incl_length; [apply NoDup_nodup|].
    intros c Hc. apply nodup_In in Hc. apply class_range_In.
    rewrite Forall_forall in Hpos. split; [now apply Hpos|now apply zmax_ge].
  - apply NoDup_incl_length; [apply class_range_NoDup|].
    intros c Hc. apply nodup_In, Hall. now apply class_range_In.
Qed.

End AccuracyFacts.

(** C3 (as amended).  For test labels that are non-negative and not empty
    and predictions of the same length, the printed average accuracy is
    the sum, over the classes that occur among the test labels, of the
    per-class correct-prediction rate, divided by the largest label plus
    one.  It is the mean over classes of the per-class rate when every
    class index from 0 to the largest label occurs among the test
    labels. *)
Theorem C3_average_accuracy (pred lab : list Z) :
  List.length pred = List.length lab ->
  lab <> [] ->
  Forall (fun l => (0 <= l)%Z) lab ->
  exists acc,
    Evaluate.average_accuracy pred lab = Evaluate.Value acc
    /\ (acc == Np.qsum (map (Evaluate.class_rate pred lab) (Evaluate.classes lab))
               / inject_Z (Np.zmax lab + 1))%Q
    /\ ((forall c, (0 <= c <= Np.zmax lab)%Z -> In c lab) ->
        (acc == Evaluate.spec_average_accuracy pred lab)%Q).
Proof.
  intros Hlen Hne Hpos.
  assert (Hmax : (0 <= Np.zmax lab)%Z).
  { destruct lab as [|l lab]; [congruence|].
    inversion Hpos; subst. pose proof (zmax_ge l (l :: lab) (or_introl eq_refl)). lia. }
  assert (Hrange : Forall (fun l => (0 <= l < Z.of_nat (Z.to_nat (Np.zmax lab + 1)))%Z) lab).
  { rewrite Forall_forall in *. intros l Hl.
    pose proof (Hpos l Hl). pose proof (zmax_ge l lab Hl). lia. }
  unfold Evaluate.average_accuracy.
  rewrite (bincount_nonneg lab Hpos), Hlen, Nat.eqb_refl. simpl negb. cbv iota.
  rewrite (take_table _ _ _ Hrange).
  rewrite length_map, length_seq.
  destruct (Nat.eqb_spec (Z.to_nat (Np.zmax lab + 1)) 0) as [E|_]; [lia|].
  eexists. split; [reflexivity|].
  assert (Hsum :
    (Np.qsum
       (Evaluate.weighted_hits pred lab
          (map (fun l => Z.of_nat (count_occ Z.eq_dec lab (Z.of_nat (Z.to_nat l)))) lab))
     == Np.qsum (map (Evaluate.class_rate pred lab) (Evaluate.classes lab)))%Q).
  { rewrite (weighted_hits_by_class
               (fun l => Z.of_nat (count_occ Z.eq_dec lab (Z.of_nat (Z.to_nat l))))
               (Evaluate.classes lab) (NoDup_nodup Z.eq_dec lab)).
    - apply qsum_map_ext. intros c Hc. apply nodup_In in Hc.
      unfold Evaluate.class_rate. rewrite count_class_occ.
      rewrite Forall_forall in Hpos. rewrite Z2Nat.id by now apply Hpos.
      reflexivity.
    - apply Forall_forall. intros l Hl. now apply nodup_In. }
  rewrite Hsum, Z2Nat.id by lia.
  split; [reflexivity|].
  intros Hall. unfold Evaluate.spec_average_accuracy, Evaluate.mean_rate.
  rewrite (classes_full lab Hpos Hall), Z2Nat.id by lia. reflexivity.
Qed.

Lemma C3_average_accuracy_witness :
  exists acc,
    Evaluate.average_accuracy [0; 0; 1; 0]%Z [0; 0; 0; 1]%Z = Evaluate.Value acc
    /\ (acc == Np.qsum (map (Evaluate.class_rate [0; 0; 1; 0]%Z [0; 0; 0; 1]%Z)
                            (Evaluate.classes [0; 0; 0; 1]%Z))
               / inject_Z (Np.zmax [0; 0; 0; 1]%Z + 1))%Q
    /\ ((forall c, (0 <= c <= Np.zmax [0; 0; 0; 1]%Z)%Z -> In c [0; 0; 0; 1]%Z) ->
        (acc == Evaluate.spec_average_accuracy [0; 0; 1; 0]%Z [0; 0; 0; 1]%Z)%Q).
Proof.
  apply (C3_average_accuracy [0; 0; 1; 0]%Z [0; 0; 0; 1]%Z).
  - reflexivity.
  - discriminate.
  - repeat constructor; lia.
Defined.

(** C3 as stated fails when a class index below the largest label has no
    test example: both classes that occur are predicted without error, so
    the mean of the per-class rates is 1, and the printed value is 2/3. *)
Lemma C3_counterexample_missing_class :
  Evaluate.average_accuracy [0; 2]%Z [0; 2]%Z = Evaluate.Value (2 # 3)
  /\ (Evaluate.spec_average_accuracy [0; 2]%Z [0; 2]%Z == 1)%Q
  /\ ~ (2 # 3 == 1)%Q.
Proof.
  split; [vm_compute; reflexivity|]. split; [reflexivity|discriminate].
Qed.

(** With unequal class frequencies the printed value is the per-class
    mean and differs from the overall fraction of correct predictions. *)
Example average_accuracy_not_overall :
  exists acc,
    Evaluate.average_accuracy [0; 0; 0; 0]%Z [0; 0; 0; 1]%Z = Evaluate.Value acc
    /\ (acc == 1 # 2)%Q
    /\ (Evaluate.overall_accuracy [0; 0; 0; 0]%Z [0; 0; 0; 1]%Z == 3 # 4)%Q.
Proof. eexists. split; [vm_compute; reflexivity|]. split; reflexivity. Qed.

(** ** Model builder *)

Section ModelFacts.

Import Layers.

Lemma half_sum_squares (e c : list Q) :
  (Np.qsum (map (fun t => t * t) (zip_with Qminus e c)) / 2
   == spec_center_loss e c)%Q.
Proof.
  unfold spec_center_loss.
  assert (H : (Np.qsum (map (fun t => t * t) (zip_with Qminus e c))
               == Np.qsum (zip_with (fun a b => (a - b) * (a - b)) e c))%Q).
  { revert c. induction e as [|a e IH]; intros [|b c]; simpl; try reflexivity.
    rewrite IH. reflexivity. }
  rewrite H. field.
Qed.

Lemma embedding_call_labels (table : Np.matrix) (ys : list Z) :
  Forall (fun y => (0 <= y < Z.of_nat (List.length table))%Z) ys ->
  embedding_call table (map (fun y => [y]) ys)
  = Some (map (fun y => [nth (Z.to_nat y) table []]) ys).
Proof.
  induction 1 as [|y ys Hy _ IH]; simpl; [reflexivity|].
  rewrite IH. unfold lookup_row.
  destruct (Z.ltb_spec y 0); [lia|].
  rewrite (nth_error_nth' table []) by lia. reflexivity.
Qed.

Lemma head_rows (table embedding : Np.matrix) (ys : list Z) :
  center_loss_call
    (subtract_call (expand_call embedding)
                   (map (fun y => [nth (Z.to_nat y) table []]) ys))
  = zip_with
      (fun e y =>
         [(Np.qsum (map (fun t => t * t)
                        (zip_with Qminus e (nth (Z.to_nat y) table []))) / 2)%Q])
      embedding ys.
Proof.
  revert ys. induction embedding as [|e embedding IH]; intros [|y ys]; simpl;
    try reflexivity.
  unfold center_loss_call, subtract_call, expand_call in *. simpl.
  now rewrite IH.
Qed.

(** The head on values: one row of one entry per example, the halved
    squared distance to the table row of the example's label. *)
Lemma center_loss_head_spec (table embedding : Np.matrix) (ys : list Z) :
  List.length embedding = List.length ys ->
  Forall (fun y => (0 <= y < Z.of_nat (List.length table))%Z) ys ->
  exists out,
    center_loss_head table embedding (map (fun y => [y]) ys) = Some out
    /\ Forall2
         (fun row ey =>
            exists v, row = [v]
                      /\ (v == spec_center_loss (fst ey)
                                  (nth (Z.to_nat (snd ey)) table []))%Q)
         out (combine embedding ys).
Proof.
  intros Hlen Hys. unfold center_loss_head.
  rewrite (embedding_call_labels _ _ Hys), head_rows.
  eexists. split; [reflexivity|]. clear Hys.
  revert ys Hlen. induction embedding as [|e embedding IH]; intros [|y ys] Hlen;
    simpl in *; try discriminate; constructor.
  - eexists. split; [reflexivity|]. apply half_sum_squares.
  - apply IH. congruence.
Qed.

End ModelFacts.

(** C2 (as amended).  For every embedding network and every class count
    or centroid matrix that the builder accepts, the built model has
    exactly two outputs, of shapes [(batch, num_classes)] and [(batch, 1)];
    the second output has, for each example, one entry: half the sum over
    the embedding dimension of the squared differences between the image
    embedding and the row of the centroid table selected by the example's
    label. *)
Theorem C2_center_loss_model_outputs
        (be : Layers.backend) (base_model : Layers.network)
        (centroids : Layers.centroids_arg) :
  Layers.valid_centroids (Layers.out_dim base_model) centroids ->
  Layers.unique (map Layers.name (Layers.net_layers base_model)
                 ++ Layers.head_layer_names be) = true ->
  exists mdl table,
    Layers.center_loss_model be base_model centroids = Some mdl
    /\ Layers.output_shapes mdl
       = [[None; Some (Layers.num_classes_of centroids)]; [None; Some 1]]
    /\ Layers.centroid_table mdl = Some table
    /\ table = Layers.initial_table be (Layers.out_dim base_model) centroids
    /\ forall (embedding : Np.matrix) (ys : list Z),
        List.length embedding = List.length ys ->
        Forall (fun y => (0 <= y < Z.of_nat (List.length table))%Z) ys ->
        exists out,
          Layers.center_loss_output mdl embedding (map (fun y => [y]) ys) = Some out
          /\ Forall2
               (fun row ey =>
                  exists v, row = [v]
                            /\ (v == Layers.spec_center_loss
                                       (fst ey) (nth (Z.to_nat (snd ey)) table []))%Q)
               out (combine embedding ys).
Proof.
  intros Hvalid Huniq. unfold Layers.head_layer_names in Huniq.
  assert (Htab : forall (ls : list Layers.layer) l0 l1 l2 l3 tr tbl l5 l6 l7 shapes,
             Layers.centroid_table
               (Layers.mkModel
                  (ls ++ [l0; l1; l2; l3;
                          Layers.mkLayer "cls_centroids" Layers.Embedding tr [tbl];
                          l5; l6; l7])
                  (List.length ls) shapes) = Some tbl).
  { intros. unfold Layers.centroid_table. simpl.
    rewrite nth_error_app2 by lia.
    replace (List.length ls + 4 - List.length ls) with 4 by lia. reflexivity. }
  destruct centroids as [n|m]; unfold Layers.valid_centroids in Hvalid;
    unfold Layers.center_loss_model.
  - destruct (Z.ltb_spec n 0) as [?|_]; [lia|].
    cbv zeta. rewrite map_app. cbn [map Layers.name]. rewrite Huniq.
    eexists; eexists. split; [reflexivity|]. split; [reflexivity|].
    split; [apply Htab|]. split; [reflexivity|].
    intros embedding ys Hlen Hys. unfold Layers.center_loss_output.
    rewrite Htab. now apply center_loss_head_spec.
  - simpl fst.
    destruct (Z.ltb_spec (Z.of_nat (List.length m)) 0) as [?|_]; [lia|].
    cbv zeta. rewrite Hvalid, Nat.eqb_refl, map_app. cbn [map Layers.name].
    rewrite Huniq.
    eexists; eexists. split; [reflexivity|].
    split; [simpl; now rewrite Nat2Z.id|].
    split; [apply Htab|]. split; [reflexivity|].
    intros embedding ys Hlen Hys. unfold Layers.center_loss_output.
    rewrite Htab. now apply center_loss_head_spec.
Qed.

Lemma C2_center_loss_model_outputs_witness :
  exists mdl table,
    Layers.center_loss_model Sample.backend Sample.network
                             (Layers.Centroids Sample.centroids) = Some mdl
    /\ Layers.output_shapes mdl = [[None; Some 3]; [None; Some 1]]
    /\ Layers.centroid_table mdl = Some table
    /\ table = Sample.centroids.
Proof.
  destruct (C2_center_loss_model_outputs
              Sample.backend Sample.network (Layers.Centroids Sample.centroids))
    as (mdl & table & Hm & Hs & Ht & He & _).
  - reflexivity.
  - vm_compute. reflexivity.
  - exists mdl, table. repeat split; assumption.
Defined.

(** C2 as stated fails on the shape of the second output: it is
    [(batch, 1)], one row of one entry per example, and not [(batch,)]. *)
Lemma C2_counterexample_second_output_shape :
  exists mdl,
    Layers.center_loss_model Sample.backend Sample.network
                             (Layers.Centroids Sample.centroids) = Some mdl
    /\ nth_error (Layers.output_shapes mdl) 1 = Some [None; Some 1]
    /\ [None; Some 1] <> ([None] : Layers.shape)
    /\ Layers.center_loss_output mdl [[1; 0]; [0; 0]]%Q [[0]; [2]]%Z
       = Some [[0 # 2]; [2 # 2]]%Q.
Proof.
  eexists. split; [vm_compute; reflexivity|].
  split; [reflexivity|]. split; [discriminate|]. vm_compute. reflexivity.
Qed.

(** ** The run *)

Section TraceFacts.

Import Layers Main.

Variable P : event -> Prop.

Lemma appends_ret {A} (a : A) : appends P (ret a).
Proof. intros s. exists []. simpl. now rewrite app_nil_r. Qed.

Lemma appends_raise {A} (e : string) : appends P (@raise A e).
Proof. intros s. exists []. simpl. now rewrite app_nil_r. Qed.

Lemma appends_lift {A} (o : option A) (e : string) : appends P (lift o e).
Proof. destruct o; [apply appends_ret|apply appends_raise]. Qed.

Lemma appends_emit (e : event) : P e -> appends P (emit e).
Proof. intros H s. exists [e]. simpl. split; [reflexivity|now constructor]. Qed.

Lemma appends_bind {A B} (m : M A) (k : A -> M B) :
  appends P m -> (forall a, appends P (k a)) -> appends P (bind m k).
Proof.
  intros Hm Hk s. unfold bind.
  destruct (Hm s) as (evs1 & E1 & F1).
  destruct (m s) as [[a|e] s1]; simpl in E1.
  - destruct (Hk a s1) as (evs2 & E2 & F2).
    exists (evs1 ++ evs2). rewrite E2, E1, app_assoc.
    split; [reflexivity|]. apply Forall_app. now split.
  - exists evs1. now split.
Qed.

Lemma appends_when (b : bool) (m : M unit) : appends P m -> appends P (when b m).
Proof. destruct b; [trivial|intros _; apply appends_ret]. Qed.

Lemma appends_silent {A} (m : M A) :
  (forall s, st_trace (snd (m s)) = st_trace s) -> appends P m.
Proof. intros H s. exists []. now rewrite H, app_nil_r. Qed.

Lemma appends_get_layers : appends P get_layers.
Proof. now apply appends_silent. Qed.

Lemma appends_put_layers (ls : list layer) : appends P (put_layers ls).
Proof. now apply appends_silent. Qed.

Lemma appends_put_model (m : model) : appends P (put_model m).
Proof. now apply appends_silent. Qed.

Lemma appends_unfreeze : appends P unfreeze_last_embed.
Proof.
  apply appends_silent. intros s. unfold unfreeze_last_embed.
  now destruct (st_n_embed s).
Qed.

Hypothesis training_ok : forall e, is_training e = true -> P e.

Lemma appends_compile (d : Q) : appends P (compile d).
Proof.
  intros s. eexists. split; [reflexivity|].
  constructor; [now apply training_ok|constructor].
Qed.

Lemma appends_fit (env : Env) (n : Z) : appends P (fit_generator env n).
Proof.
  intros s. eexists. split; [reflexivity|].
  constructor; [now apply training_ok|constructor].
Qed.

Lemma appends_build env args loaded : appends P (build env args loaded).
Proof.
  destruct loaded as [[cents classes] dim]. unfold build.
  apply appends_bind; [now apply appends_emit, training_ok|intros _].
  apply appends_bind; [apply appends_lift|intros dg].
  apply appends_bind; [apply appends_lift|intros m].
  apply appends_bind; [apply appends_put_model|intros _].
  apply appends_bind; [|intros _; apply appends_ret].
  apply appends_when. now apply appends_emit, training_ok.
Qed.

Lemma appends_load_weights env path : appends P (load_weights env path).
Proof.
  unfold load_weights.
  apply appends_bind; [now apply appends_emit, training_ok|intros _].
  apply appends_bind; [apply appends_lift|intros file].
  apply appends_bind; [apply appends_get_layers|intros ls].
  apply appends_put_layers.
Qed.

Lemma appends_finetune_phase env args : appends P (finetune_phase env args).
Proof.
  unfold finetune_phase. destruct (Py.truthy (finetune args)); [|apply appends_ret].
  apply appends_bind; [now apply appends_emit, training_ok|intros _].
  apply appends_bind; [apply appends_load_weights|intros _].
  apply appends_bind; [now apply appends_emit, training_ok|intros _].
  apply appends_bind; [apply appends_get_layers|intros ls].
  apply appends_bind; [apply appends_put_layers|intros _].
  apply appends_bind; [apply appends_unfreeze|intros _].
  apply appends_bind; [apply appends_compile|intros _].
  apply appends_bind; [apply appends_fit|intros _].
  apply appends_bind; [apply appends_get_layers|intros ls'].
  apply appends_bind; [apply appends_put_layers|intros _].
  now apply appends_emit, training_ok.
Qed.

Lemma appends_train_phase env args dg : appends P (train_phase env args dg).
Proof.
  unfold train_phase.
  apply appends_bind; [apply appends_lift|intros n].
  apply appends_bind; [apply appends_lift|intros d].
  apply appends_bind; [apply appends_compile|intros _].
  apply appends_fit.
Qed.

Lemma appends_load_classes env args :
  (Py.truthy (centroids args) = false -> forall p, P (OpenText p)) ->
  appends P (load_classes env args).
Proof.
  intros Htext. unfold load_classes.
  destruct (Py.truthy (centroids args)).
  - apply appends_bind; [now apply appends_emit, training_ok|intros _].
    apply appends_bind; [apply appends_lift|intros [ind2label embedding]].
    apply appends_ret.
  - destruct (class_list args) as [path|]; [|apply appends_ret].
    apply appends_bind; [now apply appends_emit, Htext|intros _].
    apply appends_bind; [apply appends_lift|intros content].
    apply appends_bind; [apply appends_lift|intros cl].
    apply appends_ret.
Qed.

Lemma appends_until_trained env args :
  (Py.truthy (centroids args) = false -> forall p, P (OpenText p)) ->
  appends P (until_trained env args).
Proof.
  intros Htext. unfold until_trained.
  apply appends_bind; [now apply appends_load_classes|intros loaded].
  apply appends_bind; [apply appends_build|intros dg].
  apply appends_bind; [apply appends_finetune_phase|intros _].
  apply appends_bind; [apply appends_train_phase|intros _].
  apply appends_ret.
Qed.

End TraceFacts.

Section ExportFacts.

Import Layers Main.

Lemma add_events_nil (s : state) : add_events s [] = s.
Proof. destruct s. unfold add_events. simpl. now rewrite app_nil_r. Qed.

Lemma add_events_app (s : state) (a b : list event) :
  add_events (add_events s a) b = add_events s (a ++ b).
Proof. unfold add_events. simpl. now rewrite app_assoc. Qed.

(** Saving never raises: the attempts and the reports are added to the
    trace and nothing else changes. *)
Lemma save_model_ok env args s :
  save_model env args s = (Ok tt, add_events s (save_events env args)).
Proof.
  destruct s as [ls n c tr].
  unfold save_model, save_events, export_events, when, bind, emit, ret.
  destruct (Py.truthy (weight_dump args)), (save_weights_error env),
    (Py.truthy (model_dump args)), (save_error env);
    unfold add_events; simpl; rewrite <- ?app_assoc, ?app_nil_r; reflexivity.
Qed.

Lemma dump_features_ok env args s :
  Py.truthy (feature_dump args) = false \/ feature_dump_error env = None ->
  fst (dump_features env args s) = Ok tt.
Proof.
  unfold dump_features, when, bind, emit, ret.
  intros [H|H]; rewrite H; [reflexivity|].
  now destruct (Py.truthy (feature_dump args)).
Qed.

Lemma until_trained_no_save env args dg s1 :
  until_trained env args initial = (Ok dg, s1) ->
  Forall (fun e => is_save e = false) (st_trace s1).
Proof.
  intros H.
  destruct (appends_until_trained (fun e => is_save e = false)) with
    (env := env) (args := args) (s := initial) as (evs & E & F).
  - now intros [].
  - reflexivity.
  - rewrite H in E. simpl in E. now rewrite E.
Qed.

End ExportFacts.

(** C9.  Saving the weights and saving the model never abort the run: each
    is attempted when requested, whatever happened to the other, and an
    exception it raises is printed with its cause.  Both come after the
    evaluation results are printed, and no save is attempted before.  The
    run then ends normally unless the feature dump, which follows, raises. *)
Theorem C9_export_failures_do_not_abort (env : Main.Env) (args : Main.Args) :
  (forall s, Main.save_model env args s
             = (Main.Ok tt, Main.add_events s (Main.save_events env args)))
  /\ (forall dg s1,
         Main.until_trained env args Main.initial = (Main.Ok dg, s1) ->
         Forall (fun e => Main.is_save e = false) (Main.st_trace s1)
         /\ forall acc,
             Evaluate.average_accuracy
               (Main.predict_classes env (Main.st_layers s1)) (Main.labels_test dg)
             = acc ->
             acc <> Evaluate.Exception ->
             Main.run env args
             = Main.dump_features env args
                 (Main.add_events s1
                    ([Main.PrintMetrics;
                      Main.PrintAverageAccuracy
                        (match acc with Evaluate.Value a => Some a | _ => None end)]
                     ++ Main.save_events env args)))
  /\ (forall s,
         Py.truthy (Main.feature_dump args) = false
         \/ Main.feature_dump_error env = None ->
         fst (Main.dump_features env args s) = Main.Ok tt).
Proof.
  split; [apply save_model_ok|]. split; [|apply dump_features_ok].
  intros dg s1 H. split; [now apply until_trained_no_save in H|].
  intros acc Hacc Hne.
  unfold Main.run, Main.main.
  unfold Main.bind at 1. rewrite H.
  unfold Main.bind at 1. unfold Main.evaluate_phase.
  unfold Main.bind at 1 2 3. unfold Main.emit at 1, Main.get_layers. simpl.
  rewrite Hacc.
  destruct acc as [a| |]; [| |congruence]; unfold Main.emit; simpl;
    rewrite save_model_ok; unfold Main.add_events; simpl;
    rewrite <- !app_assoc; reflexivity.
Qed.

Lemma C9_export_failures_do_not_abort_witness :
  fst (Main.run Sample.env Sample.args) = Main.Ok tt
  /\ Main.save_events Sample.env Sample.args
     = [Main.SaveWeights "/unwritable/w.h5";
        Main.Print
          "An error occurred while saving the model weights: Permission denied"].
Proof.
  destruct (C9_export_failures_do_not_abort Sample.env Sample.args) as (_ & H & Hd).
  destruct (Main.until_trained Sample.env Sample.args Main.initial) as [[dg|e] s1] eqn:E;
    [|vm_compute in E; discriminate].
  destruct (H dg s1 eq_refl) as [_ Hrun].
  split; [|reflexivity].
  rewrite (Hrun _ eq_refl).
  - apply Hd. left. reflexivity.
  - assert (Hv : (Main.Ok dg, s1)
                 = Main.until_trained Sample.env Sample.args Main.initial)
      by (symmetry; exact E).
    vm_compute in Hv. injection Hv as -> ->. vm_compute. discriminate.
Defined.

Section ClassSourceFacts.

Import Layers Main.

Lemma bind_congr {A B} (m m' : M A) (k k' : A -> M B) (s : state) :
  m s = m' s -> (forall a s', k a s' = k' a s') -> bind m k s = bind m' k' s.
Proof.
  intros Hm Hk. unfold bind. rewrite Hm.
  destruct (m' s) as [[a|e] s1]; [apply Hk|reflexivity].
Qed.

Lemma appends_any_emit (e : event) : appends any_event (emit e).
Proof. now apply appends_emit. Qed.

Lemma bind_trace_extends {A B} (m : M A) (k : A -> M B) (s : state) :
  (forall a, appends any_event (k a)) ->
  exists evs, st_trace (snd (bind m k s)) = st_trace (snd (m s)) ++ evs.
Proof.
  intros Hk. unfold bind. destruct (m s) as [[a|e] s1]; simpl.
  - destruct (Hk a s1) as (evs & E & _). now exists evs.
  - exists []. now rewrite app_nil_r.
Qed.

Lemma appends_evaluate_phase (Q : event -> Prop) env dg :
  Q PrintMetrics -> (forall a, Q (PrintAverageAccuracy a)) ->
  appends Q (evaluate_phase env dg).
Proof.
  intros H1 H2. unfold evaluate_phase.
  apply appends_bind; [now apply appends_emit|intros _].
  apply appends_bind; [apply appends_get_layers|intros ls].
  destruct (Evaluate.average_accuracy _ _);
    [now apply appends_emit|now apply appends_emit|apply appends_raise].
Qed.

Lemma appends_save_model (Q : event -> Prop) env args :
  (forall p, Q (SaveWeights p)) -> (forall p, Q (Save p)) -> (forall m, Q (Print m)) ->
  appends Q (save_model env args).
Proof.
  intros H1 H2 H3. unfold save_model.
  apply appends_bind; [|intros _]; apply appends_when;
    (apply appends_bind; [now apply appends_emit|intros _]).
  - destruct (save_weights_error env); [now apply appends_emit|apply appends_ret].
  - destruct (save_error env); [now apply appends_emit|apply appends_ret].
Qed.

Lemma appends_dump_features (Q : event -> Prop) env args :
  (forall p, Q (DumpFeatures p)) -> appends Q (dump_features env args).
Proof.
  intros H. unfold dump_features. apply appends_when.
  apply appends_bind; [now apply appends_emit|intros _].
  destruct (feature_dump_error env); [apply appends_raise|apply appends_ret].
Qed.

(** After the model is trained, only the evaluation and the exports
    add to the trace. *)
Lemma appends_after_training (Q : event -> Prop) env args dg :
  (forall e, is_open_text e = false -> Q e) ->
  appends Q (bind (evaluate_phase env dg)
                  (fun _ => bind (save_model env args)
                                 (fun _ => dump_features env args))).
Proof.
  intros H.
  apply appends_bind; [apply appends_evaluate_phase; intros; now apply H|intros _].
  apply appends_bind; [|intros _; apply appends_dump_features; intros; now apply H].
  apply appends_save_model; intros; now apply H.
Qed.

(** With a centroid file the run opens no text file. *)
Lemma main_opens_no_text env args :
  Py.truthy (centroids args) = true ->
  appends (fun e => is_open_text e = false) (main env args).
Proof.
  intros Hc. unfold main.
  apply appends_bind.
  - apply appends_until_trained.
    + now intros [].
    + congruence.
  - intros dg. apply appends_after_training. auto.
Qed.

(** With a centroid file the class list is its [ind2label]. *)
Lemma load_classes_centroids env args s ind2label embedding :
  Py.truthy (centroids args) = true ->
  pickle_file env (path_of (centroids args)) = Some (ind2label, embedding) ->
  load_classes env args s
  = (Ok (Some embedding, Some ind2label, Z.of_nat (snd (shape2 embedding))),
     add_events s [OpenPickle (path_of (centroids args))]).
Proof.
  intros Hc Hp. unfold load_classes. rewrite Hc.
  unfold bind, emit, lift, path_of in *. simpl. rewrite Hp. reflexivity.
Qed.

(** Building the model starts by asking the data set for the classes
    it is given. *)
Lemma build_requests_classes env args cents classes dim s :
  exists rest,
    st_trace (snd (build env args (cents, classes, dim) s))
    = st_trace s ++ GetDataGenerator classes :: rest.
Proof.
  unfold build.
  destruct (bind_trace_extends
              (emit (GetDataGenerator classes))
              (fun _ =>
                 bind (lift (get_data_generator env classes) "get_data_generator")
                   (fun dg =>
                      bind (lift (center_loss_model
                                    (keras_backend env) (build_network env dim)
                                    match cents with
                                    | Some c => Centroids c
                                    | None => NumClasses (num_classes dg)
                                    end) "center_loss_model")
                        (fun m =>
                           bind (put_model m)
                             (fun _ =>
                                bind (when (negb (no_progress args)) (emit Summary))
                                     (fun _ => ret dg))))) s) as (evs & E).
  - intros _.
    apply appends_bind; [apply appends_lift|intros dg].
    apply appends_bind; [apply appends_lift|intros m].
    apply appends_bind; [apply appends_put_model|intros _].
    apply appends_bind; [|intros _; apply appends_ret].
    apply appends_when, appends_any_emit.
  - exists evs. rewrite E. simpl. now rewrite <- app_assoc.
Qed.

End ClassSourceFacts.

(** C10.  When a centroid file is given, the run does not depend on the
    class-list argument nor on any text file (the argument only travels
    in the bag of arguments handed to the schedule factory, which is
    taken not to read it), it opens no text file, and the classes it asks
    the data set for are the [ind2label] of the centroid file. *)
Theorem C10_centroid_file_overrides_class_list (env : Main.Env) (args : Main.Args) :
  Py.truthy (Main.centroids args) = true ->
  (forall cl tf,
      (forall n, Main.get_lr_schedule env (Main.with_class_list args cl) n
                 = Main.get_lr_schedule env args n) ->
      Main.run (Main.with_text_files env tf) (Main.with_class_list args cl)
      = Main.run env args)
  /\ Forall (fun e => Main.is_open_text e = false)
            (Main.st_trace (snd (Main.run env args)))
  /\ (forall ind2label embedding,
         Main.pickle_file env (Main.path_of (Main.centroids args))
         = Some (ind2label, embedding) ->
         exists rest,
           Main.st_trace (snd (Main.run env args))
           = Main.OpenPickle (Main.path_of (Main.centroids args))
             :: Main.GetDataGenerator (Some ind2label) :: rest).
Proof.
  intros Hc. split; [|split].
  - intros cl tf Hsched. unfold Main.run, Main.main, Main.until_trained.
    apply bind_congr; [|reflexivity].
    apply bind_congr.
    + unfold Main.load_classes. cbn [Main.centroids Main.with_class_list].
      rewrite Hc. reflexivity.
    + intros loaded s1. apply bind_congr; [reflexivity|]. intros dg s2.
      apply bind_congr; [reflexivity|]. intros _ s3.
      apply bind_congr; [|reflexivity].
      unfold Main.train_phase.
      cbn [Main.get_lr_schedule Main.with_text_files].
      rewrite Hsched. reflexivity.
  - destruct (main_opens_no_text env args Hc Main.initial) as (evs & E & F).
    unfold Main.run. now rewrite E.
  - intros ind2label embedding Hp. unfold Main.run, Main.main.
    destruct (bind_trace_extends
                (Main.until_trained env args)
                (fun dg =>
                   Main.bind (Main.evaluate_phase env dg)
                     (fun _ => Main.bind (Main.save_model env args)
                                 (fun _ => Main.dump_features env args)))
                Main.initial) as (evs1 & E1).
    { intros dg. now apply appends_after_training. }
    rewrite E1. clear E1. unfold Main.until_trained.
    unfold Main.bind at 1.
    rewrite (load_classes_centroids env args Main.initial ind2label embedding Hc Hp).
    match goal with
    | |- context [Main.bind (Main.build env args ?l) ?k ?s] =>
        destruct (bind_trace_extends (Main.build env args l) k s) as (evs3 & E3)
    end.
    { intros dg.
      apply appends_bind; [now apply appends_finetune_phase|intros _].
      apply appends_bind; [now apply appends_train_phase|intros _].
      apply appends_ret. }
    rewrite E3.
    match goal with
    | |- context [Main.build env args (?c, ?cl, ?d) ?s] =>
        destruct (build_requests_classes env args c cl d s) as (rest & E4)
    end.
    rewrite E4. simpl. eexists. rewrite <- !app_assoc. simpl. reflexivity.
Qed.

Lemma C10_centroid_file_overrides_class_list_witness :
  Main.run (Main.with_text_files Sample.env (fun _ => Some "7"%string))
           (Main.with_class_list Sample.args (Some "classes.txt"%string))
  = Main.run Sample.env Sample.args
  /\ Forall (fun e => Main.is_open_text e = false)
            (Main.st_trace (snd (Main.run Sample.env Sample.args))).
Proof.
  destruct (C10_centroid_file_overrides_class_list Sample.env Sample.args)
    as (H1 & H2 & _).
  - reflexivity.
  - split; [apply H1; reflexivity|assumption].
Defined.

(** ** Fine-tuning *)

Section FinetuneFacts.

Import Layers Main.

Lemma nth_error_update_nth {A} (f : A -> A) (ls : list A) (k i : nat) :
  nth_error (update_nth k f ls) i
  = if i =? k then option_map f (nth_error ls i) else nth_error ls i.
Proof.
  revert k i. induction ls as [|x ls IH]; intros k i; simpl.
  - destruct k, i; simpl; try reflexivity. now destruct (i =? k).
  - destruct k, i; simpl; try reflexivity. apply IH.
Qed.

Lemma load_layer_name file l : name (load_layer file l) = name l.
Proof.
  unfold load_layer. destruct (file (name l)); [|reflexivity].
  now destruct (_ =? _).
Qed.

(** A stored array replaces the layer's array when the shapes agree and
    is skipped when they do not. *)
Lemma load_layer_weights file l ws :
  file (name l) = Some ws ->
  List.length ws = List.length (weights l) ->
  weights (load_layer file l)
  = zip_with (fun old new => if same_shape old new then new else old) (weights l) ws.
Proof.
  intros Hf Hlen. unfold load_layer. now rewrite Hf, Hlen, Nat.eqb_refl.
Qed.

Lemma load_layer_absent file l : file (name l) = None -> load_layer file l = l.
Proof. intros Hf. unfold load_layer. now rewrite Hf. Qed.

Lemma train_step_names update k collected ls :
  map name (train_step update k collected ls) = map name ls.
Proof.
  revert collected. induction ls as [|l ls IH]; intros c; simpl; [reflexivity|].
  rewrite IH. now destruct (hd false c).
Qed.

Lemma train_steps_names update n collected ls :
  map name (train_steps update n collected ls) = map name ls.
Proof.
  induction n as [|n IH]; simpl; [reflexivity|]. now rewrite train_step_names.
Qed.

Lemma nth_error_train_step update k collected ls i :
  nth_error (train_step update k collected ls) i
  = option_map (fun l => if nth i collected false
                         then set_weights (update k l) l else l)
               (nth_error ls i).
Proof.
  revert collected i. induction ls as [|l ls IH]; intros c i; simpl.
  - now destruct i.
  - destruct i as [|i]; simpl.
    + now destruct c.
    + rewrite IH. now destruct c as [|b c]; [destruct i|].
Qed.

(** Training leaves a layer alone that [compile] did not collect. *)
Lemma train_steps_frozen update n collected ls i :
  nth i collected false = false ->
  nth_error (train_steps update n collected ls) i = nth_error ls i.
Proof.
  intros Hi. induction n as [|n IH]; simpl; [reflexivity|].
  rewrite nth_error_train_step, Hi, IH. now destruct (nth_error ls i).
Qed.

Lemma map_name_set_trainable b ls : map name (map (set_trainable b) ls) = map name ls.
Proof. rewrite map_map. now apply map_ext. Qed.

Lemma update_nth_names (f : layer -> layer) k ls :
  (forall l, name (f l) = name l) ->
  map name (update_nth k f ls) = map name ls.
Proof.
  intros Hf. revert k. induction ls as [|l ls IH]; intros k; simpl; [reflexivity|].
  destruct k; simpl; [now rewrite Hf|now rewrite IH].
Qed.

Lemma freeze_names ls : map name (freeze_all_but_head ls) = map name ls.
Proof. unfold freeze_all_but_head. rewrite map_map. now apply map_ext. Qed.

Lemma load_names file ls : map name (map (load_layer file) ls) = map name ls.
Proof. rewrite map_map. apply map_ext. apply load_layer_name. Qed.

(** The flags that fine-tuning compiles with. *)
Lemma finetune_flags file ls n i l :
  nth_error ls i = Some l ->
  nth_error
    (map trainable
         (update_nth n (set_trainable true)
                     (freeze_all_but_head (map (load_layer file) ls)))) i
  = Some (finetune_flag (S n) i l).
Proof.
  intros Hl. rewrite nth_error_map, nth_error_update_nth.
  unfold freeze_all_but_head. rewrite !nth_error_map, Hl. simpl.
  unfold finetune_flag. rewrite load_layer_name. simpl.
  destruct (i =? n); simpl; [now rewrite orb_true_r|now rewrite !orb_false_r].
Qed.

End FinetuneFacts.

(** C7 (as amended).  The fine-tuning phase is skipped when no weight file
    is given.  When one is given it loads the weights by layer name,
    skipping arrays whose shape does not fit; compiles with exactly these
    layers trainable: those named [embedding], [embedding_bn], [prob] and
    [cls_centroids] and the last layer of the embedding network, every
    other layer being frozen; trains for [finetune_init] epochs; and then
    sets every layer trainable. *)
Theorem C7_finetune_phase (env : Main.Env) (args : Main.Args) (s : Main.state) :
  (Py.truthy (Main.finetune args) = false ->
   Main.finetune_phase env args s = (Main.Ok tt, s))
  /\ (forall file,
         Py.truthy (Main.finetune args) = true ->
         Main.weight_file env (Main.path_of (Main.finetune args)) = Some file ->
         0 < Main.st_n_embed s ->
         let loaded := map (Main.load_layer file) (Main.st_layers s) in
         let frozen :=
           Main.update_nth (Main.st_n_embed s - 1) (Layers.set_trainable true)
                           (Main.freeze_all_but_head loaded) in
         let flags := map Layers.trainable frozen in
         let trained :=
           Main.train_steps (Main.sgd_update env)
                            (Z.to_nat (Main.finetune_init args) * Main.steps_per_epoch env)
                            flags frozen in
         Main.finetune_phase env args s
         = (Main.Ok tt,
            Main.mkState
              (map (Layers.set_trainable true) trained) (Main.st_n_embed s) flags
              (Main.st_trace s
               ++ [Main.Print ("Loading pre-trained weights from "
                               ++ Main.path_of (Main.finetune args));
                   Main.LoadWeights (Main.path_of (Main.finetune args));
                   Main.Print "Pre-training new layers";
                   Main.Compile 0 flags;
                   Main.Fit (Main.finetune_init args);
                   Main.Print "Full model training"]))
         /\ (forall i l,
                nth_error (Main.st_layers s) i = Some l ->
                nth_error flags i = Some (Main.finetune_flag (Main.st_n_embed s) i l))
         /\ Forall (fun l => Layers.trainable l = true)
                   (map (Layers.set_trainable true) trained)
         /\ map Layers.name (map (Layers.set_trainable true) trained)
            = map Layers.name (Main.st_layers s)).
Proof.
  split.
  - intros H. unfold Main.finetune_phase. now rewrite H.
  - intros file Ht Hf Hn loaded frozen flags trained.
    split; [|split; [|split]].
    + unfold Main.finetune_phase. rewrite Ht.
      unfold Main.load_weights, Main.bind, Main.emit, Main.lift, Main.get_layers,
        Main.put_layers, Main.unfreeze_last_embed, Main.compile, Main.fit_generator,
        Main.ret, Main.path_of in *.
      simpl. rewrite Hf. simpl.
      destruct (Main.st_n_embed s) as [|n] eqn:En; [lia|].
      subst trained flags frozen loaded.
      replace (S n - 1) with n by lia. simpl.
      rewrite <- !app_assoc. reflexivity.
    + intros i l Hl. subst flags frozen loaded.
      destruct (Main.st_n_embed s) as [|n]; [lia|].
      replace (S n - 1) with n by lia. now apply finetune_flags.
    + apply Forall_map, Forall_forall. reflexivity.
    + subst trained frozen loaded.
      rewrite map_name_set_trainable, train_steps_names, update_nth_names,
        freeze_names, load_names; reflexivity.
Qed.

Lemma C7_finetune_phase_witness :
  exists s',
    Main.finetune_phase Sample.env Sample.args Sample.built = (Main.Ok tt, s')
    /\ Forall (fun l => Layers.trainable l = true) (Main.st_layers s')
    /\ map Layers.name (Main.st_layers s') = map Layers.name (Main.st_layers Sample.built).
Proof.
  destruct (proj2 (C7_finetune_phase Sample.env Sample.args Sample.built)
                  (fun _ => None) eq_refl eq_refl) as (E & _ & F & N).
  - vm_compute. lia.
  - eexists. split; [exact E|]. split; [exact F|exact N].
Defined.

(** C7 as stated fails for the activation layer of the head: its name is
    generated ([activation_1] here), it is not in the list of names, and
    fine-tuning compiles with it frozen. *)
Lemma C7_counterexample_activation_frozen :
  exists s' l,
    Main.finetune_phase Sample.env Sample.args Sample.built = (Main.Ok tt, s')
    /\ nth_error (Main.st_layers Sample.built) 2 = Some l
    /\ Layers.kind l = Layers.Activation
    /\ Layers.name l = "activation_1"%string
    /\ In (Main.Compile
             0 [false; true; false; true; true; false; true; false; false; false])
          (Main.st_trace s').
Proof.
  eexists. eexists. split; [vm_compute; reflexivity|].
  split; [vm_compute; reflexivity|]. split; [reflexivity|]. split; [reflexivity|].
  simpl. tauto.
Qed.

(** ** Fixed centroids *)

Section FrozenFacts.

Import Layers Main.

Lemma keeps_ret {A} (a : A) : keeps_layers (ret a).
Proof. now intros s. Qed.

Lemma keeps_raise {A} (e : string) : keeps_layers (@raise A e).
Proof. now intros s. Qed.

Lemma keeps_emit (e : event) : keeps_layers (emit e).
Proof. now intros s. Qed.

Lemma keeps_get_layers : keeps_layers get_layers.
Proof. now intros s. Qed.

Lemma keeps_bind {A B} (m : M A) (k : A -> M B) :
  keeps_layers m -> (forall a, keeps_layers (k a)) -> keeps_layers (bind m k).
Proof.
  intros Hm Hk s. unfold bind. destruct (Hm s) as [E1 E2].
  destruct (m s) as [[a|e] s1]; simpl in *.
  - destruct (Hk a s1) as [E3 E4]. split; congruence.
  - now split.
Qed.

Lemma keeps_when (b : bool) (m : M unit) : keeps_layers m -> keeps_layers (when b m).
Proof. destruct b; [trivial|intros _; apply keeps_ret]. Qed.

(** Evaluation and exports leave the weights alone. *)
Lemma keeps_after_training env args dg :
  keeps_layers (bind (evaluate_phase env dg)
                     (fun _ => bind (save_model env args)
                                    (fun _ => dump_features env args))).
Proof.
  apply keeps_bind; [|intros _; apply keeps_bind; [|intros _]].
  - unfold evaluate_phase.
    apply keeps_bind; [apply keeps_emit|intros _].
    apply keeps_bind; [apply keeps_get_layers|intros ls].
    destruct (Evaluate.average_accuracy _ _);
      [apply keeps_emit|apply keeps_emit|apply keeps_raise].
  - unfold save_model.
    apply keeps_bind; [|intros _]; apply keeps_when;
      (apply keeps_bind; [apply keeps_emit|intros _]).
    + destruct (save_weights_error env); [apply keeps_emit|apply keeps_ret].
    + destruct (save_error env); [apply keeps_emit|apply keeps_ret].
  - unfold dump_features. apply keeps_when.
    apply keeps_bind; [apply keeps_emit|intros _].
    destruct (feature_dump_error env); [apply keeps_raise|apply keeps_ret].
Qed.

(** The builder stores a given matrix in a layer that is not trainable. *)
Lemma center_loss_model_fixed be base m mdl :
  center_loss_model be base (Centroids m) = Some mdl ->
  nth_error (layers mdl) (n_embed mdl + 4)
  = Some (mkLayer "cls_centroids" Embedding false [m]).
Proof.
  unfold center_loss_model.
  destruct (_ <? 0)%Z; [discriminate|].
  destruct (snd (shape2 m) =? out_dim base); [|discriminate].
  cbv zeta. destruct (unique _); [|discriminate].
  intros H. injection H as <-. simpl.
  rewrite nth_error_app2 by lia.
  replace (List.length (net_layers base) + 4 - List.length (net_layers base))
    with 4 by lia.
  reflexivity.
Qed.

Lemma nth_map_trainable ls i l :
  nth_error ls i = Some l -> nth i (map trainable ls) false = trainable l.
Proof.
  revert i. induction ls as [|x ls IH]; intros [|i] H; simpl in *;
    try discriminate; [now injection H as ->|now apply IH].
Qed.

(** Without fine-tuning, training never touches a matrix of fixed
    centroids. *)
Lemma until_trained_keeps_centroids env args ind2label embedding :
  Py.truthy (centroids args) = true ->
  Py.truthy (finetune args) = false ->
  pickle_file env (path_of (centroids args)) = Some (ind2label, embedding) ->
  let s1 := snd (until_trained env args initial) in
  st_layers s1 = [] \/ st_centroid_table s1 = Some embedding.
Proof.
  intros Hc Hf Hp s1. subst s1.
  remember (until_trained env args initial) as R eqn:E.
  unfold until_trained in E. unfold bind at 1 in E.
  rewrite (load_classes_centroids env args initial ind2label embedding Hc Hp) in E.
  unfold build, finetune_phase, train_phase in E. rewrite Hf in E.
  unfold bind, emit, lift, put_model, when, ret, raise, compile, fit_generator in E.
  simpl in E.
  destruct (get_data_generator env (Some ind2label)) as [dg|]; simpl in E;
    [|subst R; now left].
  destruct (center_loss_model _ _ _) as [mdl|] eqn:Hm; simpl in E;
    [|subst R; now left].
  apply center_loss_model_fixed in Hm. right.
  assert (Hbuilt : forall c tr, st_centroid_table (mkState (layers mdl) (n_embed mdl) c tr)
                                = Some embedding).
  { intros. unfold st_centroid_table, centroid_table. simpl. now rewrite Hm. }
  destruct (no_progress args); simpl in E;
    (destruct (get_lr_schedule env _ _) as [ne|]; simpl in E; [|subst R; apply Hbuilt]);
    (destruct (Decay.decay _ _ _ _ _) as [d|]; simpl in E; [|subst R; apply Hbuilt]);
    subst R; unfold st_centroid_table, centroid_table; simpl;
    rewrite train_steps_frozen, Hm; try reflexivity;
    now rewrite (nth_map_trainable _ _ _ Hm).
Qed.

(** Without fine-tuning the fixed centroids are the same matrix at the
    end of the run, however it ends, once the model exists. *)
Lemma centroids_frozen_without_finetune env args ind2label embedding :
  Py.truthy (centroids args) = true ->
  Py.truthy (finetune args) = false ->
  pickle_file env (path_of (centroids args)) = Some (ind2label, embedding) ->
  let s := snd (run env args) in
  st_layers s = [] \/ st_centroid_table s = Some embedding.
Proof.
  intros Hc Hf Hp s. subst s.
  pose proof (until_trained_keeps_centroids env args ind2label embedding Hc Hf Hp)
    as H1. simpl in H1.
  destruct (until_trained env args initial) as [[dg|e] s1] eqn:E0; simpl in H1.
  - assert (Hr : run env args
                 = bind (evaluate_phase env dg)
                        (fun _ => bind (save_model env args)
                                       (fun _ => dump_features env args)) s1)
      by (unfold run, main; unfold bind at 1; now rewrite E0).
    rewrite Hr. destruct (keeps_after_training env args dg s1) as [E1 E2].
    unfold st_centroid_table in *. now rewrite E1, E2.
  - assert (Hr : run env args = (Raise e, s1))
      by (unfold run, main; unfold bind at 1; now rewrite E0).
    now rewrite Hr.
Qed.

End FrozenFacts.

(** Without [--finetune] the sample run ends with the centroids it was
    given. *)
Example sample_run_without_finetune :
  fst (Main.run Sample.env Sample.args_no_finetune) = Main.Ok tt
  /\ Main.st_centroid_table (snd (Main.run Sample.env Sample.args_no_finetune))
     = Some Sample.centroids.
Proof. split; vm_compute; reflexivity. Qed.

(** C1 (the code at the failing input).  A fixed centroid matrix is put
    into the lookup table and the table is marked non-trainable when the
    model is built.  In a run that also fine-tunes, the fine-tuning phase
    sets the table trainable by its name and afterwards sets every layer
    trainable: both calls of [compile] collect the table, both trainings
    update it, and at the end of the run it is not the matrix that was
    supplied. *)
Theorem C1_finetune_trains_fixed_centroids :
  Main.st_centroid_table Sample.built = Some Sample.centroids
  /\ option_map Layers.trainable (nth_error (Main.st_layers Sample.built) 6) = Some false
  /\ exists s,
      Main.run Sample.env Sample.args = (Main.Ok tt, s)
      /\ In (Main.Compile
               0 [false; true; false; true; true; false; true; false; false; false])
            (Main.st_trace s)
      /\ In (Main.Compile 0 [true; true; true; true; true; true; true; true; true; true])
            (Main.st_trace s)
      /\ Main.st_centroid_table s = Some [[3; 2]; [2; 3]; [3; 3]]%Q
      /\ Main.st_centroid_table s <> Some Sample.centroids.
Proof.
  split; [vm_compute; reflexivity|]. split; [vm_compute; reflexivity|].
  eexists. split; [vm_compute; reflexivity|].
  split; [simpl; tauto|]. split; [simpl; tauto|].
  split; [reflexivity|discriminate].
Qed.

(* ================================================================== *)
(** * Part III: further properties of the code *)
(* ================================================================== *)

(** ** Batch transform *)

Lemma index_wraps (n l : Z) :
  (1 <= n)%Z -> (- n <= l < n)%Z -> Np.index n l = Some (Z.to_nat (l mod n)).
Proof.
  intros Hn Hl. unfold Np.index.
  destruct (Z.leb_spec 0 l), (Z.ltb_spec l n); simpl; try lia.
  - now rewrite Z.mod_small by lia.
  - destruct (Z.leb_spec (- n) l), (Z.ltb_spec l 0); simpl; try lia.
    do 2 f_equal. apply Z.mod_unique with (q := (-1)%Z); lia.
Qed.

Lemma scatter_ones_wraps (n : Z) (y : list Z) :
  (1 <= n)%Z ->
  Forall (fun l => (- n <= l < n)%Z) y ->
  Keras.scatter_ones n y
  = Some (map (fun l => Np.unit_row (Z.to_nat n) (Z.to_nat (l mod n))) y).
Proof.
  intros Hn. induction 1 as [|l y Hl _ IH]; simpl; [reflexivity|].
  now rewrite (index_wraps _ _ Hn Hl), IH.
Qed.

(** X1.  With [num_classes >= 1] and every label in
    [-num_classes, num_classes), [transform_inputs] returns normally: the
    row of label [l] is the one-hot row of class [l mod num_classes] (a
    negative label counts from the last class), every row sums to 1, and
    the zero target has [len(X)] entries whatever the length of [y]. *)
Theorem X1_transform_inputs_negative_labels_wrap
        {Image : Type} (X : list Image) (y : list Z) (num_classes : Z) :
  (1 <= num_classes)%Z ->
  Forall (fun l => (- num_classes <= l < num_classes)%Z) y ->
  transform_inputs X y num_classes
  = Some ((X, y),
          (map (fun l => Np.unit_row (Z.to_nat num_classes)
                                     (Z.to_nat (l mod num_classes))) y,
           Np.zeros (List.length X)))
  /\ Forall (fun l => (Np.qsum (Np.unit_row (Z.to_nat num_classes)
                                            (Z.to_nat (l mod num_classes))) == 1)%Q) y.
Proof.
  intros Hn Hy. split.
  - unfold transform_inputs.
    rewrite to_categorical_pos by lia.
    now rewrite (scatter_ones_wraps _ _ Hn Hy).
  - apply Forall_forall. intros l _. apply qsum_unit_row.
    pose proof (Z.mod_pos_bound l num_classes). lia.
Qed.

Lemma X1_transform_inputs_negative_labels_wrap_witness :
  transform_inputs [tt; tt; tt] [-3; 1]%Z 3
  = Some (([tt; tt; tt], [-3; 1]%Z),
          (map (fun l => Np.unit_row (Z.to_nat 3) (Z.to_nat (l mod 3))) [-3; 1]%Z,
           Np.zeros (List.length [tt; tt; tt]))).
Proof.
  apply (X1_transform_inputs_negative_labels_wrap [tt; tt; tt] [-3; 1]%Z 3).
  - lia.
  - repeat constructor; lia.
Defined.

Lemma zmax_nonneg_cons (l : Z) (y : list Z) :
  Forall (fun x => (0 <= x)%Z) (l :: y) -> (0 <= Np.zmax (l :: y))%Z.
Proof. intros H. inversion H; subst. simpl. lia. Qed.

(** X2.  With [num_classes = 0] and a batch of non-negative labels that is
    not empty, [transform_inputs] does not raise: the number of classes is
    taken from the data, every one-hot row has [max(y) + 1] entries. *)
Theorem X2_transform_inputs_infers_num_classes
        {Image : Type} (X : list Image) (y : list Z) :
  y <> [] ->
  Forall (fun l => (0 <= l)%Z) y ->
  transform_inputs X y 0
  = Some ((X, y),
          (map (fun l => Np.unit_row (Z.to_nat (Np.zmax y + 1)) (Z.to_nat l)) y,
           Np.zeros (List.length X))).
Proof.
  intros Hne Hy. unfold transform_inputs, Keras.to_categorical. simpl.
  destruct y as [|l y]; [congruence|].
  pose proof (zmax_nonneg_cons l y Hy) as Hmax.
  destruct (Z.ltb_spec (Np.zmax (l :: y) + 1) 0); [lia|].
  rewrite scatter_ones_in_range; [reflexivity|].
  apply Forall_forall. intros x Hx. rewrite Forall_forall in Hy.
  pose proof (Hy x Hx). pose proof (zmax_ge x (l :: y) Hx). lia.
Qed.

Lemma X2_transform_inputs_infers_num_classes_witness :
  transform_inputs [tt] [1; 4]%Z 0
  = Some (([tt], [1; 4]%Z),
          (map (fun l => Np.unit_row (Z.to_nat (Np.zmax [1; 4]%Z + 1)) (Z.to_nat l))
               [1; 4]%Z,
           Np.zeros (List.length [tt]))).
Proof.
  apply (X2_transform_inputs_infers_num_classes [tt] [1; 4]%Z).
  - discriminate.
  - repeat constructor; lia.
Defined.

(** ** Learning-rate decay *)

(** X3.  The decay computation raises [ZeroDivisionError] exactly when
    [max_decay > 0] and either the batch size is 0 or
    [(num_train // batch_size) * epochs] is 0; in particular whenever
    [max_decay > 0] and the training set is smaller than one batch. *)
Theorem X3_decay_zero_division
        (max_decay : Q) (num_train batch_size : Z) (epochs : option Z) (num_epochs : Z) :
  (Decay.decay max_decay num_train batch_size epochs num_epochs = None
   <-> (0 < max_decay)%Q
       /\ (batch_size = 0%Z
           \/ Decay.total_batches num_train batch_size epochs num_epochs = 0%Z))
  /\ ((0 < max_decay)%Q -> (0 <= num_train < batch_size)%Z ->
      Decay.decay max_decay num_train batch_size epochs num_epochs = None).
Proof.
  assert (Hiff : Decay.decay max_decay num_train batch_size epochs num_epochs = None
                 <-> (0 < max_decay)%Q
                     /\ (batch_size = 0%Z
                         \/ Decay.total_batches num_train batch_size epochs num_epochs
                            = 0%Z)).
  { unfold Decay.decay.
    destruct (Qlt_le_dec 0 max_decay) as [H|H].
    - destruct (Z.eqb_spec batch_size 0) as [E|E]; [tauto|].
      destruct (Z.eqb_spec (Decay.total_batches num_train batch_size epochs num_epochs) 0);
        split; intros; try discriminate; try tauto.
    - split; [discriminate|]. intros [H' _]. lra. }
  split; [exact Hiff|].
  intros Hm Hn. apply Hiff. split; [exact Hm|]. right.
  unfold Decay.total_batches. rewrite Z.div_small by exact Hn. reflexivity.
Qed.

Lemma X3_decay_zero_division_witness :
  Decay.decay (1 # 10) 5 10 None 30 = None.
Proof.
  apply (proj2 (X3_decay_zero_division (1 # 10) 5 10 None 30)).
  - reflexivity.
  - lia.
Defined.

Lemma sgd_lr_monotone (lr d : Q) (t t' : Z) :
  (0 <= lr)%Q -> (0 <= t <= t')%Z ->
  (Keras.sgd_lr lr d t' <= Keras.sgd_lr lr d t)%Q.
Proof.
  intros Hlr [Ht Htt]. unfold Keras.sgd_lr.
  destruct (Qlt_le_dec 0 d) as [Hd|Hd]; [|lra].
  assert (H0 : (0 <= inject_Z t)%Q)
    by (change 0%Q with (inject_Z 0); now rewrite <- Zle_Qle).
  assert (H1 : (inject_Z t <= inject_Z t')%Q) by now rewrite <- Zle_Qle.
  set (x := (1 + d * inject_Z t)%Q). set (y := (1 + d * inject_Z t')%Q).
  assert (Hx : (1 <= x)%Q) by (subst x; nra).
  assert (Hxy : (x <= y)%Q) by (subst x y; nra).
  assert (Ea : (x * (1 / x) == 1)%Q) by (field; lra).
  assert (Eb : (y * (1 / y) == 1)%Q) by (field; lra).
  assert (Ha : (0 <= 1 / x)%Q) by (apply Qle_shift_div_l; lra).
  assert (Hb : (0 <= 1 / y)%Q) by (apply Qle_shift_div_l; lra).
  assert (Hba : (1 / y <= 1 / x)%Q).
  { apply Qle_shift_div_r; [lra|].
    setoid_replace (1 / x * y)%Q with ((1 / x) * x + (1 / x) * (y - x))%Q by ring.
    setoid_replace ((1 / x) * x)%Q with 1%Q by (rewrite Qmult_comm; exact Ea).
    assert (0 <= 1 / x * (y - x))%Q by (apply Qmult_le_0_compat; lra). lra. }
  nra.
Qed.

(** X4.  With [0 < max_decay <= 1] and [n = (num_train // batch_size) *
    epochs > 0], the learning rate with the computed decay never grows from
    one update to a later one and, up to update [n], stays between
    [max_decay] times the initial rate and the initial rate. *)
Theorem X4_learning_rate_bounds
        (max_decay lr : Q) (num_train batch_size : Z) (epochs : option Z) (num_epochs : Z) :
  let n := Decay.total_batches num_train batch_size epochs num_epochs in
  (0 < max_decay)%Q -> (max_decay <= 1)%Q -> (0 < n)%Z -> (0 <= lr)%Q ->
  exists d,
    Decay.decay max_decay num_train batch_size epochs num_epochs = Some d
    /\ (0 <= d)%Q
    /\ (forall t t', (0 <= t <= t')%Z ->
                     (Keras.sgd_lr lr d t' <= Keras.sgd_lr lr d t)%Q)
    /\ (forall t, (0 <= t <= n)%Z ->
                  (max_decay * lr <= Keras.sgd_lr lr d t)%Q
                  /\ (Keras.sgd_lr lr d t <= lr)%Q).
Proof.
  intros n Hm Hm1 Hn Hlr. unfold Decay.decay.
  destruct (Qlt_le_dec 0 max_decay) as [_|?]; [|lra]. fold n.
  destruct (Z.eqb_spec batch_size 0) as [E|_].
  { exfalso. subst n. unfold Decay.total_batches in Hn.
    rewrite E, Z.div_0_r in Hn. simpl in Hn. lia. }
  destruct (Z.eqb_spec n 0) as [?|_]; [lia|].
  pose proof (inject_Z_pos n Hn) as Hn'.
  eexists. split; [reflexivity|]. split; [|split].
  - assert (E2 : (max_decay * (1 / max_decay) == 1)%Q) by (field; lra).
    assert (H1 : (1 <= 1 / max_decay)%Q)
      by (apply Qle_shift_div_l; lra).
    apply Qle_shift_div_l; lra.
  - intros t t' Ht. now apply sgd_lr_monotone.
  - intros t Ht. split.
    + rewrite <- (sgd_lr_after_all_batches max_decay lr n Hm Hm1 Hn).
      apply sgd_lr_monotone; [exact Hlr|lia].
    + assert (E0 : (Keras.sgd_lr lr ((1 / max_decay - 1) / inject_Z n) 0 == lr)%Q).
      { unfold Keras.sgd_lr. destruct (Qlt_le_dec _ _); [|reflexivity].
        set (d := ((1 / max_decay - 1) / inject_Z n)%Q).
        assert (E : (1 + d * inject_Z 0 == 1)%Q)
          by (change (inject_Z 0) with 0%Q; ring).
        rewrite E. field. }
      rewrite <- E0 at 2. apply sgd_lr_monotone; [exact Hlr|lia].
Qed.

Lemma X4_learning_rate_bounds_witness :
  exists d,
    Decay.decay (1 # 4) 100 10 None 3 = Some d
    /\ (0 <= d)%Q
    /\ (forall t t', (0 <= t <= t')%Z ->
                     (Keras.sgd_lr 1 d t' <= Keras.sgd_lr 1 d t)%Q)
    /\ (forall t, (0 <= t <= Decay.total_batches 100 10 None 3)%Z ->
                  ((1 # 4) * 1 <= Keras.sgd_lr 1 d t)%Q
                  /\ (Keras.sgd_lr 1 d t <= 1)%Q).
Proof.
  apply (X4_learning_rate_bounds (1 # 4) 1 100 10 None 3).
  - reflexivity.
  - unfold Qle; simpl; lia.
  - reflexivity.
  - unfold Qle; simpl; lia.
Defined.

(** X5.  With [max_decay > 1] and a positive number of batches, the
    computed decay is negative, and the optimizer, which applies a decay
    only when it is positive, keeps the learning rate constant. *)
Theorem X5_max_decay_above_one_keeps_rate
        (max_decay : Q) (num_train batch_size : Z) (epochs : option Z) (num_epochs : Z) :
  (1 < max_decay)%Q ->
  (0 < Decay.total_batches num_train batch_size epochs num_epochs)%Z ->
  exists d,
    Decay.decay max_decay num_train batch_size epochs num_epochs = Some d
    /\ (d < 0)%Q
    /\ forall lr t, Keras.sgd_lr lr d t = lr.
Proof.
  intros Hm Hn. unfold Decay.decay.
  set (n := Decay.total_batches num_train batch_size epochs num_epochs) in *.
  destruct (Qlt_le_dec 0 max_decay) as [_|?]; [|lra].
  destruct (Z.eqb_spec batch_size 0) as [E|_].
  { exfalso. subst n. unfold Decay.total_batches in Hn.
    rewrite E, Z.div_0_r in Hn. simpl in Hn. lia. }
  destruct (Z.eqb_spec n 0) as [?|_]; [lia|].
  pose proof (inject_Z_pos n Hn) as Hn'.
  assert (Hd : ((1 / max_decay - 1) / inject_Z n < 0)%Q).
  { assert (E2 : (max_decay * (1 / max_decay) == 1)%Q) by (field; lra).
    assert (H1 : (1 / max_decay < 1)%Q) by (apply Qlt_shift_div_r; lra).
    apply Qlt_shift_div_r; lra. }
  eexists. split; [reflexivity|]. split; [exact Hd|].
  intros lr t. unfold Keras.sgd_lr.
  destruct (Qlt_le_dec 0 _) as [H|_]; [lra|reflexivity].
Qed.

Lemma X5_max_decay_above_one_keeps_rate_witness :
  exists d,
    Decay.decay 10 100 10 None 3 = Some d
    /\ (d < 0)%Q
    /\ forall lr t, Keras.sgd_lr lr d t = lr.
Proof.
  apply (X5_max_decay_above_one_keeps_rate 10 100 10 None 3); reflexivity.
Defined.

(** ** Average accuracy *)

Section AccuracyMore.

Import Evaluate.

(** The printed value as a sum over the classes that occur. *)
Lemma average_accuracy_by_class (pred lab : list Z) :
  List.length pred = List.length lab ->
  lab <> [] ->
  Forall (fun l => (0 <= l)%Z) lab ->
  exists acc,
    average_accuracy pred lab = Value acc
    /\ (acc == Np.qsum (map (class_rate pred lab) (classes lab))
               / inject_Z (Np.zmax lab + 1))%Q.
Proof.
  intros Hlen Hne Hpos.
  assert (Hmax : (0 <= Np.zmax lab)%Z).
  { destruct lab as [|l lab]; [congruence|]. now apply zmax_nonneg_cons. }
  assert (Hrange : Forall (fun l => (0 <= l < Z.of_nat (Z.to_nat (Np.zmax lab + 1)))%Z) lab).
  { rewrite Forall_forall in *. intros l Hl.
    pose proof (Hpos l Hl). pose proof (zmax_ge l lab Hl). lia. }
  unfold average_accuracy.
  rewrite (bincount_nonneg lab Hpos), Hlen, Nat.eqb_refl. simpl negb. cbv iota.
  rewrite (take_table _ _ _ Hrange), length_map, length_seq.
  destruct (Nat.eqb_spec (Z.to_nat (Np.zmax lab + 1)) 0) as [E|_]; [lia|].
  eexists. split; [reflexivity|].
  rewrite Z2Nat.id by lia.
  rewrite (weighted_hits_by_class
             (fun l => Z.of_nat (count_occ Z.eq_dec lab (Z.of_nat (Z.to_nat l))))
             (classes lab) (NoDup_nodup Z.eq_dec lab)).
  - apply Qmult_comp; [|reflexivity].
    apply qsum_map_ext. intros c Hc. apply nodup_In in Hc.
    unfold class_rate. rewrite count_class_occ.
    rewrite Forall_forall in Hpos. rewrite Z2Nat.id by now apply Hpos.
    reflexivity.
  - apply Forall_forall. intros l Hl. now apply nodup_In.
Qed.

Lemma forallb_nonneg_false (lab : list Z) :
  forallb (fun x => (0 <=? x)%Z) lab = false <-> Exists (fun l => (l < 0)%Z) lab.
Proof.
  induction lab as [|l lab IH]; simpl.
  - split; [discriminate|]. intros H. inversion H.
  - rewrite Exists_cons, <- IH.
    destruct (Z.leb_spec 0 l); simpl.
    + split; [tauto|]. intros [?|?]; [lia|assumption].
    + split; [intros _; now left|reflexivity].
Qed.

End AccuracyMore.

(** X7.  For predictions and test labels of the same number, not zero,
    the accuracy computation raises exactly when some test label is
    negative (it is [np.bincount] that raises), and gives a value
    otherwise. *)
Theorem X7_average_accuracy_raises_on_negative_label (pred lab : list Z) :
  List.length pred = List.length lab ->
  lab <> [] ->
  (Evaluate.average_accuracy pred lab = Evaluate.Exception
   <-> Exists (fun l => (l < 0)%Z) lab)
  /\ (Evaluate.average_accuracy pred lab <> Evaluate.Exception ->
      exists acc, Evaluate.average_accuracy pred lab = Evaluate.Value acc).
Proof.
  intros Hlen Hne.
  destruct (forallb (fun x => (0 <=? x)%Z) lab) eqn:Hf.
  - assert (Hpos : Forall (fun l => (0 <= l)%Z) lab).
    { apply Forall_forall. intros x Hx.
      rewrite forallb_forall in Hf. apply Z.leb_le. now apply Hf. }
    destruct (average_accuracy_by_class pred lab Hlen Hne Hpos) as (acc & E & _).
    rewrite E. split; [|intros _; now exists acc].
    split; [discriminate|].
    intros H. apply forallb_nonneg_false in H. congruence.
  - assert (E : Evaluate.average_accuracy pred lab = Evaluate.Exception)
      by (unfold Evaluate.average_accuracy, Np.bincount; now rewrite Hf).
    rewrite E. split; [|congruence].
    split; [intros _; now apply forallb_nonneg_false|reflexivity].
Qed.

Lemma X7_average_accuracy_raises_on_negative_label_witness :
  Evaluate.average_accuracy [0; 1]%Z [0; -1]%Z = Evaluate.Exception
  <-> Exists (fun l => (l < 0)%Z) [0; -1]%Z.
Proof.
  apply (X7_average_accuracy_raises_on_negative_label [0; 1]%Z [0; -1]%Z).
  - reflexivity.
  - discriminate.
Defined.

(** ** Class-list file *)

Section ClassListMore.

Import ClassListFile More.

Lemma isspace_LF : Py.isspace Py.LF = true.
Proof. reflexivity. Qed.

Lemma nonspace_not_newline (c : ascii) :
  Py.isspace c = false -> Ascii.eqb c Py.LF = false /\ Ascii.eqb c Py.CR = false.
Proof.
  intros H. split.
  - destruct (Ascii.eqb_spec c Py.LF) as [->|]; [discriminate|reflexivity].
  - destruct (Ascii.eqb_spec c Py.CR) as [->|]; [discriminate|reflexivity].
Qed.

Lemma universal_newlines_word (w rest : string) :
  no_space w = true ->
  Py.universal_newlines (String.append w (String Py.LF rest))
  = String.append w (String Py.LF (Py.universal_newlines rest)).
Proof.
  induction w as [|c w IH]; simpl; intros H; [reflexivity|].
  apply andb_true_iff in H. destruct H as [Hc Hw].
  apply negb_true_iff in Hc. destruct (nonspace_not_newline c Hc) as [_ ->].
  now rewrite IH.
Qed.

Lemma universal_newlines_join (ws : list string) :
  Forall (fun w => is_word w = true) ws ->
  Py.universal_newlines (join_lines ws) = join_lines ws.
Proof.
  induction 1 as [|w ws Hw _ IH]; simpl; [reflexivity|].
  unfold is_word in Hw. apply andb_true_iff in Hw. destruct Hw as [_ Hw].
  now rewrite universal_newlines_word, IH.
Qed.

Lemma append_snoc (cur : string) (c : ascii) (w : string) :
  String.append (Py.snoc cur c) w = String.append cur (String c w).
Proof. unfold Py.snoc. induction cur as [|a cur IH]; simpl; congruence. Qed.

Lemma lines_from_word (w cur rest : string) :
  no_space w = true ->
  Py.lines_from cur (String.append w (String Py.LF rest))
  = Py.snoc (String.append cur w) Py.LF :: Py.lines_from EmptyString rest.
Proof.
  revert cur. induction w as [|c w IH]; simpl; intros cur H.
  - f_equal. f_equal. induction cur as [|a cur IHc]; simpl; congruence.
  - apply andb_true_iff in H. destruct H as [Hc Hw].
    apply negb_true_iff in Hc. destruct (nonspace_not_newline c Hc) as [-> _].
    rewrite IH by exact Hw. now rewrite append_snoc.
Qed.

Lemma file_lines_join (ws : list string) :
  Forall (fun w => is_word w = true) ws ->
  Py.file_lines (join_lines ws) = map (fun w => Py.snoc w Py.LF) ws.
Proof.
  intros H. unfold Py.file_lines. rewrite (universal_newlines_join ws H).
  induction H as [|w ws Hw _ IH]; simpl; [reflexivity|].
  unfold is_word in Hw. apply andb_true_iff in Hw. destruct Hw as [_ Hw].
  now rewrite lines_from_word, IH.
Qed.

Lemma take_word_line (w : string) :
  no_space w = true -> take_word (Py.snoc w Py.LF) = w.
Proof.
  induction w as [|c w IH]; simpl; intros H; [reflexivity|].
  apply andb_true_iff in H. destruct H as [Hc Hw].
  apply negb_true_iff in Hc. rewrite Hc. f_equal. now apply IH.
Qed.

Lemma word_line (w : string) :
  is_word w = true ->
  all_space (Py.snoc w Py.LF) = false /\ spec_first_token (Py.snoc w Py.LF) = w.
Proof.
  unfold is_word. intros H. apply andb_true_iff in H. destruct H as [Hne Hw].
  destruct w as [|c w]; [discriminate|].
  pose proof Hw as Hw'. simpl in Hw'. apply andb_true_iff in Hw'.
  destruct Hw' as [Hc _]. apply negb_true_iff in Hc.
  split.
  - simpl. now rewrite Hc.
  - unfold spec_first_token.
    replace (Py.lstrip (Py.snoc (String c w) Py.LF)) with (Py.snoc (String c w) Py.LF)
      by (simpl; now rewrite Hc).
    now apply take_word_line.
Qed.

Lemma spec_dedup_NoDup_id (ws : list string) : NoDup ws -> spec_dedup ws = ws.
Proof.
  induction 1 as [|w ws Hw _ IH]; simpl; [reflexivity|].
  rewrite IH. f_equal. apply forallb_filter_id. apply forallb_forall.
  intros x Hx. destruct (String.eqb_spec x w) as [->|]; [contradiction|reflexivity].
Qed.

Lemma tokens_of_join (ws : list string) :
  Forall (fun w => is_word w = true) ws ->
  map spec_first_token
      (filter (fun l => negb (all_space l)) (map (fun w => Py.snoc w Py.LF) ws))
  = ws.
Proof.
  induction 1 as [|w ws Hw _ IH]; simpl; [reflexivity|].
  destruct (word_line w Hw) as [-> E]. simpl. now rewrite E, IH.
Qed.

End ClassListMore.

(** X9.  Round trip: a file that holds distinct identifiers, one per line,
    each not empty and free of whitespace, is read back as exactly these
    identifiers in their order, converted to integers when all of them are
    integers. *)
Theorem X9_class_list_round_trip (ws : list string) :
  Forall (fun w => More.is_word w = true) ws ->
  NoDup ws ->
  ClassListFile.parse_class_list (More.join_lines ws)
  = Some (ClassListFile.coerce ws).
Proof.
  intros Hw Hnd. unfold ClassListFile.parse_class_list.
  rewrite gen_pairs_spec, keys_OrderedDict_of, map_map.
  rewrite (map_ext _ ClassListFile.spec_first_token) by (intros; reflexivity).
  now rewrite (file_lines_join ws Hw), (tokens_of_join ws Hw), spec_dedup_NoDup_id.
Qed.

Lemma X9_class_list_round_trip_witness :
  ClassListFile.parse_class_list (More.join_lines ["n01"; "42"; "n03"]%string)
  = Some (ClassListFile.coerce ["n01"; "42"; "n03"]%string).
Proof.
  apply (X9_class_list_round_trip ["n01"; "42"; "n03"]%string).
  - repeat constructor.
  - repeat constructor; simpl; intuition discriminate.
Defined.

(** X10.  A class-list file whose lines are all blank, the empty file
    included, is read as the empty list of integer identifiers; no
    exception is raised. *)
Theorem X10_blank_class_list_file (content : string) :
  Forall (fun l => ClassListFile.all_space l = true) (Py.file_lines content) ->
  ClassListFile.parse_class_list content = Some (ClassListFile.IntLabels []).
Proof.
  intros H. unfold ClassListFile.parse_class_list.
  rewrite gen_pairs_spec.
  replace (filter (fun l => negb (ClassListFile.all_space l)) (Py.file_lines content))
    with (@nil string); [reflexivity|].
  induction H as [|l ls Hl _ IH]; simpl; [reflexivity|]. now rewrite Hl.
Qed.

Lemma X10_blank_class_list_file_witness :
  ClassListFile.parse_class_list (String Py.LF (String " " (String Py.CR (String Py.LF " "))))
  = Some (ClassListFile.IntLabels []).
Proof.
  apply X10_blank_class_list_file. vm_compute. repeat constructor.
Defined.

(** X11.  The identifiers read from a class-list file are exactly the
    first tokens of its non-blank lines; when they are kept as strings no
    identifier occurs twice, and when they are converted every integer is
    the value of such a token. *)
Theorem X11_class_list_members (content : string) (cl : ClassListFile.class_list) :
  ClassListFile.parse_class_list content = Some cl ->
  let token w :=
    exists l, In l (Py.file_lines content)
              /\ ClassListFile.all_space l = false
              /\ ClassListFile.spec_first_token l = w in
  match cl with
  | ClassListFile.StrLabels ws => NoDup ws /\ forall w, In w ws <-> token w
  | ClassListFile.IntLabels zs =>
      forall z, In z zs <-> exists w, token w /\ Py.int w = Some z
  end.
Proof.
  unfold ClassListFile.parse_class_list.
  rewrite gen_pairs_spec, keys_OrderedDict_of, coerce_spec, map_map.
  rewrite (map_ext _ ClassListFile.spec_first_token) by (intros; reflexivity).
  set (toks := map ClassListFile.spec_first_token
                   (filter (fun l => negb (ClassListFile.all_space l))
                           (Py.file_lines content))).
  intros H.
  assert (Htok : forall w,
             In w (ClassListFile.spec_dedup toks)
             <-> exists l, In l (Py.file_lines content)
                           /\ ClassListFile.all_space l = false
                           /\ ClassListFile.spec_first_token l = w).
  { intros w. rewrite spec_dedup_In. subst toks. rewrite in_map_iff. split.
    - intros (l & E & Hl). apply filter_In in Hl. destruct Hl as [Hl Hb].
      exists l. apply negb_true_iff in Hb. auto.
    - intros (l & Hl & Hb & E). exists l. split; [exact E|].
      apply filter_In. split; [exact Hl|]. now rewrite Hb. }
  unfold ClassListFile.spec_coerce in H.
  destruct (forallb ClassListFile.int_parseable (ClassListFile.spec_dedup toks)) eqn:Hall;
    injection H as <-.
  - intros z. rewrite in_map_iff. split.
    + intros (w & E & Hw). exists w. split; [now apply Htok|].
      rewrite forallb_forall in Hall. specialize (Hall w Hw).
      unfold ClassListFile.int_parseable, ClassListFile.int_or_zero in *.
      destruct (Py.int w); [congruence|discriminate].
    + intros (w & Hw & E). exists w. split; [|now apply Htok].
      unfold ClassListFile.int_or_zero. now rewrite E.
  - split; [apply spec_dedup_NoDup|exact Htok].
Qed.

Lemma X11_class_list_members_witness :
  ClassListFile.parse_class_list ("12 x" ++ String Py.LF "n01440764")
  = Some (ClassListFile.StrLabels ["12"; "n01440764"]%string)
  /\ NoDup ["12"; "n01440764"]%string.
Proof.
  assert (E : ClassListFile.parse_class_list ("12 x" ++ String Py.LF "n01440764")
              = Some (ClassListFile.StrLabels ["12"; "n01440764"]%string))
    by (vm_compute; reflexivity).
  split; [exact E|].
  exact (proj1 (X11_class_list_members _ _ E)).
Defined.

(** ** Center-loss head and model builder *)

Section HeadMore.

Import Layers.

Lemma Qsquare_nonneg (x : Q) : (0 <= x * x)%Q.
Proof.
  destruct (Qlt_le_dec x 0) as [H|H].
  - setoid_replace (x * x)%Q with ((- x) * (- x))%Q by ring.
    apply Qmult_le_0_compat; lra.
  - now apply Qmult_le_0_compat.
Qed.

Lemma sum_squares_nonneg (e c : list Q) :
  (0 <= Np.qsum (zip_with (fun a b => (a - b) * (a - b)) e c))%Q.
Proof.
  revert c. induction e as [|a e IH]; intros [|b c]; try (simpl; lra).
  specialize (IH c).
  change (0 <= (a - b) * (a - b)
               + Np.qsum (zip_with (fun a b => (a - b) * (a - b)) e c))%Q.
  pose proof (Qsquare_nonneg (a - b)). lra.
Qed.

Lemma sum_squares_zero (e c : list Q) :
  List.length e = List.length c ->
  ((Np.qsum (zip_with (fun a b => (a - b) * (a - b)) e c) == 0)%Q
   <-> Forall2 Qeq e c).
Proof.
  revert c. induction e as [|a e IH]; intros [|b c] Hlen; simpl in Hlen;
    try discriminate.
  - split; [constructor|reflexivity].
  - injection Hlen as Hlen. specialize (IH c Hlen).
    pose proof (sum_squares_nonneg e c) as Hs.
    change (((a - b) * (a - b)
             + Np.qsum (zip_with (fun a b => (a - b) * (a - b)) e c) == 0)%Q
            <-> Forall2 Qeq (a :: e) (b :: c)).
    pose proof (Qsquare_nonneg (a - b)) as Hsq.
    split.
    + intros H.
      assert (H1 : ((a - b) * (a - b) == 0)%Q) by lra.
      assert (H2 : (Np.qsum (zip_with (fun a b => (a - b) * (a - b)) e c) == 0)%Q)
        by lra.
      constructor; [|now apply IH].
      apply Qmult_integral in H1. destruct H1; lra.
    + intros H. inversion H as [|? ? ? ? Hab Hrest]; subst.
      apply IH in Hrest. rewrite Hrest, Hab. ring.
Qed.

Lemma spec_center_loss_nonneg (e c : list Q) : (0 <= spec_center_loss e c)%Q.
Proof. unfold spec_center_loss. pose proof (sum_squares_nonneg e c). lra. Qed.

Lemma spec_center_loss_zero (e c : list Q) :
  List.length e = List.length c ->
  ((spec_center_loss e c == 0)%Q <-> Forall2 Qeq e c).
Proof.
  intros Hlen. rewrite <- (sum_squares_zero e c Hlen). unfold spec_center_loss.
  split; intros H; lra.
Qed.

Lemma Forall2_weaken {A B} (R S : A -> B -> Prop) (l : list A) (l' : list B) :
  (forall a b, R a b -> S a b) -> Forall2 R l l' -> Forall2 S l l'.
Proof. intros H. induction 1; constructor; auto. Qed.

End HeadMore.

(** X12.  The center-loss output is never negative, and for an embedding
    of the size of the centroids it is zero exactly when the embedding
    equals the centroid of its label. *)
Theorem X12_center_loss_nonnegative
        (table embedding : Np.matrix) (ys : list Z) :
  List.length embedding = List.length ys ->
  Forall (fun y => (0 <= y < Z.of_nat (List.length table))%Z) ys ->
  exists out,
    Layers.center_loss_head table embedding (map (fun y => [y]) ys) = Some out
    /\ Forall2
         (fun row ey =>
            exists v,
              row = [v]
              /\ (0 <= v)%Q
              /\ (List.length (fst ey)
                  = List.length (nth (Z.to_nat (snd ey)) table []) ->
                  ((v == 0)%Q
                   <-> Forall2 Qeq (fst ey) (nth (Z.to_nat (snd ey)) table []))))
         out (combine embedding ys).
Proof.
  intros Hlen Hys.
  destruct (center_loss_head_spec table embedding ys Hlen Hys) as (out & E & F).
  exists out. split; [exact E|].
  eapply Forall2_weaken; [|exact F].
  intros row ey (v & Hrow & Hv). exists v. split; [exact Hrow|]. split.
  - rewrite Hv. apply spec_center_loss_nonneg.
  - intros Hl. rewrite Hv. now apply spec_center_loss_zero.
Qed.

Lemma X12_center_loss_nonnegative_witness :
  exists out,
    Layers.center_loss_head Sample.centroids [[1; 0]; [3; 1]]%Q
                            (map (fun y => [y]) [0; 2]%Z) = Some out
    /\ List.length out = 2.
Proof.
  destruct (X12_center_loss_nonnegative Sample.centroids [[1; 0]; [3; 1]]%Q [0; 2]%Z)
    as (out & E & F).
  - reflexivity.
  - repeat constructor; simpl; lia.
  - exists out. split; [exact E|].
    apply Forall2_length in F. exact F.
Defined.

(** ** Loading pre-trained weights *)

Section LoadMore.

Import Layers Main.









End LoadMore.



(** ** The run, continued *)

Section RunMore.

Import Layers Main More.

(** The run once the model is trained and the accuracy is computed. *)
Lemma run_after_training env args dg s1 :
  until_trained env args initial = (Ok dg, s1) ->
  Evaluate.average_accuracy (predict_classes env (st_layers s1)) (labels_test dg)
  <> Evaluate.Exception ->
  run env args
  = dump_features env args
      (add_events s1
         ([PrintMetrics;
           PrintAverageAccuracy
             (match Evaluate.average_accuracy
                      (predict_classes env (st_layers s1)) (labels_test dg) with
              | Evaluate.Value a => Some a
              | _ => None
              end)]
          ++ save_events env args)).
Proof.
  intros H Hne. unfold run, main.
  unfold bind at 1. rewrite H.
  unfold bind at 1. unfold evaluate_phase.
  unfold bind at 1 2 3. unfold emit at 1, get_layers. simpl.
  destruct (Evaluate.average_accuracy _ _) as [a| |]; [| |congruence];
    unfold emit; simpl; rewrite save_model_ok; unfold add_events; simpl;
    rewrite <- !app_assoc; reflexivity.
Qed.

(** The run when the accuracy computation raises. *)
Lemma run_evaluation_raises env args dg s1 :
  until_trained env args initial = (Ok dg, s1) ->
  Evaluate.average_accuracy (predict_classes env (st_layers s1)) (labels_test dg)
  = Evaluate.Exception ->
  run env args = (Raise "average accuracy", add_events s1 [PrintMetrics]).
Proof.
  intros H He. unfold run, main.
  unfold bind at 1. rewrite H.
  unfold bind at 1. unfold evaluate_phase.
  unfold bind at 1 2. unfold emit at 1, get_layers. simpl.
  rewrite He. reflexivity.
Qed.

Lemma run_training_raises env args e s1 :
  until_trained env args initial = (Raise e, s1) -> run env args = (Raise e, s1).
Proof. intros H. unfold run, main. unfold bind at 1. now rewrite H. Qed.

Lemma until_trained_no_export env args :
  Forall (fun e => is_export e = false)
         (st_trace (snd (until_trained env args initial))).
Proof.
  destruct (appends_until_trained (fun e => is_export e = false)) with
    (env := env) (args := args) (s := initial) as (evs & E & F).
  - now intros [].
  - reflexivity.
  - now rewrite E.
Qed.

(** The trace of a run: actions that are no exports, then nothing, or
    the metrics alone, or the metrics, the average accuracy and the rest. *)
Lemma run_trace_shape env args :
  exists tr1 tail,
    st_trace (snd (run env args)) = tr1 ++ tail
    /\ Forall (fun e => is_export e = false) tr1
    /\ (tail = [] \/ tail = [PrintMetrics]
        \/ exists a rest, tail = PrintMetrics :: PrintAverageAccuracy a :: rest).
Proof.
  pose proof (until_trained_no_export env args) as F.
  destruct (until_trained env args initial) as [[dg|e] s1] eqn:E; simpl in F.
  - destruct (Evaluate.average_accuracy (predict_classes env (st_layers s1))
                                        (labels_test dg)) eqn:Ha.
    + rewrite (run_after_training env args dg s1 E) by congruence.
      destruct (appends_dump_features any_event env args (fun _ => I)
                  (add_events s1
                     ([PrintMetrics;
                       PrintAverageAccuracy
                         (match Evaluate.average_accuracy
                                  (predict_classes env (st_layers s1))
                                  (labels_test dg) with
                          | Evaluate.Value a => Some a
                          | _ => None
                          end)] ++ save_events env args))) as (evs & Ev & _).
      rewrite Ev. simpl. exists (st_trace s1). eexists.
      split; [rewrite <- app_assoc; reflexivity|]. split; [exact F|].
      right. right. simpl. eauto.
    + rewrite (run_after_training env args dg s1 E) by congruence.
      destruct (appends_dump_features any_event env args (fun _ => I)
                  (add_events s1
                     ([PrintMetrics;
                       PrintAverageAccuracy
                         (match Evaluate.average_accuracy
                                  (predict_classes env (st_layers s1))
                                  (labels_test dg) with
                          | Evaluate.Value a => Some a
                          | _ => None
                          end)] ++ save_events env args))) as (evs & Ev & _).
      rewrite Ev. simpl. exists (st_trace s1). eexists.
      split; [rewrite <- app_assoc; reflexivity|]. split; [exact F|].
      right. right. simpl. eauto.
    + rewrite (run_evaluation_raises env args dg s1 E Ha). simpl.
      exists (st_trace s1), [PrintMetrics]. auto.
  - rewrite (run_training_raises env args e s1 E). simpl.
    exists (st_trace s1), []. rewrite app_nil_r. auto.
Qed.

Lemma nth_error_train_steps_collected update n collected ls i :
  nth i collected false = true ->
  nth_error (train_steps update n collected ls) i
  = option_map (apply_updates update n) (nth_error ls i).
Proof.
  intros Hi. induction n as [|n IH]; simpl.
  - now destruct (nth_error ls i).
  - rewrite nth_error_train_step, Hi, IH. now destruct (nth_error ls i).
Qed.

Lemma center_loss_model_learned be base n mdl :
  center_loss_model be base (NumClasses n) = Some mdl ->
  nth_error (layers mdl) (n_embed mdl + 4) = Some (centroid_layer be (out_dim base) n).
Proof.
  unfold center_loss_model.
  destruct (_ <? 0)%Z; [discriminate|].
  cbv zeta. destruct (unique _); [|discriminate].
  intros H. injection H as <-. simpl.
  rewrite nth_error_app2 by lia.
  replace (List.length (net_layers base) + 4 - List.length (net_layers base))
    with 4 by lia.
  reflexivity.
Qed.

Lemma load_classes_without_centroids env args s c cl d s' :
  Py.truthy (centroids args) = false ->
  load_classes env args s = (Ok (c, cl, d), s') ->
  c = None /\ d = embed_dim args.
Proof.
  intros Hc. unfold load_classes. rewrite Hc.
  destruct (class_list args) as [path|].
  - unfold bind, emit, lift, ret, raise. simpl.
    destruct (text_file env path); simpl; [|discriminate].
    destruct (ClassListFile.parse_class_list _); simpl; [|discriminate].
    intros H. injection H as <- <- <- <-. now split.
  - unfold ret. intros H. injection H as <- <- <- <-. now split.
Qed.

End RunMore.

(** X15.  In a run without fine-tuning, a fixed centroid matrix read from
    the centroid file is still the content of the lookup table when the
    run ends, normally or by an exception, as soon as the model has been
    built: no training step changes it. *)
Theorem X15_fixed_centroids_survive_training
        (env : Main.Env) (args : Main.Args)
        (ind2label : ClassListFile.class_list) (embedding : Np.matrix) :
  Py.truthy (Main.centroids args) = true ->
  Py.truthy (Main.finetune args) = false ->
  Main.pickle_file env (Main.path_of (Main.centroids args)) = Some (ind2label, embedding) ->
  Main.st_layers (snd (Main.run env args)) = []
  \/ Main.st_centroid_table (snd (Main.run env args)) = Some embedding.
Proof.
  intros Hc Hf Hp.
  exact (centroids_frozen_without_finetune env args ind2label embedding Hc Hf Hp).
Qed.

Lemma X15_fixed_centroids_survive_training_witness :
  Main.st_layers (snd (Main.run Sample.env Sample.args_no_finetune)) = []
  \/ Main.st_centroid_table (snd (Main.run Sample.env Sample.args_no_finetune))
     = Some Sample.centroids.
Proof.
  apply (X15_fixed_centroids_survive_training
           Sample.env Sample.args_no_finetune (ClassListFile.IntLabels [0; 1; 2]%Z));
    reflexivity.
Defined.

(** X16.  In a run without centroid file and without fine-tuning, the
    lookup table is created trainable with [num_classes] rows, is collected
    by [compile], and is updated by every optimizer step of the training:
    after training it is the initial table with all
    [epochs * steps_per_epoch] updates applied. *)
Theorem X16_learned_centroids_are_trained
        (env : Main.Env) (args : Main.Args) (dg : Main.data_generator)
        (s1 : Main.state) (num_epochs : Z) :
  Py.truthy (Main.centroids args) = false ->
  Py.truthy (Main.finetune args) = false ->
  Main.until_trained env args Main.initial = (Main.Ok dg, s1) ->
  Main.get_lr_schedule env args (Main.num_train dg) = Some num_epochs ->
  nth_error (Main.st_layers s1) (Main.st_n_embed s1 + 4)
  = Some (More.apply_updates
            (Main.sgd_update env)
            (Z.to_nat (Decay.total_epochs (Main.epochs args) num_epochs)
             * Main.steps_per_epoch env)
            (More.centroid_layer
               (Main.keras_backend env)
               (Layers.out_dim (Main.build_network env (Main.embed_dim args)))
               (Main.num_classes dg))).
Proof.
  intros Hc Hf H Hs. unfold Main.until_trained in H. unfold Main.bind at 1 in H.
  destruct (Main.load_classes env args Main.initial) as [[[[c cl] d]|e] s0] eqn:EL;
    [|discriminate].
  destruct (load_classes_without_centroids _ _ _ _ _ _ _ Hc EL) as [-> ->].
  unfold Main.build, Main.finetune_phase, Main.train_phase in H. rewrite Hf in H.
  unfold Main.bind, Main.emit, Main.lift, Main.put_model, Main.when, Main.ret,
    Main.raise, Main.compile, Main.fit_generator in H.
  simpl in H.
  destruct (Main.get_data_generator env cl) as [dg'|]; simpl in H; [|discriminate].
  destruct (Layers.center_loss_model _ _ _) as [mdl|] eqn:Hm; simpl in H;
    [|discriminate].
  apply center_loss_model_learned in Hm.
  destruct (Main.no_progress args); simpl in H;
    (destruct (Main.get_lr_schedule env args (Main.num_train dg')) as [ne|] eqn:Hs';
     simpl in H; [|discriminate]);
    (destruct (Decay.decay _ _ _ _ _) as [dc|]; simpl in H; [|discriminate]);
    injection H as <- <-; simpl;
    rewrite Hs' in Hs; injection Hs as <-;
    rewrite nth_error_train_steps_collected, Hm; try reflexivity;
    now rewrite (nth_map_trainable _ _ _ Hm).
Qed.

Lemma X16_learned_centroids_are_trained_witness :
  let s1 := snd (Main.until_trained Sample.env More.args_learned Main.initial) in
  nth_error (Main.st_layers s1) (Main.st_n_embed s1 + 4)
  = Some (More.apply_updates
            (Main.sgd_update Sample.env)
            (Z.to_nat (Decay.total_epochs (Main.epochs More.args_learned) 1)
             * Main.steps_per_epoch Sample.env)
            (More.centroid_layer
               (Main.keras_backend Sample.env)
               (Layers.out_dim
                  (Main.build_network Sample.env (Main.embed_dim More.args_learned)))
               3)).
Proof.
  apply (X16_learned_centroids_are_trained
           Sample.env More.args_learned (Main.mkData 3 30 3 [0; 1; 2]%Z)
           (snd (Main.until_trained Sample.env More.args_learned Main.initial)) 1).
  - reflexivity.
  - reflexivity.
  - vm_compute. reflexivity.
  - reflexivity.
Defined.

(** X17.  Order of the three exports of lines 191-206: in the trace of
    any run, every attempt to save the weights, to save the model or to
    dump the features comes after the average accuracy has been printed.
    Only these three events are meant: the TensorBoard log directory of
    lines 161-164, which is removed and written during training, is not
    part of the model. *)
Theorem X17_exports_follow_evaluation
        (env : Main.Env) (args : Main.Args)
        (pre post : list Main.event) (e : Main.event) :
  Main.st_trace (snd (Main.run env args)) = pre ++ e :: post ->
  More.is_export e = true ->
  exists acc, In (Main.PrintAverageAccuracy acc) pre.
Proof.
  intros Htr He.
  destruct (run_trace_shape env args) as (tr1 & tail & E & F & Htail).
  rewrite E in Htr. apply app_eq_app in Htr.
  destruct Htr as (l & [[Htr1 Hrest]|[Hpre Htl]]).
  - exfalso. destruct l as [|x l]; simpl in Hrest.
    + destruct Htail as [Ht|[Ht|(a & rest & Ht)]]; rewrite Ht in Hrest;
        try discriminate; injection Hrest as Hx; subst e; discriminate.
    + injection Hrest as Hx _. subst x tr1.
      rewrite Forall_forall in F.
      assert (Hin : In e (pre ++ e :: l)) by (apply in_elt).
      specialize (F e Hin). congruence.
  - subst pre.
    destruct Htail as [Ht|[Ht|(a & rest & Ht)]]; rewrite Ht in Htl.
    + destruct l; discriminate.
    + destruct l as [|x [|y l]]; try discriminate.
      injection Htl as Hx. subst e. discriminate.
    + destruct l as [|x [|y l]]; simpl in Htl.
      * injection Htl as Hx _. subst e. discriminate.
      * injection Htl as _ Hx _. subst e. discriminate.
      * injection Htl as Hx Hy _. subst x y. exists a.
        apply in_or_app. right. simpl. tauto.
Qed.

Lemma X17_exports_follow_evaluation_witness :
  exists acc,
    In (Main.PrintAverageAccuracy acc)
       (firstn 12 (Main.st_trace (snd (Main.run Sample.env Sample.args)))).
Proof.
  apply (X17_exports_follow_evaluation
           Sample.env Sample.args
           (firstn 12 (Main.st_trace (snd (Main.run Sample.env Sample.args))))
           (skipn 13 (Main.st_trace (snd (Main.run Sample.env Sample.args))))
           (Main.SaveWeights "/unwritable/w.h5")).
  - vm_compute. reflexivity.
  - reflexivity.
Defined.

(** X18.  The feature dump is not guarded: when it raises, after a
    training and an evaluation that succeeded, the run ends with that
    exception, the saving of the weights and of the model having been
    attempted before it. *)
Theorem X18_feature_dump_failure_aborts
        (env : Main.Env) (args : Main.Args) (dg : Main.data_generator)
        (s1 : Main.state) (e : string) :
  Main.until_trained env args Main.initial = (Main.Ok dg, s1) ->
  Evaluate.average_accuracy (Main.predict_classes env (Main.st_layers s1))
                            (Main.labels_test dg)
  <> Evaluate.Exception ->
  Py.truthy (Main.feature_dump args) = true ->
  Main.feature_dump_error env = Some e ->
  exists acc,
    Main.run env args
    = (Main.Raise e,
       Main.add_events s1
         ([Main.PrintMetrics; Main.PrintAverageAccuracy acc]
          ++ Main.save_events env args
          ++ [Main.DumpFeatures (Main.path_of (Main.feature_dump args))])).
Proof.
  intros H Hne Ht Hd. rewrite (run_after_training env args dg s1 H Hne).
  eexists. unfold Main.dump_features, Main.when, Main.bind, Main.emit, Main.raise.
  rewrite Ht, Hd. unfold Main.add_events. simpl.
  rewrite <- !app_assoc. reflexivity.
Qed.

Lemma X18_feature_dump_failure_aborts_witness :
  fst (Main.run More.env_feature_dump_fails More.args_learned)
  = Main.Raise "Permission denied".
Proof.
  destruct (Main.until_trained More.env_feature_dump_fails More.args_learned Main.initial)
    as [[dg|e] s1] eqn:E; [|vm_compute in E; discriminate].
  destruct (X18_feature_dump_failure_aborts
              More.env_feature_dump_fails More.args_learned dg s1 "Permission denied" E)
    as (acc & ->); try reflexivity.
  assert (Hv : (Main.Ok dg, s1)
               = Main.until_trained More.env_feature_dump_fails More.args_learned
                                    Main.initial) by (symmetry; exact E).
  vm_compute in Hv. injection Hv as -> ->. vm_compute. discriminate.
Defined.

(** X19.  An input file that cannot be read is fatal at once: with a
    centroid file that cannot be loaded, or without centroid file and with
    a class-list file that cannot be opened, the run raises right after
    the attempt, before the data set is requested and before any model is
    built. *)
Theorem X19_unreadable_input_is_fatal (env : Main.Env) (args : Main.Args) :
  (Py.truthy (Main.centroids args) = true ->
   Main.pickle_file env (Main.path_of (Main.centroids args)) = None ->
   exists e,
     Main.run env args
     = (Main.Raise e,
        Main.mkState [] 0 [] [Main.OpenPickle (Main.path_of (Main.centroids args))]))
  /\ (forall path,
         Py.truthy (Main.centroids args) = false ->
         Main.class_list args = Some path ->
         Main.text_file env path = None ->
         exists e,
           Main.run env args = (Main.Raise e, Main.mkState [] 0 [] [Main.OpenText path])).
Proof.
  split.
  - intros Hc Hp. eexists. apply run_training_raises.
    unfold Main.until_trained, Main.load_classes. rewrite Hc.
    unfold Main.path_of in Hp.
    unfold Main.bind, Main.emit, Main.lift, Main.raise. simpl. rewrite Hp. reflexivity.
  - intros path Hc Hcl Ht. eexists. apply run_training_raises.
    unfold Main.until_trained, Main.load_classes. rewrite Hc, Hcl.
    unfold Main.bind, Main.emit, Main.lift, Main.raise. simpl. rewrite Ht. reflexivity.
Qed.

Lemma X19_unreadable_input_is_fatal_witness :
  exists e,
    Main.run More.env_no_files Sample.args
    = (Main.Raise e, Main.mkState [] 0 [] [Main.OpenPickle "centroids.pickle"]).
Proof.
  apply (proj1 (X19_unreadable_input_is_fatal More.env_no_files Sample.args));
    reflexivity.
Defined.

(** X20.  With a centroid file the embedding size is the width of the
    centroid matrix: the run does not depend on [--embed_dim] (which only
    travels in the bag of arguments handed to the schedule factory, taken
    not to read it). *)
Theorem X20_centroid_file_overrides_embed_dim
        (env : Main.Env) (args : Main.Args) (d : Z) :
  Py.truthy (Main.centroids args) = true ->
  (forall n, Main.get_lr_schedule env (More.with_embed_dim args d) n
             = Main.get_lr_schedule env args n) ->
  Main.run env (More.with_embed_dim args d) = Main.run env args.
Proof.
  intros Hc Hsched. unfold Main.run, Main.main, Main.until_trained.
  apply bind_congr; [|reflexivity].
  apply bind_congr.
  - unfold Main.load_classes. cbn [Main.centroids More.with_embed_dim].
    rewrite Hc. reflexivity.
  - intros loaded s1. apply bind_congr; [reflexivity|]. intros dg s2.
    apply bind_congr; [reflexivity|]. intros _ s3.
    apply bind_congr; [|reflexivity].
    unfold Main.train_phase. rewrite Hsched. reflexivity.
Qed.

Lemma X20_centroid_file_overrides_embed_dim_witness :
  Main.run Sample.env (More.with_embed_dim Sample.args 7) = Main.run Sample.env Sample.args.
Proof.
  apply (X20_centroid_file_overrides_embed_dim Sample.env Sample.args 7); reflexivity.
Defined.

(** X21.  With a centroid file, the matrix always fits the lookup table
    when the embedding network has the output size it was asked for: if
    moreover the data set loads and the layer names are distinct, the model
    is built, and its lookup table holds the matrix of the file. *)
Theorem X21_centroid_file_builds_model
        (env : Main.Env) (args : Main.Args)
        (ind2label : ClassListFile.class_list) (embedding : Np.matrix)
        (dg : Main.data_generator) :
  let dim := snd (Layers.shape2 embedding) in
  Py.truthy (Main.centroids args) = true ->
  Main.pickle_file env (Main.path_of (Main.centroids args)) = Some (ind2label, embedding) ->
  Main.get_data_generator env (Some ind2label) = Some dg ->
  Layers.out_dim (Main.build_network env (Z.of_nat dim)) = dim ->
  Layers.unique (map Layers.name (Layers.net_layers (Main.build_network env (Z.of_nat dim)))
                 ++ Layers.head_layer_names (Main.keras_backend env)) = true ->
  exists s,
    Main.bind (Main.load_classes env args) (Main.build env args) Main.initial
    = (Main.Ok dg, s)
    /\ Main.st_centroid_table s = Some embedding
    /\ Main.st_trace s
       = Main.OpenPickle (Main.path_of (Main.centroids args))
         :: Main.GetDataGenerator (Some ind2label)
         :: (if Main.no_progress args then [] else [Main.Summary]).
Proof.
  intros dim Hc Hp Hd Hout Huniq. unfold Main.bind at 1.
  rewrite (load_classes_centroids env args Main.initial ind2label embedding Hc Hp).
  fold dim. unfold Main.build.
  unfold Main.bind, Main.emit, Main.lift, Main.put_model, Main.when, Main.ret. simpl.
  rewrite Hd. simpl.
  destruct (Layers.center_loss_model _ _ _) as [mdl|] eqn:Hm.
  - pose proof (center_loss_model_fixed _ _ _ _ Hm) as Hfix. simpl.
    destruct (Main.no_progress args); simpl; eexists;
      (split; [reflexivity|]); (split; [|reflexivity]);
      unfold Main.st_centroid_table, Layers.centroid_table; simpl; now rewrite Hfix.
  - exfalso. unfold Layers.center_loss_model, Layers.head_layer_names in *.
    cbv zeta in Hm. simpl fst in Hm.
    destruct (Z.ltb_spec (Z.of_nat (List.length embedding)) 0) as [?|_]; [lia|].
    fold dim in Hm. rewrite Hout, Nat.eqb_refl, map_app in Hm.
    cbn [map Layers.name] in Hm. rewrite Huniq in Hm. discriminate.
Qed.

Lemma X21_centroid_file_builds_model_witness :
  exists s,
    Main.bind (Main.load_classes Sample.env Sample.args)
              (Main.build Sample.env Sample.args) Main.initial
    = (Main.Ok (Main.mkData 3 30 3 [0; 1; 2]%Z), s)
    /\ Main.st_centroid_table s = Some Sample.centroids.
Proof.
  destruct (X21_centroid_file_builds_model
              Sample.env Sample.args (ClassListFile.IntLabels [0; 1; 2]%Z)
              Sample.centroids (Main.mkData 3 30 3 [0; 1; 2]%Z))
    as (s & E & T & _); try reflexivity.
  exists s. split; assumption.
Defined.

Section FinetuneMore.

Import Layers Main.

Lemma bind_ok_inv {A B} (m : M A) (k : A -> M B) (s s' : state) (b : B) :
  bind m k s = (Ok b, s') -> exists a s0, m s = (Ok a, s0) /\ k a s0 = (Ok b, s').
Proof.
  unfold bind. destruct (m s) as [[a|e] s0]; intros H; [eauto|discriminate].
Qed.

Lemma finetune_phase_unfreezes env args s s' :
  Py.truthy (finetune args) = true ->
  finetune_phase env args s = (Ok tt, s') ->
  Forall (fun l => trainable l = true) (st_layers s').
Proof.
  intros Ht. unfold finetune_phase. rewrite Ht.
  unfold load_weights, bind, emit, lift, get_layers, put_layers, unfreeze_last_embed,
    compile, fit_generator, ret, raise. simpl.
  destruct (weight_file env _); simpl; [|discriminate].
  destruct (st_n_embed s); simpl; [discriminate|].
  intros H. injection H as <-. simpl.
  apply Forall_map, Forall_forall. reflexivity.
Qed.

Lemma train_phase_collects env args dg s s' :
  train_phase env args dg s = (Ok tt, s') ->
  st_collected s' = map trainable (st_layers s)
  /\ List.length (st_layers s') = List.length (st_layers s).
Proof.
  unfold train_phase, bind, lift, compile, fit_generator, ret, raise.
  destruct (get_lr_schedule env args (num_train dg)); simpl; [|discriminate].
  destruct (Decay.decay _ _ _ _ _); simpl; [|discriminate].
  intros H. injection H as <-. simpl. split; [reflexivity|].
  rewrite <- (length_map name), train_steps_names. apply length_map.
Qed.

End FinetuneMore.

(** X22.  In a run that fine-tunes, the full training that follows
    collects every layer of the model for training, whatever was frozen
    when the model was built. *)
Theorem X22_full_training_after_finetune_trains_all
        (env : Main.Env) (args : Main.Args) (dg : Main.data_generator) (s1 : Main.state) :
  Py.truthy (Main.finetune args) = true ->
  Main.until_trained env args Main.initial = (Main.Ok dg, s1) ->
  Forall (fun b => b = true) (Main.st_collected s1)
  /\ List.length (Main.st_collected s1) = List.length (Main.st_layers s1).
Proof.
  intros Ht H. unfold Main.until_trained in H.
  apply bind_ok_inv in H. destruct H as (loaded & s0 & _ & H).
  apply bind_ok_inv in H. destruct H as (dg' & s2 & _ & H).
  apply bind_ok_inv in H. destruct H as ([] & s3 & Hfine & H).
  apply bind_ok_inv in H. destruct H as ([] & s4 & Htrain & H).
  unfold Main.ret in H. injection H as _ <-.
  pose proof (finetune_phase_unfreezes env args s2 s3 Ht Hfine) as Hall.
  destruct (train_phase_collects env args dg' s3 s4 Htrain) as [Hc Hl].
  rewrite Hc, Hl, length_map. split; [|reflexivity].
  apply Forall_map. eapply Forall_impl; [|exact Hall]. auto.
Qed.

Lemma X22_full_training_after_finetune_trains_all_witness :
  Forall (fun b => b = true)
         (Main.st_collected (snd (Main.until_trained Sample.env Sample.args Main.initial))).
Proof.
  apply (X22_full_training_after_finetune_trains_all
           Sample.env Sample.args (Main.mkData 3 30 3 [0; 1; 2]%Z)
           (snd (Main.until_trained Sample.env Sample.args Main.initial))).
  - reflexivity.
  - vm_compute. reflexivity.
Defined.
